(** * The user daemon's session core (package [trafficmgr]), embedded in Rocq

    The Go functions of [session] are translated into a state monad over
    an abstract world.  Every interaction with a collaborator (the
    traffic-manager client, the root daemon, the user cache, the logger,
    the scheduler behind [select]) is an operation [Op X]; the world
    answers it, and the answered operation is appended to the list of
    calls of the run, so that statements about "what was called, with
    which arguments, in which order" are statements about that list. *)

From Stdlib Require Import ZArith Lia.
From Stdlib Require Import Ascii String.
From stdpp Require Import gmap strings list sorting.

Open Scope string_scope.
Open Scope list_scope.
Open Scope Z_scope.

(** ** gRPC status codes ([google.golang.org/grpc/codes]) *)

Module codes.

Inductive Code : Set :=
| OK | Canceled | Unknown | InvalidArgument | DeadlineExceeded | NotFound
| AlreadyExists | PermissionDenied | ResourceExhausted | FailedPrecondition
| Aborted | OutOfRange | Unimplemented | Internal | Unavailable | DataLoss
| Unauthenticated.

#[global] Instance Code_eq_dec : EqDecision Code.
Proof. solve_decision. Defined.

End codes.

(** ** Go errors

    [ErrSessionExpired] is the package variable of that name: a value
    compared by identity, hence a constructor of its own.  [WrapError] is
    [fmt.Errorf("...: %w", err)], [ShowError] is [fmt.Errorf("...: %v",
    err)], which does not wrap. *)

Inductive error : Set :=
| ErrSessionExpired
| StatusError (c : codes.Code) (msg : string)
| ErrorString (msg : string)
| UserError (msg : string)
| ContextError (deadline : bool)
| WrapError (msg : string) (cause : error)
| ShowError (msg : string) (shown : error).

(** [codes.Code.String()] *)
Definition Code_String (c : codes.Code) : string :=
  match c with
  | codes.OK => "OK"
  | codes.Canceled => "Canceled"
  | codes.Unknown => "Unknown"
  | codes.InvalidArgument => "InvalidArgument"
  | codes.DeadlineExceeded => "DeadlineExceeded"
  | codes.NotFound => "NotFound"
  | codes.AlreadyExists => "AlreadyExists"
  | codes.PermissionDenied => "PermissionDenied"
  | codes.ResourceExhausted => "ResourceExhausted"
  | codes.FailedPrecondition => "FailedPrecondition"
  | codes.Aborted => "Aborted"
  | codes.OutOfRange => "OutOfRange"
  | codes.Unimplemented => "Unimplemented"
  | codes.Internal => "Internal"
  | codes.Unavailable => "Unavailable"
  | codes.DataLoss => "DataLoss"
  | codes.Unauthenticated => "Unauthenticated"
  end.

(** [err.Error()] *)
Fixpoint Error (e : error) : string :=
  match e with
  | ErrSessionExpired => "session expired"
  | StatusError c msg => "rpc error: code = " +:+ Code_String c +:+ " desc = " +:+ msg
  | ErrorString msg => msg
  | UserError msg => msg
  | ContextError deadline =>
      if deadline then "context deadline exceeded" else "context canceled"
  | WrapError msg cause => msg +:+ ": " +:+ Error cause
  | ShowError msg shown => msg +:+ ": " +:+ Error shown
  end.

(** Is the error a gRPC status, or does it wrap one? *)
Fixpoint is_status (e : error) : bool :=
  match e with
  | StatusError _ _ => true
  | WrapError _ cause => is_status cause
  | _ => false
  end.

(** [status.Code(err)] for a non-nil [err]: the code of the status the
    error is or wraps, [Unknown] for every other error. *)
Fixpoint status_Code (e : error) : codes.Code :=
  match e with
  | StatusError c _ => c
  | WrapError _ cause => status_Code cause
  | _ => codes.Unknown
  end.

(** [status.FromError(err)] for a non-nil [err]: [ok] with the code and
    message of the status; the message of a wrapped status is the text of
    the whole error. *)
Definition status_FromError (e : error) : option (codes.Code * string) :=
  match e with
  | StatusError c msg => Some (c, msg)
  | _ => if is_status e then Some (status_Code e, Error e) else None
  end.

(** ** Contexts and durations

    A [time.Duration] is a number of nanoseconds.  A context is kept as
    the chain of derivations from the context the caller passed in. *)

Definition Duration := Z.
Definition Millisecond : Duration := 1000000.
Definition Second : Duration := 1000 * Millisecond.

Inductive TimeoutID : Set :=
| TimeoutTrafficManagerAPI
| TimeoutTrafficManagerConnect.

Inductive Context : Set :=
| CallerContext
| WithTimeout (parent : Context) (d : Duration)
| WithoutCancel (parent : Context).

(** Does cancelling the caller's context still reach this context? *)
Fixpoint cancelled_with_caller (c : Context) : bool :=
  match c with
  | CallerContext => true
  | WithTimeout parent _ => cancelled_with_caller parent
  | WithoutCancel _ => false
  end.

(** The timeout that was put on the context last, if any. *)
Definition own_timeout (c : Context) : option Duration :=
  match c with
  | WithTimeout _ d => Some d
  | _ => None
  end.

(** ** Messages of the manager, connector and root-daemon protocols

    Only the fields the session core reads or writes are kept. *)

Record SessionInfo : Set := { SessionId : string }.

#[global] Instance SessionInfo_eq_dec : EqDecision SessionInfo.
Proof. solve_decision. Defined.

Record ClientInfo : Set := {
  ci_Name : string;
  ci_Namespace : string;
  ci_InstallId : string;
  ci_Product : string;
  ci_Version : string
}.

Record VersionInfo : Set := { vi_Name : string; vi_Version : string }.

(** [semver.Version] without its pre-release and build parts, which the
    session core never reads. *)
Record Version : Set := { Major : N; Minor : N; Patch : N }.

(** [daemon.Identifier] *)
Record Identifier : Set := {
  id_Name : string;
  id_KubeContext : string;
  id_Namespace : string;
  id_Containerized : bool
}.

Record Cluster : Set := {
  cl_Context : string;
  cl_Namespace : string
}.

Record SubnetViaWorkload : Set := { svw_Subnet : string; svw_Workload : string }.

Record ConnectRequest : Set := {
  cr_Name : string;
  cr_ClientId : string;
  cr_IsPodDaemon : bool;
  cr_SubnetViaWorkloads : list SubnetViaWorkload;
  cr_KubeFlags : list (string * string);
  cr_KubeconfigData : option string
}.

Record NetworkConfig : Set := {
  nc_Session : SessionInfo;
  nc_ClientConfig : string;
  nc_HomeDir : string;
  nc_Namespace : string;
  nc_SubnetViaWorkloads : list SubnetViaWorkload;
  nc_KubeFlags : list (string * string);
  nc_KubeconfigData : option string
}.

(** [rootdRpc.OutboundConfig] and [rootdRpc.DaemonStatus]; both pointers
    may be nil. *)
Record OutboundConfig : Set := { oc_Session : option SessionInfo }.
Record DaemonStatus : Set := { ds_OutboundConfig : option OutboundConfig }.

(** [rootStatus.OutboundConfig.Session], or nothing when
    [oc == nil || oc.Session == nil]. *)
Definition OutboundConfig_Session (rootStatus : DaemonStatus) : option SessionInfo :=
  match ds_OutboundConfig rootStatus with
  | None => None
  | Some oc => oc_Session oc
  end.

(** ** Workloads *)

(** Modelled from the spec: the enum [manager.WorkloadInfo_Kind] is
    declared in the rpc package, which is not among the sources; the
    kinds are those of the spec's data model, and [Kind_String] gives
    the upper-case names a snapshot shows. *)
Inductive WorkloadInfo_Kind : Set :=
| WorkloadInfo_UNSPECIFIED
| WorkloadInfo_DEPLOYMENT
| WorkloadInfo_REPLICASET
| WorkloadInfo_STATEFULSET
| WorkloadInfo_ROLLOUT.

#[global] Instance Kind_eq_dec : EqDecision WorkloadInfo_Kind.
Proof. solve_decision. Defined.

Definition Kind_String (k : WorkloadInfo_Kind) : string :=
  match k with
  | WorkloadInfo_UNSPECIFIED => "UNSPECIFIED"
  | WorkloadInfo_DEPLOYMENT => "DEPLOYMENT"
  | WorkloadInfo_REPLICASET => "REPLICASET"
  | WorkloadInfo_STATEFULSET => "STATEFULSET"
  | WorkloadInfo_ROLLOUT => "ROLLOUT"
  end.

Definition Kind_to_nat (k : WorkloadInfo_Kind) : nat :=
  match k with
  | WorkloadInfo_UNSPECIFIED => 0
  | WorkloadInfo_DEPLOYMENT => 1
  | WorkloadInfo_REPLICASET => 2
  | WorkloadInfo_STATEFULSET => 3
  | WorkloadInfo_ROLLOUT => 4
  end%nat.

Definition Kind_of_nat (n : nat) : option WorkloadInfo_Kind :=
  match n with
  | 0 => Some WorkloadInfo_UNSPECIFIED
  | 1 => Some WorkloadInfo_DEPLOYMENT
  | 2 => Some WorkloadInfo_REPLICASET
  | 3 => Some WorkloadInfo_STATEFULSET
  | 4 => Some WorkloadInfo_ROLLOUT
  | _ => None
  end%nat.

#[global] Instance Kind_countable : Countable WorkloadInfo_Kind.
Proof.
  refine (inj_countable Kind_to_nat Kind_of_nat _).
  intros k. destruct k; reflexivity.
Defined.

(** Modelled from the spec: [workload.State] and its [String] method are
    declared in package [workload], of which only util.go is among the
    sources; the states are those the spec's data model names, and
    [State_String] is the name of the state. *)
Inductive State : Set :=
| StateAvailable
| StateProgressing
| StateFailed
| StateNotFound.

#[global] Instance State_eq_dec : EqDecision State.
Proof. solve_decision. Defined.

Definition State_String (st : State) : string :=
  match st with
  | StateAvailable => "Available"
  | StateProgressing => "Progressing"
  | StateFailed => "Failed"
  | StateNotFound => "NotFound"
  end.

Inductive WorkloadInfo_AgentState : Set :=
| NO_AGENT_UNSPECIFIED
| AGENT_INSTALLED
| AGENT_INTERCEPTED.

Record workloadInfoKey : Set := {
  key_kind : WorkloadInfo_Kind;
  key_name : string
}.

#[global] Instance workloadInfoKey_eq_dec : EqDecision workloadInfoKey.
Proof. solve_decision. Defined.

#[global] Instance workloadInfoKey_countable : Countable workloadInfoKey.
Proof.
  refine (inj_countable'
            (fun k => (key_kind k, key_name k))
            (fun p => {| key_kind := fst p; key_name := snd p |}) _).
  intros k. destruct k; reflexivity.
Defined.

Record workloadInfo : Set := {
  wl_uid : string;
  wl_state : State;
  wl_agentState : WorkloadInfo_AgentState;
  wl_interceptClients : list string
}.

(** [session.workloads]: namespace, then kind and name. *)
Abbreviation Workloads := (gmap string (gmap workloadInfoKey workloadInfo)).

(** [workload.Kind], the kinds the local watcher can enable; [NoKind] is
    the zero value a slot keeps when the [switch] matches no case. *)
Inductive workload_Kind : Set :=
| NoKind
| DeploymentKind
| ReplicaSetKind
| StatefulSetKind
| RolloutKind.

Inductive EventType : Set :=
| EventTypeAdd
| EventTypeUpdate
| EventTypeDelete.

#[global] Instance EventType_eq_dec : EqDecision EventType.
Proof. solve_decision. Defined.

(** What the local watcher reads of a [k8sapi.Workload]: [GetKind()],
    [GetName()], [GetUID()] and [workload.GetWorkloadState(w)]. *)
Record k8s_Workload : Set := {
  w_Kind : string;
  w_Name : string;
  w_UID : string;
  w_State : State
}.

Record WorkloadEvent : Set := {
  we_Type : EventType;
  we_Workload : k8s_Workload
}.

(** The two watchers [ensureWatchers] chooses between. *)
Inductive Watcher : Set :=
| Go_workloadsWatcher
| Go_localWorkloadsWatcher.

#[global] Instance Watcher_eq_dec : EqDecision Watcher.
Proof. solve_decision. Defined.

Inductive WatchSelect : Set :=
| WatchCtxDone
| WatchBatch (wls : option (list WorkloadEvent)).

(** [manager.InterceptInfo] with the fields of its [Spec] that are read. *)
Record InterceptSpec : Set := {
  spec_Name : string;
  spec_Namespace : string;
  spec_Agent : string
}.

Record InterceptInfo : Set := {
  ii_Id : string;
  ii_Spec : InterceptSpec
}.

Record ingestKey : Set := {
  ik_workload : string;
  ik_container : string
}.

Record IngestInfo : Set := {
  gi_Workload : string;
  gi_Container : string
}.

Record AgentInfo : Set := {
  ai_Name : string;
  ai_Version : string
}.

(** [rpc.WorkloadInfo] *)
Record WorkloadInfo : Set := {
  wi_Name : string;
  wi_Namespace : string;
  wi_WorkloadResourceType : string;
  wi_Uid : string;
  wi_NotInterceptableReason : string;
  wi_InterceptInfos : list InterceptInfo;
  wi_IngestInfos : list IngestInfo;
  wi_AgentVersion : string
}.

(** The values of the [rpc.ListRequest_Filter] flags.  The enum is
    declared in the rpc package, which is not among the sources, so the
    values are parameters of the model. *)
Record ListRequest_Filter : Set := {
  ListRequest_INTERCEPTS : Z;
  ListRequest_INGESTS : Z;
  ListRequest_INSTALLED_AGENTS : Z;
  ListRequest_EVERYTHING : Z
}.

(** The order in which a [for ... range] visits a Go map is not
    specified and may differ from one loop to the next: [range_order i m]
    is the order of the [i]-th loop over [m], any enumeration of [m]. *)
Record RangeOrder (K V : Type) `{Countable K} : Type := {
  range_order : nat -> gmap K V -> list (K * V);
  range_order_perm : forall (i : nat) (m : gmap K V), range_order i m ≡ₚ map_to_list m
}.

Arguments range_order {K V _ _} _ _ _.
Arguments range_order_perm {K V _ _} _ _ _.

(** The enumeration of stdpp, for running the model. *)
Definition range_in_key_order {K V : Type} `{Countable K} : RangeOrder K V :=
  {| range_order := fun _ m => map_to_list m;
     range_order_perm := fun _ m => reflexivity (map_to_list m) |}.

(** [strings.ToLower] on the ASCII letters; the kind names [rpcKind]
    compares with are ASCII. *)
Definition ascii_ToLower (a : ascii) : ascii :=
  let n := nat_of_ascii a in
  if ((65 <=? n) && (n <=? 90))%nat then ascii_of_nat (n + 32) else a.

Fixpoint ToLower (s : string) : string :=
  match s with
  | EmptyString => EmptyString
  | String a rest => String (ascii_ToLower a) (ToLower rest)
  end.

(** [func rpcKind(s string) manager.WorkloadInfo_Kind] *)
Definition rpcKind (s : string) : WorkloadInfo_Kind :=
  let l := ToLower s in
  if bool_decide (l = "deployment") then WorkloadInfo_DEPLOYMENT
  else if bool_decide (l = "replicaset") then WorkloadInfo_REPLICASET
  else if bool_decide (l = "statefulset") then WorkloadInfo_STATEFULSET
  else if bool_decide (l = "rollout") then WorkloadInfo_ROLLOUT
  else WorkloadInfo_UNSPECIFIED.

(** One event of a batch of the local watcher, applied to the workloads
    of its namespace. *)
Definition apply_local_event (workloads : gmap workloadInfoKey workloadInfo)
    (we : WorkloadEvent) : gmap workloadInfoKey workloadInfo :=
  let w := we_Workload we in
  let key := {| key_kind := rpcKind (w_Kind w); key_name := w_Name w |} in
  if bool_decide (we_Type we = EventTypeDelete)
  then delete key workloads
  else <[key := {| wl_uid := w_UID w; wl_state := w_State w;
                   wl_agentState := NO_AGENT_UNSPECIFIED;
                   wl_interceptClients := [] |}]> workloads.

(** [managerHasWatcherSupport] of [ensureWatchers] *)
Definition managerHasWatcherSupport (v : Version) : bool :=
  ((2 <? Major v) || (Major v =? 2) && (20 <? Minor v))%N.

(** "The manager version is at least 2.21", in the words of the
    specification: major and minor compared as a pair. *)
Definition version_at_least_2_21 (v : Version) : Prop :=
  (2 < Major v \/ (Major v = 2 /\ 21 <= Minor v))%N.

(** ** Operations on the collaborators *)

Inductive LogLevel : Set := LogError | LogWarn | LogInfo | LogDebug.

Inductive LogArg : Type :=
| ArgString (s : string)
| ArgStrings (l : list string)
| ArgError (e : error)
| ArgVersion (v : Version).

(** An error of the Kubernetes client: a [k8serrors.StatusError] with
    its HTTP code, or any other error; both with their text. *)
Inductive K8sError : Set :=
| K8sStatusError (code : Z) (text : string)
| K8sOtherError (text : string).

Definition K8sError_text (e : K8sError) : string :=
  match e with
  | K8sStatusError _ text => text
  | K8sOtherError text => text
  end.

(** Which case of a [select] fired. *)
Inductive RemainSelect : Set :=
| RemainCtxDone
| RemainTick.

Inductive Op : Type -> Type :=
(* logging and scheduling *)
| OpLog (lvl : LogLevel) (format : string) (args : list LogArg) : Op unit
| OpCtxErr (c : Context) : Op (option error)
| OpNewTicker (d : Duration) : Op unit
| OpTickerStop : Op unit
| OpSelectRemain (c : Context) : Op RemainSelect
(* the traffic-manager client and its connection *)
| OpRemain (c : Context) (req : SessionInfo) : Op (option error)
| OpArriveAsClient (c : Context) (ci : ClientInfo) : Op (error + SessionInfo)
| OpDepart (c : Context) (si : SessionInfo) : Op (option error)
| OpManagerConnClose : Op unit
| OpCheckTimeout (c : Context) (e : error) : Op error
(* the session cache of the user *)
| OpLoadSessionInfoFromUserCache (c : Context) (id : Identifier)
  : Op (error + option SessionInfo)
| OpSaveSessionInfoToUserCache (c : Context) (id : Identifier) (si : SessionInfo)
  : Op (option error)
| OpDeleteSessionInfoFromUserCache (c : Context) (id : Identifier)
  : Op (option error)
(* the cluster and the host, as connectMgr sees them *)
| OpGetManagerNamespace (c : Context) : Op string
| OpGetService (c : Context) (namespace name : string) : Op (option K8sError)
| OpConnectToManager (c : Context) (namespace : string) : Op (error + VersionInfo)
| OpUserCurrent : Op (error + string)
| OpHostname : Op (error + string)
| OpRunningInContainer : Op bool
| OpNewIdentifier (name kubeContext namespace : string) (containerized : bool)
  : Op (error + Identifier)
| OpSetManagerClient (opts : list Z) : Op unit
(* the root daemon *)
| OpRootSessionInProcess : Op bool
| OpNewInProcSession (c : Context) (nc : NetworkConfig) (managerVersion : Version)
    (isPodDaemon : bool) : Op (option error)
| OpRootSessionStart (c : Context) : Op (option error)
| OpSocketDialRootDaemon (c : Context) : Op (option error)
| OpRootConnClose : Op unit
| OpRootConnect (c : Context) (nc : NetworkConfig) : Op (error + DaemonStatus)
| OpRootDisconnect (c : Context) : Op (option error)
| OpRootWaitForNetwork (c : Context) : Op (option error)
(* the workloads map, shared with the watchers, and the watchers *)
| OpWorkloadsLock (seen : Workloads) : Op Workloads
| OpWorkloadsUnlock : Op unit
| OpWakeSubscribers : Op unit
| OpWgAdd (n : nat) : Op unit
| OpWgDone : Op unit
| OpWgWait : Op unit
| OpGo (w : Watcher) (namespace : string) : Op unit
| OpGetKnownWorkloadKinds (c : Context) (si : SessionInfo)
  : Op (error + list WorkloadInfo_Kind)
| OpInformerGetFactory (namespace : string) : Op bool
| OpInformerWithFactory (namespace : string) : Op unit
| OpStartInformer (k : workload_Kind) (namespace : string) : Op unit
| OpStartArgoRolloutsInformerFactory : Op unit
| OpStartK8sInformerFactory : Op unit
| OpNewWatcher (c : Context) (namespace : string) (kinds : list workload_Kind)
  : Op (option error)
| OpWaitForCacheSync : Op unit
| OpSubscribe (c : Context) : Op unit
| OpSelectWorkloads (c : Context) : Op WatchSelect
(* what a snapshot reads of the session *)
| OpGetCurrentIntercepts : Op (list InterceptInfo)
| OpGetCurrentAgents : Op (list AgentInfo)
| OpRangeIngests : Op (list (ingestKey * IngestInfo))
| OpActualNamespace (namespace : string) : Op string.

(** An answered operation. *)
Inductive Call : Type :=
| Called {X : Type} (op : Op X) (answer : X).

(** [rootdRpc.DaemonClient]: the root session run in-process, or the
    client on the connection to the root daemon's socket. *)
Inductive DaemonClient : Set :=
| InProcSession
| SocketClient.

(** ** The snapshot of the workloads, on the map held under the lock *)

Section Snapshot.

Variable F : ListRequest_Filter.
Variable workloads_order : RangeOrder workloadInfoKey workloadInfo.
Variable infos_order : RangeOrder string WorkloadInfo.

(** The two nested loops of [eachWorkload]; [do] works on the state [A]
    its closure captures, and [i] numbers the inner loops. *)
Fixpoint eachWorkload_from {A : Type} (i : nat) (ws : Workloads) (namespaces : list string)
    (do : WorkloadInfo_Kind -> string -> string -> workloadInfo -> A -> A) (acc : A) : A :=
  match namespaces with
  | [] => acc
  | ns :: namespaces' =>
      let acc :=
        match ws !! ns with
        | Some workloads =>
            foldl (fun acc kv => do (key_kind (fst kv)) (key_name (fst kv)) ns (snd kv) acc)
              acc (range_order workloads_order i workloads)
        | None => acc
        end in
      eachWorkload_from (S i) ws namespaces' do acc
  end.

(** [filterMatch] once the three maps have been looked up for [name]. *)
Definition filterMatch_of (iMap : gmap string (list InterceptInfo))
    (gMap : gmap string (list IngestInfo)) (sMap : gmap string string)
    (name : string) : Z :=
  let filterMatch := ListRequest_EVERYTHING F in
  let filterMatch :=
    if iMap !! name is Some _ then filterMatch
    else Z.land filterMatch (Z.lnot (ListRequest_INTERCEPTS F)) in
  let filterMatch :=
    if gMap !! name is Some _ then filterMatch
    else Z.land filterMatch (Z.lnot (ListRequest_INGESTS F)) in
  let filterMatch :=
    if sMap !! name is Some _ then filterMatch
    else Z.land filterMatch (Z.lnot (ListRequest_INSTALLED_AGENTS F)) in
  filterMatch.

(** The [wlInfo] the closure of [getInfosForWorkloads] builds. *)
Definition wlInfo_of (iMap : gmap string (list InterceptInfo))
    (gMap : gmap string (list IngestInfo)) (sMap : gmap string string)
    (wlKind : WorkloadInfo_Kind) (name namespace : string) (info : workloadInfo)
  : WorkloadInfo :=
  {| wi_Name := name;
     wi_Namespace := namespace;
     wi_WorkloadResourceType := Kind_String wlKind;
     wi_Uid := wl_uid info;
     wi_NotInterceptableReason :=
       if bool_decide (wl_state info <> StateAvailable)
       then State_String (wl_state info) else "";
     wi_InterceptInfos := default [] (iMap !! name);
     wi_IngestInfos := default [] (gMap !! name);
     wi_AgentVersion := default "" (sMap !! name) |}.

(** [fmt.Sprintf("%s:%s.%s", kind, name, namespace)] *)
Definition wiMap_key (kind name namespace : string) : string :=
  kind +:+ ":" +:+ name +:+ "." +:+ namespace.

(** Does the closure return before it stores the entry? *)
Definition filtered_out (iMap : gmap string (list InterceptInfo))
    (gMap : gmap string (list IngestInfo)) (sMap : gmap string string)
    (filter : Z) (name : string) : bool :=
  bool_decide (filter <> 0)
  && bool_decide (Z.land filter (filterMatch_of iMap gMap sMap name) = 0).

(** The closure [getInfosForWorkloads] passes to [eachWorkload]. *)
Definition collect_wlInfo (iMap : gmap string (list InterceptInfo))
    (gMap : gmap string (list IngestInfo)) (sMap : gmap string string) (filter : Z)
    (wlKind : WorkloadInfo_Kind) (name namespace : string) (info : workloadInfo)
    (wiMap : gmap string WorkloadInfo) : gmap string WorkloadInfo :=
  let wlInfo := wlInfo_of iMap gMap sMap wlKind name namespace info in
  if filtered_out iMap gMap sMap filter name then wiMap
  else <[wiMap_key (Kind_String wlKind) name namespace := wlInfo]> wiMap.

(** The [less] of the final [sort.Slice]. *)
Definition less_Name (a b : WorkloadInfo) : bool := String.ltb (wi_Name a) (wi_Name b).

(** What [sort.Slice] leaves: no element is less than one before it. *)
Definition not_less_before (a b : WorkloadInfo) : Prop := less_Name b a = false.

#[global] Instance not_less_before_dec : RelDecision not_less_before.
Proof. intros a b. unfold not_less_before. apply _. Defined.

(** [sort.Slice(wiz, less)]: the library's sort is not stable; the
    merge sort of stdpp stands for it, and the order in which equal names
    come out is open in the order of its input. *)
Definition sort_Slice_by_Name (wiz : list WorkloadInfo) : list WorkloadInfo :=
  merge_sort not_less_before wiz.

Definition getInfosForWorkloads_wiMap (ws : Workloads) (namespaces : list string)
    (iMap : gmap string (list InterceptInfo)) (gMap : gmap string (list IngestInfo))
    (sMap : gmap string string) (filter : Z) : gmap string WorkloadInfo :=
  eachWorkload_from 0 ws namespaces (collect_wlInfo iMap gMap sMap filter) ∅.

(** [getInfosForWorkloads] on the workloads map [ws] that [eachWorkload]
    holds under the lock. *)
Definition getInfosForWorkloads_locked (ws : Workloads) (namespaces : list string)
    (iMap : gmap string (list InterceptInfo)) (gMap : gmap string (list IngestInfo))
    (sMap : gmap string string) (filter : Z) : list WorkloadInfo :=
  let wiMap := getInfosForWorkloads_wiMap ws namespaces iMap gMap sMap filter in
  let wiz := snd <$> range_order infos_order 0 wiMap in
  sort_Slice_by_Name wiz.

(** The maps [WorkloadInfoSnapshot] builds for [getInfosForWorkloads]. *)
Definition add_intercept (nss : list string) (iMap : gmap string (list InterceptInfo))
    (i : InterceptInfo) : gmap string (list InterceptInfo) :=
  if bool_decide (spec_Namespace (ii_Spec i) ∈ nss)
  then <[spec_Agent (ii_Spec i) := default [] (iMap !! spec_Agent (ii_Spec i)) ++ [i]]> iMap
  else iMap.

Definition add_ingest (gMap : gmap string (list IngestInfo))
    (kv : ingestKey * IngestInfo) : gmap string (list IngestInfo) :=
  <[ik_workload (fst kv) := default [] (gMap !! ik_workload (fst kv)) ++ [snd kv]]> gMap.

Definition add_agent (sMap : gmap string string) (a : AgentInfo) : gmap string string :=
  <[ai_Name a := ai_Version a]> sMap.

(** [filter&(INTERCEPTS|INGESTS|INSTALLED_AGENTS) != 0] *)
Definition filter_on_connected_namespace (filter : Z) : bool :=
  bool_decide
    (Z.land filter
       (Z.lor (Z.lor (ListRequest_INTERCEPTS F) (ListRequest_INGESTS F))
          (ListRequest_INSTALLED_AGENTS F)) <> 0).

End Snapshot.

(** ** The session *)

Record session : Type := {
  Namespace : string;
  installID : string;
  clientID : string;
  managerName : string;
  managerVersion : Version;
  daemonID : Identifier;
  sessionInfo : SessionInfo;
  isPodDaemon : bool;
  subnetViaWorkloads : list SubnetViaWorkload
}.

(** ** The monad: a world that answers, the workloads map, the calls *)

Section Monad.

Context {W : Type}.

Record St : Type := {
  world : W;
  workloads : Workloads;
  calls : list Call
}.

Definition M (A : Type) : Type := St -> A * St.

#[global] Instance M_ret : MRet M := fun A a st => (a, st).

#[global] Instance M_bind : MBind M :=
  fun A B f m st => let '(a, st') := m st in f a st'.

(** The environment: how the world answers, the configuration the
    session reads, the values of the filter flags, and the orders in
    which the runtime ranges over the two maps of a snapshot. *)
Record Env : Type := {
  handle : forall X : Type, Op X -> W -> X * W;
  timeouts_Get : TimeoutID -> Duration;
  grpc_MaxReceiveSize : Z;
  client_Version : string;
  semver_Parse : string -> error + Version;
  filter_values : ListRequest_Filter;
  workloads_order : RangeOrder workloadInfoKey workloadInfo;
  infos_order : RangeOrder string WorkloadInfo
}.

Variable env : Env.

(** The state after the world, now [w], answered [op] with [x]. *)
Definition answered {X : Type} (op : Op X) (x : X) (w : W) (st : St) : St :=
  {| world := w; workloads := workloads st; calls := calls st ++ [Called op x] |}.

Definition call {X : Type} (op : Op X) : M X :=
  fun st =>
    let '(x, w) := handle env X op (world st) in
    (x, answered op x w st).

(** [client.GetConfig(ctx).Timeouts().TimeoutContext(ctx, id)] *)
Definition TimeoutContext (c : Context) (id : TimeoutID) : Context :=
  WithTimeout c (timeouts_Get env id).

(** [func (s *session) SessionInfo() *manager.SessionInfo] *)
Definition SessionInfo_of (s : session) : SessionInfo := sessionInfo s.

(** [func (s *session) NewRemainRequest() *manager.RemainRequest] *)
Definition NewRemainRequest (s : session) : SessionInfo := SessionInfo_of s.

(** [func (s *session) Remain(ctx context.Context) error]; [s.self] is
    the session itself, as [connectMgr] sets it. *)
Definition Remain (s : session) (ctx : Context) : M (option error) :=
  let ctx := TimeoutContext ctx TimeoutTrafficManagerAPI in
  err ← call (OpRemain ctx (NewRemainRequest s));
  match err with
  | Some e =>
      if bool_decide (status_Code e = codes.NotFound)
         || bool_decide (status_Code e = codes.Unavailable)
      then mret (Some ErrSessionExpired)
      else
        e' ← call (OpCheckTimeout ctx e);
        call (OpLog LogError "error calling Remain: %v" [ArgError e']);;
        mret None
  | None => mret None
  end.

(** The deferred function of [remainLoop]. *)
Definition remainLoop_deferred (s : session) (c : Context) : M unit :=
  call OpTickerStop;;
  let c := WithoutCancel c in
  let c := WithTimeout c (3 * Second) in
  err ← call (OpDepart c (SessionInfo_of s));
  match err with
  | Some e => call (OpLog LogError "failed to depart from manager: %v" [ArgError e])
  | None =>
      err ← call (OpDeleteSessionInfoFromUserCache c (daemonID s));
      match err with
      | Some e =>
          call (OpLog LogError "failed to delete session from user cache: %v" [ArgError e])
      | None => mret tt
      end
  end;;
  call OpManagerConnClose.

(** The [for { select { ... } }] of [remainLoop]; [None] when the loop is
    still running after [fuel] rounds, [Some r] when it returned [r]. *)
Fixpoint remainLoop_for (fuel : nat) (s : session) (c : Context)
  : M (option (option error)) :=
  match fuel with
  | O => mret None
  | S fuel' =>
      sel ← call (OpSelectRemain c);
      match sel with
      | RemainCtxDone => mret (Some None)
      | RemainTick =>
          err ← Remain s c;
          match err with
          | Some e => mret (Some (Some e))
          | None => remainLoop_for fuel' s c
          end
      end
  end.

(** [func (s *session) remainLoop(c context.Context) error] *)
Definition remainLoop (fuel : nat) (s : session) (c : Context)
  : M (option (option error)) :=
  call (OpNewTicker (5 * Second));;
  r ← remainLoop_for fuel s c;
  match r with
  | None => mret None
  | Some ret => remainLoop_deferred s c;; mret (Some ret)
  end.

(** [func CheckTrafficManagerService(ctx context.Context, namespace string) error] *)
Definition CheckTrafficManagerService (ctx : Context) (namespace : string)
  : M (option error) :=
  call (OpLog LogDebug "checking that traffic-manager exists" []);;
  r ← call (OpGetService ctx namespace "traffic-manager");
  match r with
  | Some err =>
      let msg := "unable to get service traffic-manager in " +:+ namespace
                 +:+ ": " +:+ K8sError_text err in
      let msg :=
        match err with
        | K8sStatusError code _ =>
            if code =? 404
            then "traffic manager not found, if it is not installed, please run 'telepresence helm install'. "
                 +:+ "If it is installed, try connecting with a --manager-namespace to point telepresence to the namespace it's installed in."
            else msg
        | K8sOtherError _ => msg
        end in
      mret (Some (UserError msg))
  | None => mret None
  end.

(** [strings.TrimPrefix(s, "v")] *)
Definition TrimPrefix_v (s : string) : string :=
  match s with
  | String ("v"%char) rest => rest
  | _ => s
  end.

(** What [connectMgr] has in hand when it turns to the session cache. *)
Record connectMgr_locals : Set := {
  l_vi : VersionInfo;
  l_managerVersion : Version;
  l_clientID : string;
  l_daemonID : Identifier
}.

(** [connectMgr] up to and including [daemon.NewIdentifier]; [ctx] is the
    context with the connect timeout already on it. *)
Definition connectMgr_bind (ctx : Context) (cluster : Cluster) (cr : ConnectRequest)
  : M (error + connectMgr_locals) :=
  mgrNs ← call (OpGetManagerNamespace ctx);
  err ← CheckTrafficManagerService ctx mgrNs;
  match err with
  | Some e => mret (inl e)
  | None =>
  r ← call (OpConnectToManager ctx mgrNs);
  match r with
  | inl e => mret (inl e)
  | inr vi =>
  match semver_Parse env (TrimPrefix_v (vi_Version vi)) with
  | inl e => mret (inl (WrapError "unable to parse manager.Version" e))
  | inr managerVersion =>
  r ← (if bool_decide (cr_ClientId cr = "")
       then
         r ← call OpUserCurrent;
         match r with
         | inl e => mret (inl (WrapError "unable to obtain current user" e))
         | inr username =>
             r ← call OpHostname;
             match r with
             | inl e => mret (inl (WrapError "unable to obtain hostname" e))
             | inr host => mret (inr (username +:+ "@" +:+ host))
             end
         end
       else mret (inr (cr_ClientId cr)));
  match r with
  | inl e => mret (inl e)
  | inr clientID =>
  inContainer ← call OpRunningInContainer;
  r ← call (OpNewIdentifier (cr_Name cr) (cl_Context cluster) (cl_Namespace cluster)
              inContainer);
  match r with
  | inl e => mret (inl e)
  | inr daemonID =>
      mret (inr {| l_vi := vi; l_managerVersion := managerVersion;
                   l_clientID := clientID; l_daemonID := daemonID |})
  end end end end end.

(** The session-identity block of [connectMgr]: from
    [LoadSessionInfoFromUserCache] to [SaveSessionInfoToUserCache].  The
    source reads [ctx.Err()] twice in a row, once to test it and once to
    return it; a context's error does not change once it is set, so the
    two reads are one operation here. *)
Definition connectMgr_sessionInfo (ctx : Context) (cluster : Cluster)
    (installID clientID : string) (daemonID : Identifier)
  : M (error + SessionInfo) :=
  r ← call (OpLoadSessionInfoFromUserCache ctx daemonID);
  match r with
  | inl e => mret (inl e)
  | inr si =>
  r ← match si with
      | Some tok =>
          (* Check if the session is still valid in the traffic-manager by calling Remain *)
          err ← call (OpRemain ctx tok);
          match err with
          | None =>
              cerr ← call (OpCtxErr ctx);
              match cerr with
              | Some e => mret (inl e)
              | None =>
                  call (OpLog LogDebug
                          "traffic-manager port-forward established, client was already known to the traffic-manager as %q"
                          [ArgString clientID]);;
                  mret (inr (Some tok))
              end
          | Some _ => mret (inr None)
          end
      | None => mret (inr None)
      end;
  match r with
  | inl e => mret (inl e)
  | inr (Some tok) => mret (inr tok)
  | inr None =>
      call (OpLog LogDebug
              "traffic-manager port-forward established, making client known to the traffic-manager as %q"
              [ArgString clientID]);;
      r ← call (OpArriveAsClient ctx
                  {| ci_Name := clientID;
                     ci_Namespace := cl_Namespace cluster;
                     ci_InstallId := installID;
                     ci_Product := "telepresence";
                     ci_Version := client_Version env |});
      match r with
      | inl err =>
          match status_FromError err with
          | Some (codes.FailedPrecondition, msg) => mret (inl (UserError msg))
          | _ =>
              e ← call (OpCheckTimeout ctx (WrapError "manager.ArriveAsClient" err));
              mret (inl e)
          end
      | inr tok =>
          err ← call (OpSaveSessionInfoToUserCache ctx daemonID tok);
          match err with
          | Some e => mret (inl e)
          | None => mret (inr tok)
          end
      end
  end end.

(** [func connectMgr(ctx, cluster, installID, cr)], which returns the
    session or an error. *)
Definition connectMgr (ctx : Context) (cluster : Cluster) (installID : string)
    (cr : ConnectRequest) : M (error + session) :=
  let ctx := TimeoutContext ctx TimeoutTrafficManagerConnect in
  r ← connectMgr_bind ctx cluster cr;
  match r with
  | inl e => mret (inl e)
  | inr l =>
  r ← connectMgr_sessionInfo ctx cluster installID (l_clientID l) (l_daemonID l);
  match r with
  | inl e => mret (inl e)
  | inr si =>
      let mz := grpc_MaxReceiveSize env in
      let opts := if 0 <? mz then [mz] else [] in
      call (OpSetManagerClient opts);;
      let managerName :=
        if bool_decide (vi_Name (l_vi l) = "")
        then "Traffic Manager"  (* Older traffic-managers doesn't distinguish between OSS and pro versions *)
        else vi_Name (l_vi l) in
      mret (inr {| Namespace := cl_Namespace cluster;
                   installID := installID;
                   clientID := l_clientID l;
                   managerName := managerName;
                   managerVersion := l_managerVersion l;
                   daemonID := l_daemonID l;
                   sessionInfo := si;
                   isPodDaemon := cr_IsPodDaemon cr;
                   subnetViaWorkloads := cr_SubnetViaWorkloads cr |})
  end end.

(** The [for attempt := 1; ; attempt++] of [connectRootDaemon]: [None]
    when the loop is still running after [fuel] rounds, [Some None] when
    it was left by [break], [Some (Some e)] when the function returned
    the error [e] from inside it. *)
Fixpoint connectRootDaemon_for (fuel : nat) (attempt : Z) (ctx : Context)
    (tmTimeout : Duration) (nc : NetworkConfig) : M (option (option error)) :=
  match fuel with
  | O => mret None
  | S fuel' =>
      let tCtx := WithTimeout ctx (Z.quot tmTimeout 2) in
      r ← call (OpRootConnect tCtx nc);
      match r with
      | inl err => mret (Some (Some (WrapError "failed to connect to root daemon" err)))
      | inr rootStatus =>
          match OutboundConfig_Session rootStatus with
          | None =>
              (* This is an internal error. Something is wrong with the root daemon. *)
              mret (Some (Some (ErrorString "root daemon's OutboundConfig has no Session")))
          | Some ocSession =>
              if bool_decide (SessionId ocSession = SessionId (nc_Session nc))
              then mret (Some None)
              else if attempt =? 2
              then mret (Some (Some (ErrorString "unable to reconnect to root daemon")))
              else
                err ← call (OpRootDisconnect ctx);
                match err with
                | Some e =>
                    mret (Some (Some (WrapError "failed to disconnect from the root daemon" e)))
                | None => connectRootDaemon_for fuel' (attempt + 1) ctx tmTimeout nc
                end
          end
      end
  end.

(** The end of [connectRootDaemon]: wait for the network of [rd]. *)
Definition connectRootDaemon_wait (ctx : Context) (rd : DaemonClient)
  : M (error + DaemonClient) :=
  let ctx := TimeoutContext ctx TimeoutTrafficManagerAPI in
  err ← call (OpRootWaitForNetwork ctx);
  match err with
  | Some e =>
      let e := match status_FromError e with
               | Some (c, msg) => StatusError c msg
               | None => e
               end in
      mret (inl (ShowError "failed to connect to root daemon" e))
  | None =>
      call (OpLog LogDebug "Connected to root daemon" []);;
      mret (inr rd)
  end.

(** [func (s *session) connectRootDaemon(ctx, nc, isPodDaemon)]; [None]
    when its loop is still running after [fuel] rounds. *)
Definition connectRootDaemon (fuel : nat) (s : session) (ctx : Context)
    (nc : NetworkConfig) (isPodDaemon : bool) : M (option (error + DaemonClient)) :=
  call (OpLog LogInfo "Connecting to root daemon..." []);;
  inProcess ← call OpRootSessionInProcess;
  if inProcess : bool then
    err ← call (OpNewInProcSession ctx nc (managerVersion s) isPodDaemon);
    match err with
    | Some e => mret (Some (inl e))
    | None =>
        err ← call (OpRootSessionStart ctx);
        match err with
        | Some e => mret (Some (inl e))
        | None => r ← connectRootDaemon_wait ctx InProcSession; mret (Some r)
        end
    end
  else
    err ← call (OpSocketDialRootDaemon ctx);
    match err with
    | Some e => mret (Some (inl (WrapError "unable open root daemon socket" e)))
    | None =>
        let tmTimeout := timeouts_Get env TimeoutTrafficManagerConnect in
        r ← (r ← connectRootDaemon_for fuel 1 ctx tmTimeout nc;
             match r with
             | None => mret None
             | Some (Some e) => mret (Some (inl e))
             | Some None => r ← connectRootDaemon_wait ctx SocketClient; mret (Some r)
             end);
        (* defer func() { if err != nil { conn.Close() } }() *)
        match r with
        | Some (inl _) => call OpRootConnClose;; mret r
        | _ => mret r
        end
    end.

(** Taking [s.workloadsLock]: the map is then what the watchers, which
    run concurrently, have made of it. *)
Definition lock_workloads : M Workloads :=
  fun st =>
    let '(ws, w) := handle env _ (OpWorkloadsLock (workloads st)) (world st) in
    (ws, {| world := w; workloads := ws;
            calls := calls st ++ [Called (OpWorkloadsLock (workloads st)) ws] |}).

Definition store_workloads (ws : Workloads) : M unit :=
  fun st => (tt, {| world := world st; workloads := ws; calls := calls st |}).

(** The [for i, kind := range knownWorkloadKinds.Kinds] of
    [localWorkloadsWatcher]. *)
Fixpoint startInformers (namespace : string) (kinds : list WorkloadInfo_Kind)
  : M (list workload_Kind) :=
  match kinds with
  | [] => mret []
  | kind :: kinds' =>
      enabled ←
        match kind with
        | WorkloadInfo_DEPLOYMENT =>
            call (OpStartInformer DeploymentKind namespace);; mret DeploymentKind
        | WorkloadInfo_REPLICASET =>
            call (OpStartInformer ReplicaSetKind namespace);; mret ReplicaSetKind
        | WorkloadInfo_STATEFULSET =>
            call (OpStartInformer StatefulSetKind namespace);; mret StatefulSetKind
        | WorkloadInfo_ROLLOUT =>
            call (OpStartInformer RolloutKind namespace);;
            call OpStartArgoRolloutsInformerFactory;;
            mret RolloutKind
        | WorkloadInfo_UNSPECIFIED => mret NoKind
        end;
      rest ← startInformers namespace kinds';
      mret (enabled :: rest)
  end.

(** The [for { select { ... } }] of [localWorkloadsWatcher].  [synced]
    tells whether the wait group is still to be signalled ([synced !=
    nil]); the loop only ever returns nil, and [Some synced] is that
    return together with what is left of [synced]. *)
Fixpoint localWorkloadsWatcher_for (fuel : nat) (ctx : Context) (namespace : string)
    (synced : bool) : M (option bool) :=
  match fuel with
  | O => mret None
  | S fuel' =>
      sel ← call (OpSelectWorkloads ctx);
      match sel with
      | WatchCtxDone => mret (Some synced)
      | WatchBatch None => mret (Some synced)
      | WatchBatch (Some wls) =>
          ws ← lock_workloads;
          let workloads := default ∅ (ws !! namespace) in
          store_workloads (<[namespace := foldl apply_local_event workloads wls]> ws);;
          call OpWakeSubscribers;;
          call OpWorkloadsUnlock;;
          (if synced then call OpWgDone else mret tt);;
          localWorkloadsWatcher_for fuel' ctx namespace false
      end
  end.

(** [localWorkloadsWatcher] once the known workload kinds are settled. *)
Definition localWorkloadsWatcher_watch (fuel : nat) (s : session) (ctx : Context)
    (namespace : string) (synced : bool) (knownWorkloadKinds : list WorkloadInfo_Kind)
  : M (option (option error * bool)) :=
  call (OpLog LogDebug
          "Watching workloads from client due to lack of workload watcher support in traffic-manager %s"
          [ArgVersion (managerVersion s)]);;
  fc ← call (OpInformerGetFactory namespace);
  (if fc : bool then mret tt else call (OpInformerWithFactory namespace));;
  enabledWorkloadKinds ← startInformers namespace knownWorkloadKinds;
  call OpStartK8sInformerFactory;;
  err ← call (OpNewWatcher ctx namespace enabledWorkloadKinds);
  match err with
  | Some e => mret (Some (Some e, synced))
  | None =>
      call OpWaitForCacheSync;;
      call (OpSubscribe ctx);;
      r ← localWorkloadsWatcher_for fuel ctx namespace synced;
      match r with
      | None => mret None
      | Some synced' => mret (Some (None, synced'))
      end
  end.

(** The kinds of a traffic-manager that does not know the call. *)
Definition legacy_kinds : list WorkloadInfo_Kind :=
  [WorkloadInfo_DEPLOYMENT; WorkloadInfo_REPLICASET; WorkloadInfo_STATEFULSET].

(** [func (s *session) localWorkloadsWatcher(ctx, namespace, synced)];
    [None] when the watcher is still running after [fuel] batches,
    [Some err] when it returned [err]. *)
Definition localWorkloadsWatcher (fuel : nat) (s : session) (ctx : Context)
    (namespace : string) (synced : bool) : M (option (option error)) :=
  r ← (r ← call (OpGetKnownWorkloadKinds ctx (sessionInfo s));
       match r with
       | inl err =>
           if bool_decide (status_Code err <> codes.Unimplemented)
           then mret (Some (Some (WrapError "failed to get known workload kinds" err), synced))
           else
             (* Talking to an older traffic-manager, use legacy default types *)
             localWorkloadsWatcher_watch fuel s ctx namespace synced legacy_kinds
       | inr knownWorkloadKinds =>
           localWorkloadsWatcher_watch fuel s ctx namespace synced knownWorkloadKinds
       end);
  match r with
  | None => mret None
  | Some (ret, synced') =>
      (* the deferred function *)
      (if synced' : bool then call OpWgDone else mret tt);;
      call (OpLog LogDebug "client workload watcher ended" []);;
      mret (Some ret)
  end.

(** The [for _, ns := range namespaces] of [ensureWatchers]. *)
Fixpoint ensureWatchers_range (s : session) (namespaces : list string) : M unit :=
  match namespaces with
  | [] => mret tt
  | ns :: namespaces' =>
      ws ← lock_workloads;
      call OpWorkloadsUnlock;;
      (if bool_decide (is_Some (ws !! ns))
       then call OpWgDone
       else
         call (OpGo (if managerHasWatcherSupport (managerVersion s)
                     then Go_workloadsWatcher
                     else Go_localWorkloadsWatcher) ns);;
         call (OpLog LogDebug "watcher for namespace %s started" [ArgString ns]));;
      ensureWatchers_range s namespaces'
  end.

(** [func (s *session) ensureWatchers(ctx, namespaces)] *)
Definition ensureWatchers (s : session) (namespaces : list string) : M unit :=
  call (OpLog LogDebug "Ensure watchers %v" [ArgStrings namespaces]);;
  call (OpWgAdd (length namespaces));;
  ensureWatchers_range s namespaces;;
  call OpWgWait;;
  call (OpLog LogDebug "watchers for %q synced" [ArgStrings namespaces]).

(** [func (s *session) eachWorkload(namespaces, do)] *)
Definition eachWorkload {A : Type} (namespaces : list string)
    (do : WorkloadInfo_Kind -> string -> string -> workloadInfo -> A -> A) (acc : A)
  : M A :=
  ws ← lock_workloads;
  let acc := eachWorkload_from (workloads_order env) 0 ws namespaces do acc in
  call OpWorkloadsUnlock;;
  mret acc.

(** [func (s *session) getInfosForWorkloads(namespaces, iMap, gMap, sMap, filter)] *)
Definition getInfosForWorkloads (namespaces : list string)
    (iMap : gmap string (list InterceptInfo)) (gMap : gmap string (list IngestInfo))
    (sMap : gmap string string) (filter : Z) : M (list WorkloadInfo) :=
  wiMap ← eachWorkload namespaces
             (collect_wlInfo (filter_values env) iMap gMap sMap filter) ∅;
  let wiz := snd <$> range_order (infos_order env) 0 wiMap in
  mret (sort_Slice_by_Name wiz).

(** The [for _, ns := range namespaces] of [WorkloadInfoSnapshot]. *)
Fixpoint actualNamespaces (namespaces : list string) : M (list string) :=
  match namespaces with
  | [] => mret []
  | ns :: namespaces' =>
      ns ← call (OpActualNamespace ns);
      nss ← actualNamespaces namespaces';
      mret (if bool_decide (ns <> "") then ns :: nss else nss)
  end.

(** The namespaces [WorkloadInfoSnapshot] looks at. *)
Definition snapshot_namespaces (s : session) (namespaces : list string) (filter : Z)
  : M (list string) :=
  if filter_on_connected_namespace (filter_values env) filter
  then
    (* Special case, we don't care about namespaces in general. Instead, we use the connected namespace *)
    mret [Namespace s]
  else actualNamespaces namespaces.

(** The [sMap] of [WorkloadInfoSnapshot]: left nil, which reads as the
    empty map, unless the namespaces are the connected one alone. *)
Definition snapshot_sMap (s : session) (nss : list string) : M (gmap string string) :=
  if bool_decide (length nss = 1%nat) && bool_decide (nss !! 0%nat = Some (Namespace s))
  then
    cas ← call OpGetCurrentAgents;
    mret (foldl add_agent ∅ cas)
  else mret ∅.

(** [func (s *session) WorkloadInfoSnapshot(ctx, namespaces, filter)]; its
    error is always nil, and the result is the [Workloads] of the
    snapshot. *)
Definition WorkloadInfoSnapshot (s : session) (namespaces : list string) (filter : Z)
  : M (list WorkloadInfo) :=
  ics ← call OpGetCurrentIntercepts;
  nss ← snapshot_namespaces s namespaces filter;
  if bool_decide (length nss = 0%nat)
  then
    (* none of the namespaces are currently mapped *)
    call (OpLog LogDebug "No namespaces are mapped" []);;
    mret []
  else
    sMap ← snapshot_sMap s nss;
    ensureWatchers s nss;;
    let iMap := foldl (add_intercept nss) ∅ ics in
    igs ← call OpRangeIngests;
    let gMap := foldl add_ingest ∅ igs in
    getInfosForWorkloads nss iMap gMap sMap filter.

End Monad.

Arguments St : clear implicits.
Arguments M : clear implicits.
Arguments Env : clear implicits.

(** ** Worlds for running the model

    [quiet] answers every operation with success and empty results; the
    worlds below change the answers of a few operations. *)

Definition quiet {X : Type} (op : Op X) : X :=
  match op in Op X return X with
  | OpLog _ _ _ => tt
  | OpCtxErr _ => None
  | OpNewTicker _ => tt
  | OpTickerStop => tt
  | OpSelectRemain _ => RemainCtxDone
  | OpRemain _ _ => None
  | OpArriveAsClient _ _ => inr {| SessionId := "fresh" |}
  | OpDepart _ _ => None
  | OpManagerConnClose => tt
  | OpCheckTimeout _ e => e
  | OpLoadSessionInfoFromUserCache _ _ => inr None
  | OpSaveSessionInfoToUserCache _ _ _ => None
  | OpDeleteSessionInfoFromUserCache _ _ => None
  | OpGetManagerNamespace _ => "ambassador"
  | OpGetService _ _ _ => None
  | OpConnectToManager _ _ => inr {| vi_Name := ""; vi_Version := "v2.22.0" |}
  | OpUserCurrent => inr "user"
  | OpHostname => inr "host"
  | OpRunningInContainer => false
  | OpNewIdentifier name kubeContext namespace containerized =>
      inr {| id_Name := name; id_KubeContext := kubeContext;
             id_Namespace := namespace; id_Containerized := containerized |}
  | OpSetManagerClient _ => tt
  | OpRootSessionInProcess => false
  | OpNewInProcSession _ _ _ _ => None
  | OpRootSessionStart _ => None
  | OpSocketDialRootDaemon _ => None
  | OpRootConnClose => tt
  | OpRootConnect _ nc =>
      inr {| ds_OutboundConfig := Some {| oc_Session := Some (nc_Session nc) |} |}
  | OpRootDisconnect _ => None
  | OpRootWaitForNetwork _ => None
  | OpWorkloadsLock seen => seen
  | OpWorkloadsUnlock => tt
  | OpWakeSubscribers => tt
  | OpWgAdd _ => tt
  | OpWgDone => tt
  | OpWgWait => tt
  | OpGo _ _ => tt
  | OpGetKnownWorkloadKinds _ _ =>
      inr [WorkloadInfo_DEPLOYMENT; WorkloadInfo_REPLICASET; WorkloadInfo_STATEFULSET;
           WorkloadInfo_ROLLOUT]
  | OpInformerGetFactory _ => true
  | OpInformerWithFactory _ => tt
  | OpStartInformer _ _ => tt
  | OpStartArgoRolloutsInformerFactory => tt
  | OpStartK8sInformerFactory => tt
  | OpNewWatcher _ _ _ => None
  | OpWaitForCacheSync => tt
  | OpSubscribe _ => tt
  | OpSelectWorkloads _ => WatchCtxDone
  | OpGetCurrentIntercepts => []
  | OpGetCurrentAgents => []
  | OpRangeIngests => []
  | OpActualNamespace namespace => namespace
  end.

Definition default_timeouts (id : TimeoutID) : Duration :=
  match id with
  | TimeoutTrafficManagerAPI => 15 * Second
  | TimeoutTrafficManagerConnect => 60 * Second
  end.

(** The version strings the worlds below report. *)
Definition parse_known_version (v : string) : error + Version :=
  if bool_decide (v = "2.22.0") then inr {| Major := 2; Minor := 22; Patch := 0 |}
  else if bool_decide (v = "2.20.0") then inr {| Major := 2; Minor := 20; Patch := 0 |}
  else inl (ErrorString "No Major.Minor.Patch elements found").

(** One way to lay the filter flags out as bits: a bit for each of the
    three flags, and EVERYTHING with these and a further bit, which lets a
    workload that is in none of the maps still match EVERYTHING. *)
Definition filter_bits : ListRequest_Filter :=
  {| ListRequest_INTERCEPTS := 1;
     ListRequest_INGESTS := 2;
     ListRequest_INSTALLED_AGENTS := 4;
     ListRequest_EVERYTHING := 15 |}.

(** A world that counts the operations it has answered. *)
Definition counting (answer : forall X : Type, Op X -> nat -> X) : Env nat :=
  {| handle := fun X op n => (answer X op n, S n);
     timeouts_Get := default_timeouts;
     grpc_MaxReceiveSize := 0;
     client_Version := "v2.22.0";
     semver_Parse := parse_known_version;
     filter_values := filter_bits;
     workloads_order := range_in_key_order;
     infos_order := range_in_key_order |}.

Definition start {W : Type} (w : W) : St W :=
  {| world := w; workloads := ∅; calls := [] |}.

Definition session0 : session :=
  {| Namespace := "default";
     installID := "install-1";
     clientID := "user@host";
     managerName := "Traffic Manager";
     managerVersion := {| Major := 2; Minor := 22; Patch := 0 |};
     daemonID := {| id_Name := "default"; id_KubeContext := "kind";
                    id_Namespace := "default"; id_Containerized := false |};
     sessionInfo := {| SessionId := "s1" |};
     isPodDaemon := false;
     subnetViaWorkloads := [] |}.

(** The first tick finds the session gone. *)
Definition world_expired : Env nat :=
  counting (fun X op n =>
    match op in Op X return X with
    | OpSelectRemain _ => RemainTick
    | OpRemain _ _ => Some (StatusError codes.NotFound "session not found")
    | op' => quiet op'
    end).

Definition world_quiet : Env nat := counting (fun X op n => quiet op).

(** The manager knows the cached session, but the connect context has
    ended by the time the probe returns. *)
Definition world_probe_ok_context_done : Env nat :=
  counting (fun X op n =>
    match op in Op X return X with
    | OpLoadSessionInfoFromUserCache _ _ => inr (Some {| SessionId := "cached" |})
    | OpCtxErr _ => Some (ContextError true)
    | op' => quiet op'
    end).

(** The manager knows the cached session. *)
Definition world_probe_ok : Env nat :=
  counting (fun X op n =>
    match op in Op X return X with
    | OpLoadSessionInfoFromUserCache _ _ => inr (Some {| SessionId := "cached" |})
    | op' => quiet op'
    end).

Definition cluster0 : Cluster := {| cl_Context := "kind"; cl_Namespace := "default" |}.

Definition request0 : ConnectRequest :=
  {| cr_Name := "default"; cr_ClientId := ""; cr_IsPodDaemon := false;
     cr_SubnetViaWorkloads := []; cr_KubeFlags := []; cr_KubeconfigData := None |}.

(** ** Claims in the words of the specification *)

Definition loaded_token (cs : list Call) (tok : SessionInfo) : Prop :=
  exists c id, In (Called (OpLoadSessionInfoFromUserCache c id) (inr (Some tok))) cs.

Definition probe_succeeded (cs : list Call) (tok : SessionInfo) : Prop :=
  exists c, In (Called (OpRemain c tok) None) cs.

Definition probe_failed (cs : list Call) (tok : SessionInfo) : Prop :=
  exists c e, In (Called (OpRemain c tok) (Some e)) cs.

Definition arrive_called (cs : list Call) : Prop :=
  exists c ci r, In (Called (OpArriveAsClient c ci) r) cs.

Definition arrived_as (cs : list Call) (tok : SessionInfo) : Prop :=
  exists c ci, In (Called (OpArriveAsClient c ci) (inr tok)) cs.

Definition saved_token (cs : list Call) (tok : SessionInfo) : Prop :=
  exists c id r, In (Called (OpSaveSessionInfoToUserCache c id tok) r) cs.

(** "If a session token is loaded from the user cache and the liveness
    probe succeeds, the cached token is reused and arrive-as-client is
    never called; if the probe fails for any reason, the cached token is
    discarded and arrive-as-client is called to obtain a fresh token,
    which is then saved to the cache." *)
Definition reuse_or_arrive_as_stated {W : Type} (env : Env W) (ctx : Context)
    (cluster : Cluster) (installID : string) (cr : ConnectRequest) (st : St W) : Prop :=
  let run := connectMgr env ctx cluster installID cr st in
  forall tok : SessionInfo,
    loaded_token (calls (snd run)) tok ->
    (probe_succeeded (calls (snd run)) tok ->
       (exists s : session, fst run = inr s /\ sessionInfo s = tok)
       /\ ~ arrive_called (calls (snd run)))
    /\ (probe_failed (calls (snd run)) tok ->
          arrive_called (calls (snd run))
          /\ forall fresh : SessionInfo,
               arrived_as (calls (snd run)) fresh -> saved_token (calls (snd run)) fresh).

(** Counting the calls of a run. *)
Fixpoint count_calls (p : Call -> bool) (cs : list Call) : nat :=
  match cs with
  | [] => O
  | c :: cs' => if p c then S (count_calls p cs') else count_calls p cs'
  end.

Definition is_RootConnect (c : Call) : bool :=
  match c with
  | Called op _ => match op with OpRootConnect _ _ => true | _ => false end
  end.

Definition is_RootDisconnect (c : Call) : bool :=
  match c with
  | Called op _ => match op with OpRootDisconnect _ => true | _ => false end
  end.

Definition RootConnect_answer (c : Call) : option (error + DaemonStatus) :=
  match c with
  | Called op x =>
      match op in Op X return X -> option (error + DaemonStatus) with
      | OpRootConnect _ _ => fun x => Some x
      | _ => fun _ => None
      end x
  end.

(** The answers of the root daemon to connect, in the order of the calls. *)
Definition RootConnect_answers (cs : list Call) : list (error + DaemonStatus) :=
  omap RootConnect_answer cs.

(** "If the connect call returns a session id different from the local
    session's id, exactly one disconnect is issued and connect is retried
    exactly once more; a second mismatch is fatal." (A disconnect that
    itself fails is left out of the reading.) *)
Definition mismatch_retried_once (cs : list Call) (nc : NetworkConfig)
    (result : option (error + DaemonClient)) : Prop :=
  forall first ocSession,
    RootConnect_answers cs !! 0%nat = Some (inr first) ->
    OutboundConfig_Session first = Some ocSession ->
    SessionId ocSession <> SessionId (nc_Session nc) ->
    (exists c, In (Called (OpRootDisconnect c) None) cs) ->
    count_calls is_RootDisconnect cs = 1%nat
    /\ count_calls is_RootConnect cs = 2%nat
    /\ forall second ocSession2,
         RootConnect_answers cs !! 1%nat = Some (inr second) ->
         OutboundConfig_Session second = Some ocSession2 ->
         SessionId ocSession2 <> SessionId (nc_Session nc) ->
         exists e, result = Some (inl e).

(** "Likewise, a root-daemon protocol error in which the returned
    OutboundConfig or its Session is missing is retried exactly once
    (disconnect + reconnect) before being fatal." *)
Definition missing_session_retried_once (cs : list Call) : Prop :=
  forall first,
    RootConnect_answers cs !! 0%nat = Some (inr first) ->
    OutboundConfig_Session first = None ->
    count_calls is_RootDisconnect cs = 1%nat
    /\ count_calls is_RootConnect cs = 2%nat.

Definition root_retry_as_stated {W : Type} (env : Env W) (fuel : nat) (s : session)
    (ctx : Context) (nc : NetworkConfig) (isPodDaemon : bool) (st : St W) : Prop :=
  let run := connectRootDaemon env fuel s ctx nc isPodDaemon st in
  mismatch_retried_once (calls (snd run)) nc (fst run)
  /\ missing_session_retried_once (calls (snd run)).

Definition network0 : NetworkConfig :=
  {| nc_Session := {| SessionId := "s1" |};
     nc_ClientConfig := "{}";
     nc_HomeDir := "/home/user";
     nc_Namespace := "default";
     nc_SubnetViaWorkloads := [];
     nc_KubeFlags := [];
     nc_KubeconfigData := None |}.

(** A root daemon whose status carries no outbound configuration. *)
Definition world_root_without_config : Env nat :=
  counting (fun X op n =>
    match op in Op X return X with
    | OpRootConnect _ _ => inr {| ds_OutboundConfig := None |}
    | op' => quiet op'
    end).


(** The watcher a call starts, when the call is a [go]. *)
Definition started_watcher (c : Call) : option (Watcher * string) :=
  match c with
  | Called op _ =>
      match op with
      | OpGo w ns => Some (w, ns)
      | _ => None
      end
  end.

(** ** The workloads a snapshot is about *)

(** The workload [key] with entry [info] is in the map [ws] under one of
    the listed namespaces. *)
Definition listed (ws : Workloads) (namespaces : list string)
    (ns : string) (key : workloadInfoKey) (info : workloadInfo) : Prop :=
  ns ∈ namespaces /\ exists m, ws !! ns = Some m /\ m !! key = Some info.

(** The workloads in the order [eachWorkload] hands them to its closure. *)
Fixpoint visits_from (wo : RangeOrder workloadInfoKey workloadInfo) (i : nat)
    (ws : Workloads) (namespaces : list string)
  : list (string * workloadInfoKey * workloadInfo) :=
  match namespaces with
  | [] => []
  | ns :: namespaces' =>
      match ws !! ns with
      | Some m => (fun kv => (ns, fst kv, snd kv)) <$> range_order wo i m
      | None => []
      end ++ visits_from wo (S i) ws namespaces'
  end.

(** The key under which an exported entry is kept, and the triple the
    key is made of. *)
Definition info_key (wi : WorkloadInfo) : string :=
  wiMap_key (wi_WorkloadResourceType wi) (wi_Name wi) (wi_Namespace wi).

Definition info_triple (wi : WorkloadInfo) : string * string * string :=
  (wi_WorkloadResourceType wi, wi_Name wi, wi_Namespace wi).


(** INTERCEPTS is a flag of its own: not zero, part of EVERYTHING, and
    apart from the other two flags. *)
Definition INTERCEPTS_own_flag (F : ListRequest_Filter) : Prop :=
  ListRequest_INTERCEPTS F <> 0
  /\ Z.land (ListRequest_INTERCEPTS F) (ListRequest_EVERYTHING F) = ListRequest_INTERCEPTS F
  /\ Z.land (ListRequest_INTERCEPTS F) (ListRequest_INGESTS F) = 0
  /\ Z.land (ListRequest_INTERCEPTS F) (ListRequest_INSTALLED_AGENTS F) = 0.


(** ** The scenarios of the specification *)

Definition web : workloadInfo :=
  {| wl_uid := "u1"; wl_state := StateAvailable;
     wl_agentState := NO_AGENT_UNSPECIFIED; wl_interceptClients := [] |}.

Definition api : workloadInfo :=
  {| wl_uid := "u2"; wl_state := StateProgressing;
     wl_agentState := NO_AGENT_UNSPECIFIED; wl_interceptClients := [] |}.

Definition deployment (name : string) : workloadInfoKey :=
  {| key_kind := WorkloadInfo_DEPLOYMENT; key_name := name |}.

(** Namespace default with the deployment web. *)
Definition workloads_web : Workloads :=
  {["default" := {[deployment "web" := web]}]}.

(** Namespace default with the deployments web and api. *)
Definition workloads_web_api : Workloads :=
  {["default" := <[deployment "api" := api]> {[deployment "web" := web]}]}.

Definition intercept_of (agent : string) : InterceptInfo :=
  {| ii_Id := "i1";
     ii_Spec := {| spec_Name := agent; spec_Namespace := "default"; spec_Agent := agent |} |}.

(** The root daemon still runs an old session when first connected to. *)
Definition world_root_stale_session : Env nat :=
  counting (fun X op n =>
    match op in Op X return X with
    | OpRootConnect _ nc =>
        if (n =? 0)%nat
        then inr {| ds_OutboundConfig :=
                      Some {| oc_Session := Some {| SessionId := "old" |} |} |}
        else inr {| ds_OutboundConfig := Some {| oc_Session := Some (nc_Session nc) |} |}
    | op' => quiet op'
    end).

(** The manager forgets the session between the first and the second
    tick; operation 5 is the remain call of the second tick. *)
Definition world_expires_on_second_tick : Env nat :=
  counting (fun X op n =>
    match op in Op X return X with
    | OpSelectRemain _ => RemainTick
    | OpRemain _ _ =>
        if (n =? 4)%nat then Some (StatusError codes.NotFound "session not found")
        else None
    | op' => quiet op'
    end).

Definition session_2_20 : session :=
  {| Namespace := "default";
     installID := "install-1";
     clientID := "user@host";
     managerName := "Traffic Manager";
     managerVersion := {| Major := 2; Minor := 20; Patch := 0 |};
     daemonID := {| id_Name := "default"; id_KubeContext := "kind";
                    id_Namespace := "default"; id_Containerized := false |};
     sessionInfo := {| SessionId := "s1" |};
     isPodDaemon := false;
     subnetViaWorkloads := [] |}.

(** The informers report that web was deleted, then the context ends. *)
Definition world_web_deleted : Env nat :=
  counting (fun X op n =>
    match op in Op X return X with
    | OpSelectWorkloads _ =>
        if (n =? 0)%nat
        then WatchBatch (Some [{| we_Type := EventTypeDelete;
                                  we_Workload := {| w_Kind := "Deployment"; w_Name := "web";
                                                    w_UID := "u1";
                                                    w_State := StateAvailable |} |}])
        else WatchCtxDone
    | op' => quiet op'
    end).

(** ** Kinds of calls *)

Definition is_Remain (c : Call) : bool :=
  match c with
  | Called op _ => match op with OpRemain _ _ => true | _ => false end
  end.

Definition is_Depart (c : Call) : bool :=
  match c with
  | Called op _ => match op with OpDepart _ _ => true | _ => false end
  end.

Definition is_DeleteSessionInfo (c : Call) : bool :=
  match c with
  | Called op _ =>
      match op with OpDeleteSessionInfoFromUserCache _ _ => true | _ => false end
  end.

Definition is_ManagerConnClose (c : Call) : bool :=
  match c with
  | Called op _ => match op with OpManagerConnClose => true | _ => false end
  end.

Definition is_RootConnClose (c : Call) : bool :=
  match c with
  | Called op _ => match op with OpRootConnClose => true | _ => false end
  end.

Definition is_SocketDial (c : Call) : bool :=
  match c with
  | Called op _ => match op with OpSocketDialRootDaemon _ => true | _ => false end
  end.

Definition is_WgDone (c : Call) : bool :=
  match c with
  | Called op _ => match op with OpWgDone => true | _ => false end
  end.

Definition is_Go (c : Call) : bool :=
  match c with
  | Called op _ => match op with OpGo _ _ => true | _ => false end
  end.

Definition is_WorkloadsLock (c : Call) : bool :=
  match c with
  | Called op _ => match op with OpWorkloadsLock _ => true | _ => false end
  end.

(** Calls of [connectMgr] that concern the session's identity. *)
Definition is_LoadSessionInfo (c : Call) : bool :=
  match c with
  | Called op _ =>
      match op with OpLoadSessionInfoFromUserCache _ _ => true | _ => false end
  end.

Definition is_ArriveAsClient (c : Call) : bool :=
  match c with
  | Called op _ => match op with OpArriveAsClient _ _ => true | _ => false end
  end.

Definition is_SaveSessionInfo (c : Call) : bool :=
  match c with
  | Called op _ =>
      match op with OpSaveSessionInfoToUserCache _ _ _ => true | _ => false end
  end.

Definition is_ConnectToManager (c : Call) : bool :=
  match c with
  | Called op _ => match op with OpConnectToManager _ _ => true | _ => false end
  end.

Definition is_identity_call (c : Call) : bool :=
  is_LoadSessionInfo c || is_Remain c || is_ArriveAsClient c || is_SaveSessionInfo c.

(** The token a call saves to the cache, and the token an arrival
    returns. *)
Definition saved_by (c : Call) : option SessionInfo :=
  match c with
  | Called op _ =>
      match op with
      | OpSaveSessionInfoToUserCache _ _ tok => Some tok
      | _ => None
      end
  end.

Definition arrived_by (c : Call) : option SessionInfo :=
  match c with
  | Called op x =>
      match op in Op X return X -> option SessionInfo with
      | OpArriveAsClient _ _ => fun x => match x with inr tok => Some tok | inl _ => None end
      | _ => fun _ => None
      end x
  end.

(** The advice [CheckTrafficManagerService] gives when the service is
    not found. *)
Definition traffic_manager_not_found : string :=
  "traffic manager not found, if it is not installed, please run 'telepresence helm install'. "
  +:+ "If it is installed, try connecting with a --manager-namespace to point telepresence to the namespace it's installed in.".

(** The cluster has no traffic-manager service. *)
Definition world_no_traffic_manager : Env nat :=
  counting (fun X op n =>
    match op in Op X return X with
    | OpGetService _ _ _ => Some (K8sStatusError 404 "services traffic-manager not found")
    | op' => quiet op'
    end).

(** A dial of the root daemon's socket that gave a connection. *)
Definition is_SocketDialed (c : Call) : bool :=
  match c with
  | Called op x =>
      match op in Op X return X -> bool with
      | OpSocketDialRootDaemon _ =>
          fun x => match x with None => true | Some _ => false end
      | _ => fun _ => false
      end x
  end.

(** The calls of the connect loop of [connectRootDaemon]. *)
Definition is_root_loop_call (c : Call) : bool := is_RootConnect c || is_RootDisconnect c.

Definition is_WorkloadsUnlock (c : Call) : bool :=
  match c with
  | Called op _ => match op with OpWorkloadsUnlock => true | _ => false end
  end.

Definition is_WgAdd (c : Call) : bool :=
  match c with
  | Called op _ => match op with OpWgAdd _ => true | _ => false end
  end.

Definition is_WgWait (c : Call) : bool :=
  match c with
  | Called op _ => match op with OpWgWait => true | _ => false end
  end.

(** Calls on the wait group of [ensureWatchers] or on the workloads lock. *)
Definition is_sync_call (c : Call) : bool :=
  is_WgDone c || is_WorkloadsLock c || is_WorkloadsUnlock c.

(** What is still owed to a wait group. *)
Definition owed (synced : bool) : nat := if synced then 1%nat else 0%nat.

(** The watchers a run has started, in the order of their start. *)
Definition started_watchers (cs : list Call) : list (Watcher * string) :=
  omap started_watcher cs.

(** No watcher touches the workloads between two of the session's own
    reads: under the lock the map is as the session left it. *)
Definition undisturbed {W : Type} (env : Env W) : Prop :=
  forall (seen : Workloads) (w : W), fst (handle env _ (OpWorkloadsLock seen) w) = seen.

(** The manager reports an intercept on web and an agent in it. *)
Definition world_intercepted : Env nat :=
  counting (fun X op n =>
    match op in Op X return X with
    | OpGetCurrentIntercepts => [intercept_of "web"]
    | OpGetCurrentAgents => [{| ai_Name := "web"; ai_Version := "2.22.0" |}]
    | op' => quiet op'
    end).



(** * The config watcher of the traffic-manager (package [config])

    [config.go] keeps the client configuration and the agent environment
    that the traffic-manager serves in step with the ConfigMap
    traffic-manager.  What it receives, the cases of its [select] and the
    answers of the Kubernetes API when a watch is created, is given to the
    functions as their input; what it logs is part of their result. *)

Definition clientConfigFileName : string := "client.yaml".
Definition agentEnvConfigFileName : string := "agent-env.yaml".
Definition cfgConfigMapName : string := "traffic-manager".

(** [type AgentEnv struct] *)
Record AgentEnv : Set := {
  Excluded : list string
}.

(** [type config struct] without its lock; [clientYAML] is a byte slice,
    [None] when it is nil. *)
Record config : Set := {
  config_namespace : string;
  clientYAML : option string;
  agentEnv : AgentEnv
}.

(** Of a [client.Config], the mapped namespaces of its cluster, which
    [AmendClientConfig] reads and sets, and everything else. *)
Record client_Config : Set := {
  Cluster_MappedNamespaces : list string;
  Config_rest : string
}.

(** [watch.EventType] and the objects of the events of a watch. *)
Inductive watch_EventType : Set :=
| watch_Added
| watch_Modified
| watch_Deleted
| watch_Bookmark
| watch_Error.

Inductive runtime_Object : Type :=
| core_ConfigMap (Name : string) (Data : gmap string string)
| other_Object.

Record watch_Event : Type := {
  ev_Type : watch_EventType;
  ev_Object : runtime_Object
}.

(** Which case of the [select] of [configMapEventHandler] fired. *)
Inductive HandlerSelect : Type :=
| HandlerCtxDone
| HandlerClosed
| HandlerEvent (event : watch_Event).

(** A line of the log of the watcher. *)
Inductive ConfigLogArg : Set :=
| CfgString (s : string)
| CfgInt (n : nat)
| CfgError (e : error)
| CfgEventType (t : watch_EventType).

Record LogLine : Set := {
  ll_level : LogLevel;
  ll_format : string;
  ll_args : list ConfigLogArg
}.

Definition Debugf (format : string) (args : list ConfigLogArg) : LogLine :=
  {| ll_level := LogDebug; ll_format := format; ll_args := args |}.

Definition Errorf (format : string) (args : list ConfigLogArg) : LogLine :=
  {| ll_level := LogError; ll_format := format; ll_args := args |}.

Definition Infof (format : string) (args : list ConfigLogArg) : LogLine :=
  {| ll_level := LogInfo; ll_format := format; ll_args := args |}.

(** One round of the loop of [Run]: whether the context has ended when
    the loop tests it, and what creating the watch gives, an error or the
    channel of its events. *)
Record RunRound : Type := {
  round_ctxErr : bool;
  round_Watch : error + list HandlerSelect
}.

(** The data of the last event of a watch that makes the handler
    refresh: the event is about a ConfigMap and adds, modifies or deletes
    it. *)
Definition refreshing_data (event : watch_Event) : option (gmap string string) :=
  match ev_Type event, ev_Object event with
  | watch_Deleted, core_ConfigMap _ _ => Some ∅
  | (watch_Added | watch_Modified), core_ConfigMap _ data => Some data
  | _, _ => None
  end.

(** The events the handler receives before it returns. *)
Fixpoint received (evCh : list HandlerSelect) : list watch_Event :=
  match evCh with
  | HandlerEvent event :: evCh' => event :: received evCh'
  | _ => []
  end.

Section ConfigWatcher.

(** [managerutil.GetEnv(ctx).ManagedNamespaces] *)
Variable ManagedNamespaces : list string.
(** [client.ParseConfigYAML(ctx, clientConfigFileName, data)] and
    [cfg.String()] *)
Variable ParseConfigYAML : string -> error + client_Config.
Variable Config_String : client_Config -> string.
(** [yaml.YAMLToJSON] and [json.Unmarshal(data, &c.agentEnv)], which may
    have written to its target when it fails. *)
Variable YAMLToJSON : string -> error + string.
Variable json_Unmarshal : string -> AgentEnv -> AgentEnv * option error.

(** [func AmendClientConfig(ctx context.Context, cfg client.Config) bool];
    the configuration is changed in place, so it is returned as well. *)
Definition AmendClientConfig (cfg : client_Config)
  : bool * client_Config * list LogLine :=
  if (0 <? length ManagedNamespaces)%nat
  then
    let checking :=
      Debugf "Checking if Augment mapped namespaces with %d managed namespaces"
        [CfgInt (length ManagedNamespaces)] in
    if (length (Cluster_MappedNamespaces cfg) =? 0)%nat
    then
      (true,
       {| Cluster_MappedNamespaces := ManagedNamespaces; Config_rest := Config_rest cfg |},
       [checking;
        Debugf "Augment mapped namespaces with %d managed namespaces"
          [CfgInt (length ManagedNamespaces)]])
    else (true, cfg, [checking])
  else (false, cfg, []).

(** [var AmendClientConfigFunc = AmendClientConfig], an extension point. *)
Variable AmendClientConfigFunc : client_Config -> bool * client_Config * list LogLine.

(** The first half of [refreshFile]: the client configuration. *)
Definition refresh_clientYAML (data : gmap string string)
  : option string * list LogLine :=
  match data !! clientConfigFileName with
  | Some yml =>
      match ParseConfigYAML yml with
      | inl err =>
          (Some yml,
           [Errorf "failed to unmarshal YAML from %s: %v"
              [CfgString clientConfigFileName; CfgError err]])
      | inr cfg =>
          let '(amended, cfg, logs) := AmendClientConfigFunc cfg in
          if amended : bool
          then (Some (Config_String cfg),
                logs ++ [Debugf "Refreshed client config: %s" [CfgString yml]])
          else (Some yml, logs)
      end
  | None => (None, [Debugf "Cleared client config" []])
  end.

(** The second half of [refreshFile]: the agent environment. *)
Definition refresh_agentEnv (data : gmap string string) : AgentEnv * list LogLine :=
  let agentEnv := {| Excluded := [] |} in
  match data !! agentEnvConfigFileName with
  | Some yml =>
      let '(agentEnv, err) :=
        match YAMLToJSON yml with
        | inr json => json_Unmarshal json agentEnv
        | inl err => (agentEnv, Some err)
        end in
      (agentEnv,
       match err with
       | Some err =>
           [Errorf "failed to unmarshal YAML from %s: %v"
              [CfgString agentEnvConfigFileName; CfgError err]]
       | None => []
       end ++ [Debugf "Refreshed agent-env: %s" [CfgString yml]])
  | None => (agentEnv, [Debugf "Cleared agent-env" []])
  end.

(** [func (c *config) refreshFile(ctx context.Context, data map[string]string)];
    a nil map reads as the empty one. *)
Definition refreshFile (data : gmap string string) (c : config) : config * list LogLine :=
  let '(yaml, logs1) := refresh_clientYAML data in
  let '(env, logs2) := refresh_agentEnv data in
  ({| config_namespace := config_namespace c; clientYAML := yaml; agentEnv := env |},
   logs1 ++ logs2).

(** What one event does in [configMapEventHandler]. *)
Definition handle_event (event : watch_Event) (c : config) : config * list LogLine :=
  match ev_Type event with
  | watch_Deleted =>
      match ev_Object event with
      | core_ConfigMap name _ =>
          let '(c, logs) := refreshFile ∅ c in
          (c, Debugf "%s %s" [CfgEventType (ev_Type event); CfgString name] :: logs)
      | other_Object => (c, [])
      end
  | watch_Added | watch_Modified =>
      match ev_Object event with
      | core_ConfigMap name data =>
          let '(c, logs) := refreshFile data c in
          (c, Debugf "%s %s" [CfgEventType (ev_Type event); CfgString name] :: logs)
      | other_Object => (c, [])
      end
  | _ => (c, [])
  end.

(** [func (c *config) configMapEventHandler(ctx, evCh) bool], on the
    cases of its [select] in the order in which they fire; [None] when it
    is still waiting after the last of them. *)
Fixpoint configMapEventHandler (evCh : list HandlerSelect) (c : config)
  : option bool * config * list LogLine :=
  match evCh with
  | [] => (None, c, [])
  | HandlerCtxDone :: _ => (Some false, c, [])
  | HandlerClosed :: _ => (Some true, c, []) (* restart watcher *)
  | HandlerEvent event :: evCh' =>
      let '(c, logs) := handle_event event c in
      let '(r, c, logs') := configMapEventHandler evCh' c in
      (r, c, logs ++ logs')
  end.

(** The [for ctx.Err() == nil] of [Run]; [None] when it is still running
    after the last of the rounds. *)
Fixpoint Run_for (rounds : list RunRound) (c : config)
  : option (option error) * config * list LogLine :=
  match rounds with
  | [] => (None, c, [])
  | round :: rounds' =>
      if round_ctxErr round then (Some None, c, [])
      else
        match round_Watch round with
        | inl err =>
            (Some (Some (ShowError ("unable to create configmap watcher for "
                                    +:+ cfgConfigMapName +:+ "." +:+ config_namespace c)
                           err)),
             c, [])
        | inr evCh =>
            let '(r, c, logs) := configMapEventHandler evCh c in
            match r with
            | None => (None, c, logs)
            | Some false => (Some None, c, logs)
            | Some true =>
                let '(r, c, logs') := Run_for rounds' c in
                (r, c, logs ++ logs')
            end
        end
  end.

(** [func (c *config) Run(ctx context.Context) error] *)
Definition Run (rounds : list RunRound) (c : config)
  : option (option error) * config * list LogLine :=
  let started := Infof "Started watcher for ConfigMap %s" [CfgString cfgConfigMapName] in
  let '(r, c, logs) := Run_for rounds c in
  (r, c,
   started :: logs
   ++ match r with
      | Some _ => [Infof "Ended watcher for ConfigMap %s" [CfgString cfgConfigMapName]]
      | None => []
      end).

(** The configuration after some events: that of the last event that
    refreshes, on the configuration before them. *)
Definition config_after_events (events : list watch_Event) (c : config) : config :=
  match last (omap refreshing_data events) with
  | Some data => fst (refreshFile data c)
  | None => c
  end.

(** [func (c *config) GetAgentEnv() AgentEnv] *)
Definition GetAgentEnv (c : config) : AgentEnv := agentEnv c.

(** [func (c *config) GetClientConfigYaml() (ret []byte)] *)
Definition GetClientConfigYaml (c : config) : option string := clientYAML c.

End ConfigWatcher.

(** [func NewWatcher(namespace string) Watcher] *)
Definition NewWatcher (namespace : string) : config :=
  {| config_namespace := namespace; clientYAML := None; agentEnv := {| Excluded := [] |} |}.

(** How the handler leaves a channel: nothing as long as it waits. *)
Fixpoint handler_outcome (evCh : list HandlerSelect) : option bool :=
  match evCh with
  | [] => None
  | HandlerCtxDone :: _ => Some false
  | HandlerClosed :: _ => Some true
  | HandlerEvent _ :: evCh' => handler_outcome evCh'
  end.

(** The events [Run] receives over its rounds, until it returns. *)
Fixpoint Run_received (rounds : list RunRound) : list watch_Event :=
  match rounds with
  | [] => []
  | round :: rounds' =>
      if round_ctxErr round then []
      else
        match round_Watch round with
        | inl _ => []
        | inr evCh =>
            received evCh
            ++ match handler_outcome evCh with
               | Some true => Run_received rounds'
               | _ => []
               end
        end
  end.

(** The round at which [Run] fails to create its watch, if it gets that
    far. *)
Fixpoint Watch_failure (rounds : list RunRound) : option error :=
  match rounds with
  | [] => None
  | round :: rounds' =>
      if round_ctxErr round then None
      else
        match round_Watch round with
        | inl err => Some err
        | inr evCh =>
            match handler_outcome evCh with
            | Some true => Watch_failure rounds'
            | _ => None
            end
        end
  end.

(** Does [Run] return, and not with an error, within these rounds? *)
Fixpoint Run_ends (rounds : list RunRound) : bool :=
  match rounds with
  | [] => false
  | round :: rounds' =>
      if round_ctxErr round then true
      else
        match round_Watch round with
        | inl err => false
        | inr evCh =>
            match handler_outcome evCh with
            | Some true => Run_ends rounds'
            | Some false => true
            | None => false
            end
        end
  end.

(** Sample collaborators: a parser that knows two documents, and a
    rendering of the configuration. *)
Definition parse_sample (yml : string) : error + client_Config :=
  if bool_decide (yml = "cluster: {}")
  then inr {| Cluster_MappedNamespaces := []; Config_rest := "" |}
  else if bool_decide (yml = "cluster: {mappedNamespaces: [dev]}")
  then inr {| Cluster_MappedNamespaces := ["dev"]; Config_rest := "" |}
  else inl (ErrorString "yaml: unmarshal errors").

Definition render_sample (cfg : client_Config) : string :=
  "mappedNamespaces=" +:+ String.concat "," (Cluster_MappedNamespaces cfg).

Definition yaml_to_json_sample (yml : string) : error + string := inr yml.

Definition unmarshal_sample (json : string) (target : AgentEnv) : AgentEnv * option error :=
  ({| Excluded := [json] |}, None).

(** The session [connectMgr] returns in the quiet world. *)
Definition session_connected : session :=
  {| Namespace := "default";
     installID := "install-1";
     clientID := "user@host";
     managerName := "Traffic Manager";
     managerVersion := {| Major := 2; Minor := 22; Patch := 0 |};
     daemonID := {| id_Name := "default"; id_KubeContext := cl_Context cluster0;
                    id_Namespace := "default"; id_Containerized := false |};
     sessionInfo := {| SessionId := "fresh" |};
     isPodDaemon := false;
     subnetViaWorkloads := [] |}.

(** A state whose workloads are those of [workloads_web]. *)
Definition st_web : St nat := {| world := 0%nat; workloads := workloads_web; calls := [] |}.

(** The entry of web when it is intercepted and has an agent. *)
Definition web_intercepted : WorkloadInfo :=
  {| wi_Name := "web"; wi_Namespace := "default";
     wi_WorkloadResourceType := "DEPLOYMENT"; wi_Uid := "u1";
     wi_NotInterceptableReason := ""; wi_InterceptInfos := [intercept_of "web"];
     wi_IngestInfos := []; wi_AgentVersion := "2.22.0" |}.

(** * The session beyond connecting and listing

    [runWithRetry], [Uninstall], [workloadsWatcher], [WatchWorkloads] and
    the comparison of the environment in [UpdateStatus] have collaborators
    of their own; their operations extend those of the session core, which
    are taken over by [OpBase]. *)

(** [rpc.UninstallRequest_UninstallType]; modelled from the use
    [Uninstall] makes of it: the two types it knows, and the zero value
    for every other. *)
Inductive UninstallRequest_UninstallType : Set :=
| UninstallRequest_UNSPECIFIED
| UninstallRequest_NAMED_AGENTS
| UninstallRequest_ALL_AGENTS.

(** [rpc.UninstallRequest] *)
Record UninstallRequest : Set := {
  ur_UninstallType : UninstallRequest_UninstallType;
  ur_Namespace : string;
  ur_Agents : list string
}.

(** [errcat.ToResult(err)]: the result of nil, of an error of the
    session, or of an error of the Kubernetes client. *)
Inductive ApiError : Set :=
| GoError (e : error)
| ApiK8sError (e : K8sError).

Inductive Result : Set :=
| ToResult (err : option ApiError).

(** [manager.WorkloadEvent] with the fields of its workload that the
    watcher reads. *)
Inductive WorkloadEvent_Type : Set :=
| WorkloadEvent_ADDED_UNSPECIFIED
| WorkloadEvent_MODIFIED
| WorkloadEvent_DELETED.

#[global] Instance WorkloadEvent_Type_eq_dec : EqDecision WorkloadEvent_Type.
Proof. solve_decision. Defined.

Record rpc_Workload : Set := {
  rw_Kind : WorkloadInfo_Kind;
  rw_Name : string;
  rw_Uid : string;
  rw_State : State;
  rw_AgentState : WorkloadInfo_AgentState;
  rw_InterceptClients : list string
}.

Record rpc_WorkloadEvent : Set := {
  rwe_Type : WorkloadEvent_Type;
  rwe_Workload : rpc_Workload
}.

(** Which case of the [select] of [WatchWorkloads] fired. *)
Inductive SubscriberSelect : Set :=
| SubscriberCtxDone
| SubscriberWake.

Inductive XOp : Type -> Type :=
(* the operations of the session core *)
| OpBase {X : Type} (op : Op X) : XOp X
(* runWithRetry *)
| OpCall_f (c : Context) : XOp (option error)
| OpSleepWithContext (c : Context) (d : Duration) : XOp unit
(* the namespaces of the session *)
| OpGetCurrentNamespaces (forClientAccess : bool) : XOp (list string)
(* Uninstall *)
| OpConfigMapsGet (c : Context) (namespace name : string)
  : XOp (K8sError + gmap string string)
| OpConfigMapsUpdate (c : Context) (namespace name : string) (data : gmap string string)
  : XOp (option K8sError)
| OpRemoveIntercept (c : Context) (ic : InterceptInfo) : XOp (option error)
| OpClearIngestsAndIntercepts (c : Context) : XOp (option error)
(* workloadsWatcher *)
| OpWatchWorkloads (c : Context) (si : SessionInfo) (namespace : string)
  : XOp (option error)
| OpRecv : XOp (error + list rpc_WorkloadEvent)
(* WatchWorkloads *)
| OpNewUUID : XOp string
| OpSubscribersAdd (id : string) : XOp unit
| OpSubscribersDelete (id : string) : XOp unit
| OpStreamSend (ws : list WorkloadInfo) : XOp (option error)
| OpSelectSubscriber (c : Context) (id : string) : XOp SubscriberSelect.

Inductive XCall : Type :=
| XCalled {X : Type} (op : XOp X) (answer : X).

(** A call of the session core among the calls of this part. *)
Definition base_call (c : Call) : XCall :=
  match c with
  | Called op x => XCalled (OpBase op) x
  end.

(** [time.Duration] is an int64: what a product is after it wrapped. *)
Definition int64_wrap (z : Z) : Z := (z + 2 ^ 63) mod 2 ^ 64 - 2 ^ 63.

Section Services.

Context {W : Type}.

Record XSt : Type := {
  xworld : W;
  xworkloads : Workloads;
  xcalls : list XCall
}.

Definition MX (A : Type) : Type := XSt -> A * XSt.

#[global] Instance MX_ret : MRet MX := fun A a st => (a, st).

#[global] Instance MX_bind : MBind MX :=
  fun A B f m st => let '(a, st') := m st in f a st'.

(** The environment of this part: that of the session core, which
    answers the operations of the core, the answers to the further
    operations, [k8serrors.IsNotFound] and the name
    [agentconfig.ConfigMap]. *)
Record XEnv : Type := {
  xbase : Env W;
  xhandle : forall X : Type, XOp X -> W -> X * W;
  IsNotFound : K8sError -> bool;
  agentconfig_ConfigMap : string
}.

Variable xenv : XEnv.

Definition xanswer {X : Type} (op : XOp X) (w : W) : X * W :=
  match op in XOp X return X * W with
  | OpBase op' => handle (xbase xenv) _ op' w
  | op' => xhandle xenv _ op' w
  end.

Definition xanswered {X : Type} (op : XOp X) (x : X) (w : W) (st : XSt) : XSt :=
  {| xworld := w; xworkloads := xworkloads st; xcalls := xcalls st ++ [XCalled op x] |}.

Definition xcall {X : Type} (op : XOp X) : MX X :=
  fun st =>
    let '(x, w) := xanswer op (xworld st) in
    (x, xanswered op x w st).

(** A function of the session core, run in this part: its calls are
    added to the calls of the run. *)
Definition lift {A : Type} (m : M W A) : MX A :=
  fun st =>
    let '(a, st') := m {| world := xworld st; workloads := xworkloads st; calls := [] |} in
    (a, {| xworld := world st'; xworkloads := workloads st';
           xcalls := xcalls st ++ (base_call <$> calls st') |}).

(** The [for ctx.Err() == nil] of [runWithRetry]; [None] when it is still
    running after [fuel] rounds. *)
Fixpoint runWithRetry_for (fuel : nat) (ctx : Context) (backoff : Duration)
  : MX (option unit) :=
  match fuel with
  | O => mret None
  | S fuel' =>
      cerr ← xcall (OpBase (OpCtxErr ctx));
      match cerr with
      | Some _ => mret (Some tt)
      | None =>
          err ← xcall (OpCall_f ctx);
          match err with
          | Some e =>
              (* dlog.Error(ctx, err): no format, the error is the argument *)
              xcall (OpBase (OpLog LogError "" [ArgError e]));;
              xcall (OpSleepWithContext ctx backoff);;
              let backoff := int64_wrap (backoff * 2) in
              let backoff := if 3 * Second <? backoff then 3 * Second else backoff in
              runWithRetry_for fuel' ctx backoff
          | None => runWithRetry_for fuel' ctx backoff
          end
      end
  end.

(** [func runWithRetry(ctx context.Context, f func(context.Context) error) error];
    the error it returns is always nil. *)
Definition runWithRetry (fuel : nat) (ctx : Context) : MX (option unit) :=
  runWithRetry_for fuel ctx (100 * Millisecond).

(** The closure [loadAgentConfigMap] of [Uninstall]: the data of the
    ConfigMap of the agents, nothing when there is none. *)
Definition loadAgentConfigMap (ctx : Context) (ns : string)
  : MX (K8sError + option (gmap string string)) :=
  r ← xcall (OpConfigMapsGet ctx ns (agentconfig_ConfigMap xenv));
  match r with
  | inl err =>
      if IsNotFound xenv err
      then mret (inr None) (* there are no agents to remove *)
      else mret (inl err)
  | inr cm => mret (inr (Some cm))
  end.

(** The closure [updateAgentConfigMap] of [Uninstall]. *)
Definition updateAgentConfigMap (ctx : Context) (ns : string) (cm : gmap string string)
  : MX (option K8sError) :=
  xcall (OpConfigMapsUpdate ctx ns (agentconfig_ConfigMap xenv) cm).

(** The [for _, ic := range ics] of [Uninstall], which ends at the first
    intercept of the agent. *)
Fixpoint Uninstall_removeIntercept (ctx : Context) (namespace an : string)
    (ics : list InterceptInfo) : MX unit :=
  match ics with
  | [] => mret tt
  | ic :: ics' =>
      if bool_decide (spec_Namespace (ii_Spec ic) = namespace)
         && bool_decide (spec_Agent (ii_Spec ic) = an)
      then xcall (OpRemoveIntercept ctx ic);; mret tt
      else Uninstall_removeIntercept ctx namespace an ics'
  end.

(** The [for _, an := range ur.Agents] of [Uninstall], on the data of the
    ConfigMap and [changed]. *)
Fixpoint Uninstall_agents (ctx : Context) (namespace : string) (ics : list InterceptInfo)
    (agents : list string) (data : gmap string string) (changed : bool)
  : MX (gmap string string * bool) :=
  match agents with
  | [] => mret (data, changed)
  | an :: agents' =>
      Uninstall_removeIntercept ctx namespace an ics;;
      if data !! an is Some _
      then Uninstall_agents ctx namespace ics agents' (delete an data) true
      else Uninstall_agents ctx namespace ics agents' data changed
  end.

(** The closure [clearAgentsConfigMap] of [Uninstall]. *)
Definition clearAgentsConfigMap (ctx : Context) (ns : string) : MX (option K8sError) :=
  r ← loadAgentConfigMap ctx ns;
  match r with
  | inl err => mret (Some err)
  | inr None => mret None
  | inr (Some data) =>
      if bool_decide (data <> ∅)
      then updateAgentConfigMap ctx ns ∅
      else mret None
  end.

(** The [for _, ns := range s.GetCurrentNamespaces(true)] of [Uninstall]. *)
Fixpoint Uninstall_clear_range (ctx : Context) (nss : list string)
  : MX (option K8sError) :=
  match nss with
  | [] => mret None
  | ns :: nss' =>
      err ← clearAgentsConfigMap ctx ns;
      match err with
      | Some e => mret (Some e)
      | None => Uninstall_clear_range ctx nss'
      end
  end.

Definition not_mapped (namespace : string) : Result :=
  ToResult (Some (GoError (UserError ("namespace " +:+ namespace +:+ " is not mapped")))).

(** [func (s *session) Uninstall(ctx, ur)], which returns a result or an
    error. *)
Definition Uninstall (s : session) (ctx : Context) (ur : UninstallRequest)
  : MX (error + Result) :=
  match ur_UninstallType ur with
  | UninstallRequest_NAMED_AGENTS =>
      (* must have a valid namespace in order to uninstall named agents *)
      let ur_Namespace :=
        if bool_decide (ur_Namespace ur = "") then Namespace s else ur_Namespace ur in
      namespace ← xcall (OpBase (OpActualNamespace ur_Namespace));
      if bool_decide (namespace = "")
      then
        (* namespace is not mapped *)
        mret (inr (not_mapped ur_Namespace))
      else
        r ← loadAgentConfigMap ctx namespace;
        match r with
        | inl err => mret (inr (ToResult (Some (ApiK8sError err))))
        | inr None => mret (inr (ToResult None))
        | inr (Some cm) =>
            ics ← xcall (OpBase OpGetCurrentIntercepts);
            r ← Uninstall_agents ctx namespace ics (ur_Agents ur) cm false;
            if snd r : bool
            then
              err ← updateAgentConfigMap ctx namespace (fst r);
              mret (inr (ToResult (ApiK8sError <$> err)))
            else mret (inr (ToResult None))
        end
  | UninstallRequest_ALL_AGENTS =>
      xcall (OpClearIngestsAndIntercepts ctx);;
      if bool_decide (ur_Namespace ur <> "")
      then
        let ur_Namespace :=
          if bool_decide (ur_Namespace ur = "") then Namespace s else ur_Namespace ur in
        namespace ← xcall (OpBase (OpActualNamespace ur_Namespace));
        if bool_decide (namespace = "")
        then
          (* namespace is not mapped *)
          mret (inr (not_mapped ur_Namespace))
        else
          err ← clearAgentsConfigMap ctx namespace;
          mret (inr (ToResult (ApiK8sError <$> err)))
      else
        (* Load all effected configmaps *)
        nss ← xcall (OpGetCurrentNamespaces true);
        err ← Uninstall_clear_range ctx nss;
        mret (inr (ToResult (ApiK8sError <$> err)))
  | UninstallRequest_UNSPECIFIED =>
      mret (inl (StatusError codes.InvalidArgument "invalid uninstall request"))
  end.

(** Taking and releasing [s.workloadsLock] in this part. *)
Definition xlock_workloads : MX Workloads :=
  fun st =>
    let '(ws, w) := handle (xbase xenv) _ (OpWorkloadsLock (xworkloads st)) (xworld st) in
    (ws, {| xworld := w; xworkloads := ws;
            xcalls := xcalls st ++ [XCalled (OpBase (OpWorkloadsLock (xworkloads st))) ws] |}).

Definition xstore_workloads (ws : Workloads) : MX unit :=
  fun st => (tt, {| xworld := xworld st; xworkloads := ws; xcalls := xcalls st |}).

(** The entry [workloadsWatcher] stores for a workload of the manager;
    [rw_State] is the state as [workload.StateFromRPC] gives it. *)
Definition remote_info (w : rpc_Workload) : workloadInfo :=
  {| wl_uid := rw_Uid w;
     wl_state := rw_State w;
     wl_agentState := rw_AgentState w;
     wl_interceptClients := rw_InterceptClients w |}.

Definition remote_key (w : rpc_Workload) : workloadInfoKey :=
  {| key_kind := rw_Kind w; key_name := rw_Name w |}.

(** The [for _, we := range wls.GetEvents()] of [workloadsWatcher]. *)
Fixpoint workloadsWatcher_events (namespace : string) (events : list rpc_WorkloadEvent)
    (workloads : gmap workloadInfoKey workloadInfo)
  : MX (gmap workloadInfoKey workloadInfo) :=
  match events with
  | [] => mret workloads
  | we :: events' =>
      let w := rwe_Workload we in
      let key := remote_key w in
      if bool_decide (rwe_Type we = WorkloadEvent_DELETED)
      then
        xcall (OpBase (OpLog LogDebug "Deleting workload %s/%s.%s"
                         [ArgString (Kind_String (key_kind key)); ArgString (key_name key);
                          ArgString namespace]));;
        workloadsWatcher_events namespace events' (delete key workloads)
      else
        xcall (OpBase (OpLog LogDebug "Adding workload %s/%s.%s"
                         [ArgString (Kind_String (key_kind key)); ArgString (key_name key);
                          ArgString namespace]));;
        workloadsWatcher_events namespace events' (<[key := remote_info w]> workloads)
  end.

(** The [for ctx.Err() == nil] of [workloadsWatcher]: [None] when it is
    still running after [fuel] rounds, else what the function returns and
    what is left of [synced]. *)
Fixpoint workloadsWatcher_for (fuel : nat) (ctx : Context) (namespace : string)
    (synced : bool) : MX (option (option error * bool)) :=
  match fuel with
  | O => mret None
  | S fuel' =>
      cerr ← xcall (OpBase (OpCtxErr ctx));
      match cerr with
      | Some _ => mret (Some (None, synced))
      | None =>
          r ← xcall OpRecv;
          match r with
          | inl err => mret (Some (Some err, synced))
          | inr wls =>
              ws ← xlock_workloads;
              let workloads := default ∅ (ws !! namespace) in
              workloads ← workloadsWatcher_events namespace wls workloads;
              xstore_workloads (<[namespace := workloads]> ws);;
              xcall (OpBase OpWakeSubscribers);;
              xcall (OpBase OpWorkloadsUnlock);;
              (if synced then xcall (OpBase OpWgDone) else mret tt);;
              workloadsWatcher_for fuel' ctx namespace false
          end
      end
  end.

(** [func (s *session) workloadsWatcher(ctx, namespace, synced)]; [None]
    when the watcher is still running after [fuel] rounds. *)
Definition workloadsWatcher (fuel : nat) (s : session) (ctx : Context)
    (namespace : string) (synced : bool) : MX (option (option error)) :=
  r ← (err ← xcall (OpWatchWorkloads ctx (sessionInfo s) namespace);
       match err with
       | Some err =>
           match status_FromError err with
           | Some (codes.FailedPrecondition, msg) =>
               mret (Some (Some (UserError msg), synced))
           | _ => mret (Some (Some err, synced))
           end
       | None => workloadsWatcher_for fuel ctx namespace synced
       end);
  match r with
  | None => mret None
  | Some (ret, synced') =>
      (* the deferred function *)
      (if synced' : bool then xcall (OpBase OpWgDone) else mret tt);;
      mret (Some ret)
  end.

(** The closure [send] of [WatchWorkloads]; the snapshot never fails. *)
Definition WatchWorkloads_send (s : session) (namespaces : list string)
  : MX (option error) :=
  ws ← lift (WorkloadInfoSnapshot (xbase xenv) s namespaces
               (ListRequest_EVERYTHING (filter_values (xbase xenv))));
  xcall (OpStreamSend ws).

(** The [for { select { ... } }] of [WatchWorkloads]. *)
Fixpoint WatchWorkloads_for (fuel : nat) (s : session) (c : Context) (id : string)
    (namespaces : list string) : MX (option (option error)) :=
  match fuel with
  | O => mret None
  | S fuel' =>
      sel ← xcall (OpSelectSubscriber c id);
      match sel with
      | SubscriberCtxDone => mret (Some None)
      | SubscriberWake =>
          err ← WatchWorkloads_send s namespaces;
          match err with
          | Some e => mret (Some (Some e))
          | None => WatchWorkloads_for fuel' s c id namespaces
          end
      end
  end.

(** [func (s *session) WatchWorkloads(c, wr, stream)]; [None] when it is
    still waiting after [fuel] rounds. *)
Definition WatchWorkloads (fuel : nat) (s : session) (c : Context)
    (namespaces : list string) : MX (option (option error)) :=
  id ← xcall OpNewUUID;
  xlock_workloads;;
  xcall (OpSubscribersAdd id);;
  xcall (OpBase OpWorkloadsUnlock);;
  r ← (* Send initial snapshot *)
      (err ← WatchWorkloads_send s namespaces;
       match err with
       | Some e => mret (Some (Some e))
       | None => WatchWorkloads_for fuel s c id namespaces
       end);
  match r with
  | None => mret None
  | Some ret =>
      (* the deferred function *)
      xlock_workloads;;
      xcall (OpSubscribersDelete id);;
      xcall (OpBase OpWorkloadsUnlock);;
      mret (Some ret)
  end.

End Services.

Arguments XSt : clear implicits.
Arguments MX : clear implicits.
Arguments XEnv : clear implicits.

(** The comparison of the environment in [UpdateStatus]: the loop over
    [cr.Environment], on its entries in the order the runtime ranges over
    them; [None] when the index [k[0]] is out of range, which panics.  A
    key that begins with a dash is looked up as [k[:1]], which is the
    dash. *)
Fixpoint envEQ_range (LookupEnv : string -> option string)
    (entries : list (string * string)) : option bool :=
  match entries with
  | [] => Some true
  | (k, v) :: entries' =>
      match k with
      | EmptyString => None
      | String k0 _ =>
          if bool_decide (k0 = "-"%char)
          then
            match LookupEnv (String k0 EmptyString) with
            | Some _ => Some false
            | None => envEQ_range LookupEnv entries'
            end
          else
            match LookupEnv k with
            | Some ov =>
                if bool_decide (ov <> v) then Some false
                else envEQ_range LookupEnv entries'
            | None => Some false
            end
      end
  end.

(** [envEQ] of [UpdateStatus] on the map [cr.Environment]. *)
Definition envEQ (order : RangeOrder string string) (LookupEnv : string -> option string)
    (Environment : gmap string string) : option bool :=
  envEQ_range LookupEnv (range_order order 0 Environment).

(** What the comparison asks of one entry. *)
Definition env_entry_holds (LookupEnv : string -> option string) (k v : string) : Prop :=
  match k with
  | String k0 _ =>
      if bool_decide (k0 = "-"%char) then LookupEnv "-" = None else LookupEnv k = Some v
  | EmptyString => True
  end.

(** ** Worlds for this part *)

Definition xquiet {X : Type} (op : XOp X) : X :=
  match op in XOp X return X with
  | OpBase op' => quiet op'
  | OpCall_f _ => None
  | OpSleepWithContext _ _ => tt
  | OpGetCurrentNamespaces _ => ["default"]
  | OpConfigMapsGet _ _ _ => inr ∅
  | OpConfigMapsUpdate _ _ _ _ => None
  | OpRemoveIntercept _ _ => None
  | OpClearIngestsAndIntercepts _ => None
  | OpWatchWorkloads _ _ _ => None
  | OpRecv => inr []
  | OpNewUUID => "uuid-1"
  | OpSubscribersAdd _ => tt
  | OpSubscribersDelete _ => tt
  | OpStreamSend _ => None
  | OpSelectSubscriber _ _ => SubscriberCtxDone
  end.

Definition status_404 (e : K8sError) : bool :=
  match e with
  | K8sStatusError code _ => code =? 404
  | K8sOtherError _ => false
  end.

(** A world that counts, with the answers [answer] to the operations of
    this part and the quiet answers to those of the core. *)
Definition xcounting (answer : forall X : Type, XOp X -> nat -> X) : XEnv nat :=
  {| xbase := world_quiet;
     xhandle := fun X op n => (answer X op n, S n);
     IsNotFound := status_404;
     agentconfig_ConfigMap := "telepresence-agents" |}.

Definition xstart {W : Type} (w : W) : XSt W :=
  {| xworld := w; xworkloads := ∅; xcalls := [] |}.

(** The function given to [runWithRetry] fails twice, then the context
    ends. *)
Definition xworld_failing : XEnv nat :=
  {| xbase := counting (fun X op n =>
                match op in Op X return X with
                | OpCtxErr _ => if (n <? 8)%nat then None else Some (ContextError false)
                | op' => quiet op'
                end);
     xhandle := fun X op n =>
                  (match op in XOp X return X with
                   | OpCall_f _ => Some (ErrorString "connection refused")
                   | op' => xquiet op'
                   end, S n);
     IsNotFound := status_404;
     agentconfig_ConfigMap := "telepresence-agents" |}.

(** The ConfigMap of the agents of namespace default holds web and api. *)
Definition agents_web_api : gmap string string :=
  <["api" := "agent: api"]> {["web" := "agent: web"]}.

Definition xworld_agents : XEnv nat :=
  xcounting (fun X op n =>
    match op in XOp X return X with
    | OpConfigMapsGet _ _ _ => inr agents_web_api
    | op' => xquiet op'
    end).


(** ** Kinds of calls of this part *)

Definition slept (c : XCall) : option Duration :=
  match c with
  | XCalled op _ =>
      match op with
      | OpSleepWithContext _ d => Some d
      | _ => None
      end
  end.



Fixpoint count_xcalls (p : XCall -> bool) (cs : list XCall) : nat :=
  match cs with
  | [] => O
  | c :: cs' => if p c then S (count_xcalls p cs') else count_xcalls p cs'
  end.


(** The ConfigMap data a call reads, and the data a call writes. *)
Definition got_data (c : XCall) : option (string * string * gmap string string) :=
  match c with
  | XCalled op x =>
      match op in XOp X return X -> option (string * string * gmap string string) with
      | OpConfigMapsGet _ ns name =>
          fun x => match x with inr data => Some (ns, name, data) | inl _ => None end
      | _ => fun _ => None
      end x
  end.

Definition updated_data (c : XCall) : option (string * string * gmap string string) :=
  match c with
  | XCalled op _ =>
      match op with
      | OpConfigMapsUpdate _ ns name data => Some (ns, name, data)
      | _ => None
      end
  end.

Definition removed_intercept (c : XCall) : option InterceptInfo :=
  match c with
  | XCalled op _ =>
      match op with
      | OpRemoveIntercept _ ic => Some ic
      | _ => None
      end
  end.


(** The first intercept of [an] in [namespace]. *)
Definition first_intercept (namespace an : string) (ics : list InterceptInfo)
  : option InterceptInfo :=
  List.find (fun ic => bool_decide (spec_Namespace (ii_Spec ic) = namespace)
                       && bool_decide (spec_Agent (ii_Spec ic) = an)) ics.

(** An environment for the comparison: HOME is set, and so is DEBUG,
    which the request wants unset. *)
Definition LookupEnv_sample (k : string) : option string :=
  if bool_decide (k = "HOME") then Some "/root"
  else if bool_decide (k = "DEBUG") then Some "1"
  else None.

Definition Environment_sample : gmap string string :=
  <["-DEBUG" := ""]> {["HOME" := "/root"]}.

(** The namespace whose ConfigMap a call gets. *)
Definition got_namespace (c : XCall) : option string :=
  match c with
  | XCalled op _ =>
      match op with
      | OpConfigMapsGet _ ns _ => Some ns
      | _ => None
      end
  end.

(** The error of a call on a ConfigMap that failed. *)
Definition ConfigMaps_error (c : XCall) : option K8sError :=
  match c with
  | XCalled op x =>
      match op in XOp X return X -> option K8sError with
      | OpConfigMapsGet _ _ _ => fun x => match x with inl e => Some e | inr _ => None end
      | OpConfigMapsUpdate _ _ _ _ => fun x => x
      | _ => fun _ => None
      end x
  end.

(** Every update of a ConfigMap among the calls writes less than what a
    get among them has read: the ConfigMap of the agents of the same
    namespace, with some of its entries and not all. *)
Definition only_removes (name : string) (cs : list XCall) : Prop :=
  forall c ns name' data',
    In c cs -> updated_data c = Some (ns, name', data') ->
    name' = name
    /\ exists c0 data,
         In c0 cs /\ got_data c0 = Some (ns, name, data)
         /\ data' ⊆ data /\ data' <> data.

(** The request to uninstall the agents web and db of the connected
    namespace. *)
Definition uninstall_web_db : UninstallRequest :=
  {| ur_UninstallType := UninstallRequest_NAMED_AGENTS;
     ur_Namespace := "";
     ur_Agents := ["web"; "db"] |}.


(** ** Kinds of calls of the watchers of this part *)

Definition is_base (c : XCall) : bool :=
  match c with
  | XCalled op _ => match op with OpBase _ => true | _ => false end
  end.

Definition is_xWgDone (c : XCall) : bool :=
  match c with
  | XCalled op _ =>
      match op with
      | OpBase op' => match op' with OpWgDone => true | _ => false end
      | _ => false
      end
  end.

Definition is_xLock (c : XCall) : bool :=
  match c with
  | XCalled op _ =>
      match op with
      | OpBase op' => match op' with OpWorkloadsLock _ => true | _ => false end
      | _ => false
      end
  end.

Definition is_xUnlock (c : XCall) : bool :=
  match c with
  | XCalled op _ =>
      match op with
      | OpBase op' => match op' with OpWorkloadsUnlock => true | _ => false end
      | _ => false
      end
  end.

Definition is_Recv (c : XCall) : bool :=
  match c with
  | XCalled op _ => match op with OpRecv => true | _ => false end
  end.

Definition is_StreamSend (c : XCall) : bool :=
  match c with
  | XCalled op _ => match op with OpStreamSend _ => true | _ => false end
  end.

Definition is_SubscribersAdd (c : XCall) : bool :=
  match c with
  | XCalled op _ => match op with OpSubscribersAdd _ => true | _ => false end
  end.

Definition is_SubscribersDelete (c : XCall) : bool :=
  match c with
  | XCalled op _ => match op with OpSubscribersDelete _ => true | _ => false end
  end.

(** A wake-up of the subscriber. *)
Definition is_wake (c : XCall) : bool :=
  match c with
  | XCalled op x =>
      match op in XOp X return X -> bool with
      | OpSelectSubscriber _ _ =>
          fun x => match x with SubscriberWake => true | SubscriberCtxDone => false end
      | _ => fun _ => false
      end x
  end.

(** The error of a send that failed. *)
Definition send_error (c : XCall) : option error :=
  match c with
  | XCalled op x =>
      match op in XOp X return X -> option error with
      | OpStreamSend _ => fun x => x
      | _ => fun _ => None
      end x
  end.

(** The events of the manager about [k], in a batch. *)
Definition remote_events_of (k : workloadInfoKey) (events : list rpc_WorkloadEvent)
  : list rpc_WorkloadEvent :=
  filter (fun we => remote_key (rwe_Workload we) = k) events.

(** The manager refuses the watch. *)
Definition xworld_watch_refused : XEnv nat :=
  xcounting (fun X op n =>
    match op in XOp X return X with
    | OpWatchWorkloads _ _ _ =>
        Some (StatusError codes.FailedPrecondition "traffic-manager is shutting down")
    | op' => xquiet op'
    end).

(** The manager reports that web was added with an intercepting client,
    then the stream ends. *)
Definition xworld_web_added : XEnv nat :=
  xcounting (fun X op n =>
    match op in XOp X return X with
    | OpRecv =>
        if (n <? 3)%nat
        then inr [{| rwe_Type := WorkloadEvent_ADDED_UNSPECIFIED;
                     rwe_Workload := {| rw_Kind := WorkloadInfo_DEPLOYMENT;
                                        rw_Name := "web"; rw_Uid := "u1";
                                        rw_State := StateAvailable;
                                        rw_AgentState := NO_AGENT_UNSPECIFIED;
                                        rw_InterceptClients := ["alice"] |} |}]
        else inl (ErrorString "EOF")
    | op' => xquiet op'
    end).

(** * Theorems *)

(** Running a monadic term: unfold the binds and calls, then let the
    world answer the next operation. *)
Ltac run_calls :=
  unfold call, lock_workloads, store_workloads, mbind, M_bind, mret, M_ret;
  cbn [world workloads answered fst snd].

Ltac answer :=
  match goal with
  | |- context [handle ?e ?X ?op ?w] =>
      destruct (handle e X op w) as [? ?]; cbn [world workloads answered fst snd]
  end.

(** Two lists of calls that differ in the bracketing of their appends. *)
Ltac same_calls := cbn [calls answered fst snd]; rewrite <- ?app_assoc; reflexivity.

(** A call that is in a list of calls written out. *)
Ltac find_call := repeat (first [left; reflexivity | right]).

Section RemainTheorems.

Context {W : Type} (env : Env W).

Lemma call_eq {X : Type} (op : Op X) (st : St W) (x : X) (w : W) :
  handle env X op (world st) = (x, w) ->
  call env op st = (x, answered op x w st).
Proof. intros H. unfold call. rewrite H. reflexivity. Qed.

Lemma bind_eq {A B : Type} (m : M W A) (f : A -> M W B) (st st' : St W) (a : A) :
  m st = (a, st') -> (m ≫= f) st = f a st'.
Proof. intros H. unfold mbind, M_bind. rewrite H. reflexivity. Qed.

Lemma remainLoop_for_tick (fuel : nat) (s : session) (c : Context) (st0 : St W) (w0 : W) :
  handle env _ (OpSelectRemain c) (world st0) = (RemainTick, w0) ->
  remainLoop_for env (S fuel) s c st0 =
    (let '(err, st') := Remain env s c (answered (OpSelectRemain c) RemainTick w0 st0) in
     match err with
     | Some e => (Some (Some e), st')
     | None => remainLoop_for env fuel s c st'
     end).
Proof.
  intros Hsel. cbn [remainLoop_for].
  rewrite (bind_eq _ _ _ _ _ (call_eq _ _ _ _ Hsel)).
  unfold mbind, M_bind.
  destruct (Remain env s c _) as [[e|] st']; reflexivity.
Qed.

Lemma remainLoop_for_done (fuel : nat) (s : session) (c : Context) (st0 : St W) (w0 : W) :
  handle env _ (OpSelectRemain c) (world st0) = (RemainCtxDone, w0) ->
  remainLoop_for env (S fuel) s c st0 =
    (Some None, answered (OpSelectRemain c) RemainCtxDone w0 st0).
Proof.
  intros Hsel. cbn [remainLoop_for].
  rewrite (bind_eq _ _ _ _ _ (call_eq _ _ _ _ Hsel)). reflexivity.
Qed.

(** C1: when the manager's remain call fails, [Remain] returns
    [ErrSessionExpired] for the codes NotFound and Unavailable, which ends
    the remain loop with that error; for every other code it asks
    [CheckTimeout] for the error to show, logs it, and returns nil, and the
    loop goes on with its next round. *)
Theorem Remain_failure_outcome (s : session) (ctx : Context) (st : St W) (e : error) (w : W) :
  let rctx := TimeoutContext env ctx TimeoutTrafficManagerAPI in
  let req := OpRemain rctx (NewRemainRequest s) in
  handle env _ req (world st) = (Some e, w) ->
  (status_Code e = codes.NotFound \/ status_Code e = codes.Unavailable ->
     Remain env s ctx st = (Some ErrSessionExpired, answered req (Some e) w st)
     /\ forall (fuel : nat) (st0 : St W),
          handle env _ (OpSelectRemain ctx) (world st0) = (RemainTick, world st) ->
          st = answered (OpSelectRemain ctx) RemainTick (world st) st0 ->
          fst (remainLoop_for env (S fuel) s ctx st0) = Some (Some ErrSessionExpired))
  /\
  (status_Code e <> codes.NotFound -> status_Code e <> codes.Unavailable ->
     fst (Remain env s ctx st) = None
     /\ (exists e' : error,
           calls (snd (Remain env s ctx st)) =
             calls st ++ [Called req (Some e);
                          Called (OpCheckTimeout rctx e) e';
                          Called (OpLog LogError "error calling Remain: %v" [ArgError e']) tt])
     /\ forall (fuel : nat) (st0 : St W),
          handle env _ (OpSelectRemain ctx) (world st0) = (RemainTick, world st) ->
          st = answered (OpSelectRemain ctx) RemainTick (world st) st0 ->
          remainLoop_for env (S fuel) s ctx st0 =
            remainLoop_for env fuel s ctx (snd (Remain env s ctx st))).
Proof.
  intros rctx req Hreq.
  assert (Hstep : Remain env s ctx st =
                  (if bool_decide (status_Code e = codes.NotFound)
                      || bool_decide (status_Code e = codes.Unavailable)
                   then mret (Some ErrSessionExpired)
                   else
                     e' ← call env (OpCheckTimeout rctx e);
                     call env (OpLog LogError "error calling Remain: %v" [ArgError e']);;
                     mret None) (answered req (Some e) w st)).
  { unfold Remain. fold rctx. fold req.
    rewrite (bind_eq _ _ _ _ _ (call_eq _ _ _ _ Hreq)). reflexivity. }
  split.
  - intros Hcode.
    assert (Hexp : Remain env s ctx st =
                   (Some ErrSessionExpired, answered req (Some e) w st)).
    { rewrite Hstep.
      destruct Hcode as [-> | ->]; reflexivity. }
    split; [exact Hexp|].
    intros fuel st0 Hsel Hst.
    rewrite (remainLoop_for_tick fuel s ctx st0 _ Hsel), <- Hst, Hexp.
    reflexivity.
  - intros Hnf Hun.
    rewrite (bool_decide_eq_false_2 _ Hnf), (bool_decide_eq_false_2 _ Hun) in Hstep.
    cbn [orb] in Hstep.
    destruct (handle env _ (OpCheckTimeout rctx e) w) as [e' w1] eqn:Hct.
    destruct (handle env _ (OpLog LogError "error calling Remain: %v" [ArgError e']) w1)
      as [[] w2] eqn:Hlog.
    assert (Hres : Remain env s ctx st =
              (None,
               answered (OpLog LogError "error calling Remain: %v" [ArgError e']) tt w2
                 (answered (OpCheckTimeout rctx e) e' w1 (answered req (Some e) w st)))).
    { rewrite Hstep. unfold mbind, M_bind, call.
      cbn [world answered]. rewrite Hct.
      cbn [world answered]. rewrite Hlog. reflexivity. }
    split; [rewrite Hres; reflexivity|].
    split.
    + exists e'. rewrite Hres. cbn. rewrite <- !app_assoc. reflexivity.
    + intros fuel st0 Hsel Hst.
      rewrite (remainLoop_for_tick fuel s ctx st0 _ Hsel), <- Hst, Hres.
      reflexivity.
Qed.

Lemma remainLoop_for_returns_nil (fuel : nat) (s : session) (c : Context) (st st1 : St W) :
  remainLoop_for env fuel s c st = (Some None, st1) ->
  exists st' : St W, exists w : W,
    handle env _ (OpSelectRemain c) (world st') = (RemainCtxDone, w)
    /\ st1 = answered (OpSelectRemain c) RemainCtxDone w st'.
Proof.
  revert st. induction fuel as [|fuel IH]; intros st Hloop.
  - discriminate Hloop.
  - destruct (handle env _ (OpSelectRemain c) (world st)) as [[|] w0] eqn:Hsel.
    + rewrite (remainLoop_for_done fuel s c st w0 Hsel) in Hloop.
      injection Hloop as <-. exists st, w0. split; [exact Hsel | reflexivity].
    + rewrite (remainLoop_for_tick fuel s c st w0 Hsel) in Hloop.
      destruct (Remain env s c _) as [[e|] st'].
      * discriminate Hloop.
      * exact (IH st' Hloop).
Qed.

Lemma remainLoop_returns (fuel : nat) (s : session) (c : Context) (st st1 : St W)
    (ret : option error) :
  remainLoop_for env fuel s c (snd (call env (OpNewTicker (5 * Second)) st))
    = (Some ret, st1) ->
  remainLoop env fuel s c st = (Some ret, snd (remainLoop_deferred env s c st1)).
Proof.
  intros Hloop. unfold remainLoop. unfold mbind at 1, M_bind at 1.
  destruct (call env (OpNewTicker (5 * Second)) st) as [[] st0].
  cbn [snd] in Hloop. unfold mbind at 1, M_bind at 1. rewrite Hloop.
  unfold mbind, M_bind.
  destruct (remainLoop_deferred env s c st1) as [[] st2]. reflexivity.
Qed.

Lemma remainLoop_deferred_calls (s : session) (c : Context) (st1 : St W) :
  let dctx := WithTimeout (WithoutCancel c) (3 * Second) in
  let dep := handle env _ (OpDepart dctx (SessionInfo_of s))
               (world (snd (call env OpTickerStop st1))) in
  let del := handle env _ (OpDeleteSessionInfoFromUserCache dctx (daemonID s)) (snd dep) in
  calls (snd (remainLoop_deferred env s c st1)) =
    calls st1
    ++ [Called OpTickerStop tt; Called (OpDepart dctx (SessionInfo_of s)) (fst dep)]
    ++ match fst dep with
       | Some e =>
           [Called (OpLog LogError "failed to depart from manager: %v" [ArgError e]) tt]
       | None =>
           Called (OpDeleteSessionInfoFromUserCache dctx (daemonID s)) (fst del)
           :: match fst del with
              | Some e =>
                  [Called (OpLog LogError
                             "failed to delete session from user cache: %v"
                             [ArgError e]) tt]
              | None => []
              end
       end
    ++ [Called OpManagerConnClose tt].
Proof.
  intros dctx. unfold remainLoop_deferred. fold dctx.
  unfold call, mbind, M_bind, mret, M_ret. cbn [snd].
  destruct (handle env _ OpTickerStop (world st1)) as [[] w1].
  cbn [world answered snd].
  destruct (handle env _ (OpDepart dctx (SessionInfo_of s)) w1) as [[e|] w2];
    cbn [world answered fst snd].
  - destruct (handle env _ (OpLog LogError "failed to depart from manager: %v" [ArgError e]) w2)
      as [[] w3].
    cbn [world answered].
    destruct (handle env _ OpManagerConnClose w3) as [[] w4].
    cbn [fst snd calls answered].
    rewrite <- !app_assoc. reflexivity.
  - destruct (handle env _ (OpDeleteSessionInfoFromUserCache dctx (daemonID s)) w2)
      as [[e|] w3]; cbn [world answered fst snd].
    + destruct (handle env _ (OpLog LogError "failed to delete session from user cache: %v"
                                [ArgError e]) w3) as [[] w4].
      cbn [world answered].
      destruct (handle env _ OpManagerConnClose w4) as [[] w5].
      cbn [fst snd calls answered].
      rewrite <- !app_assoc. reflexivity.
    + destruct (handle env _ OpManagerConnClose w3) as [[] w4].
      cbn [fst snd calls answered].
      rewrite <- !app_assoc. reflexivity.
Qed.

(** C5: when the remain loop is left because the caller's context is
    done, the deferred shutdown stops the ticker, calls depart with the
    session token under a context detached from the caller's and limited
    to 3 seconds, deletes the cached session only when depart succeeded
    (a failed depart is logged and the cache is left alone), and closes
    the manager connection last in either case; the loop returns nil. *)
Theorem remainLoop_cancel_shutdown (fuel : nat) (s : session) (c : Context) (st st1 : St W) :
  let dctx := WithTimeout (WithoutCancel c) (3 * Second) in
  let dep := handle env _ (OpDepart dctx (SessionInfo_of s))
               (world (snd (call env OpTickerStop st1))) in
  let del := handle env _ (OpDeleteSessionInfoFromUserCache dctx (daemonID s)) (snd dep) in
  remainLoop_for env fuel s c (snd (call env (OpNewTicker (5 * Second)) st))
    = (Some None, st1) ->
  (exists st' : St W,
      calls st1 = calls st' ++ [Called (OpSelectRemain c) RemainCtxDone])
  /\ cancelled_with_caller dctx = false
  /\ own_timeout dctx = Some 3000000000
  /\ fst (remainLoop env fuel s c st) = Some None
  /\ calls (snd (remainLoop env fuel s c st)) =
       calls st1
       ++ [Called OpTickerStop tt; Called (OpDepart dctx (SessionInfo_of s)) (fst dep)]
       ++ match fst dep with
          | Some e =>
              [Called (OpLog LogError "failed to depart from manager: %v" [ArgError e]) tt]
          | None =>
              Called (OpDeleteSessionInfoFromUserCache dctx (daemonID s)) (fst del)
              :: match fst del with
                 | Some e =>
                     [Called (OpLog LogError
                                "failed to delete session from user cache: %v"
                                [ArgError e]) tt]
                 | None => []
                 end
          end
       ++ [Called OpManagerConnClose tt].
Proof.
  intros dctx dep del Hloop.
  split.
  { destruct (remainLoop_for_returns_nil _ _ _ _ _ Hloop) as (st' & w & _ & ->).
    exists st'. reflexivity. }
  split; [reflexivity|]. split; [reflexivity|].
  rewrite (remainLoop_returns _ _ _ _ _ _ Hloop). cbn [fst snd].
  split; [reflexivity|].
  apply remainLoop_deferred_calls.
Qed.

End RemainTheorems.

Lemma Remain_failure_outcome_witness :
  fst (Remain world_expired session0 CallerContext (start 0%nat)) = Some ErrSessionExpired.
Proof.
  destruct (Remain_failure_outcome world_expired session0 CallerContext (start 0%nat)
              (StatusError codes.NotFound "session not found") 1%nat eq_refl)
    as [Hexpired _].
  destruct Hexpired as [Hret _].
  - left. reflexivity.
  - rewrite Hret. reflexivity.
Defined.

Lemma remainLoop_cancel_shutdown_witness :
  fst (remainLoop world_quiet 1 session0 CallerContext (start 0%nat)) = Some None.
Proof.
  refine (proj1 (proj2 (proj2 (proj2
    (remainLoop_cancel_shutdown world_quiet 1 session0 CallerContext (start 0%nat) _ _))))).
  reflexivity.
Defined.

Section ConnectTheorems.

Context {W : Type} (env : Env W).

(** C2 (amended): once [connectMgr] has loaded a cached session, it
    probes it with one remain call.  When the probe succeeds and the
    connect context is still alive the cached session is the session of
    the result, with no arrive and no save; when the probe succeeds but the
    context has ended, [connectMgr] fails with the context's error, again
    without arriving; when the probe fails, whatever the error, the
    cached session is dropped and arrive-as-client is called once, and
    the session it returns is saved and becomes the session of the
    result. *)
Theorem connectMgr_reuse_or_arrive (ctx0 : Context) (cluster : Cluster) (installID : string)
    (cr : ConnectRequest) (st st1 : St W) (l : connectMgr_locals) (tok : SessionInfo)
    (w1 : W) :
  let ctx := TimeoutContext env ctx0 TimeoutTrafficManagerConnect in
  let load := OpLoadSessionInfoFromUserCache ctx (l_daemonID l) in
  let known := OpLog LogDebug
      "traffic-manager port-forward established, client was already known to the traffic-manager as %q"
      [ArgString (l_clientID l)] in
  let unknown := OpLog LogDebug
      "traffic-manager port-forward established, making client known to the traffic-manager as %q"
      [ArgString (l_clientID l)] in
  let arrive := OpArriveAsClient ctx
      {| ci_Name := l_clientID l; ci_Namespace := cl_Namespace cluster;
         ci_InstallId := installID; ci_Product := "telepresence";
         ci_Version := client_Version env |} in
  let setClient := OpSetManagerClient
      (if 0 <? grpc_MaxReceiveSize env then [grpc_MaxReceiveSize env] else []) in
  connectMgr_bind env ctx cluster cr st = (inr l, st1) ->
  handle env _ load (world st1) = (inr (Some tok), w1) ->
  let probe := handle env _ (OpRemain ctx tok) w1 in
  let alive := handle env _ (OpCtxErr ctx) (snd probe) in
  let arrived := handle env _ arrive (snd (handle env _ unknown (snd probe))) in
  let run := connectMgr env ctx0 cluster installID cr st in
  match fst probe with
  | None =>
      match fst alive with
      | None =>
          (exists s : session, fst run = inr s /\ sessionInfo s = tok)
          /\ calls (snd run) =
               calls st1 ++ [Called load (inr (Some tok)); Called (OpRemain ctx tok) None;
                             Called (OpCtxErr ctx) None; Called known tt;
                             Called setClient tt]
      | Some e =>
          fst run = inl e
          /\ calls (snd run) =
               calls st1 ++ [Called load (inr (Some tok)); Called (OpRemain ctx tok) None;
                             Called (OpCtxErr ctx) (Some e)]
      end
  | Some e =>
      exists rest : list Call,
        calls (snd run) =
          calls st1 ++ [Called load (inr (Some tok)); Called (OpRemain ctx tok) (Some e);
                        Called unknown tt; Called arrive (fst arrived)] ++ rest
        /\ match fst arrived with
           | inr fresh =>
               let save := OpSaveSessionInfoToUserCache ctx (l_daemonID l) fresh in
               match fst (handle env _ save (snd arrived)) with
               | None =>
                   (exists s : session, fst run = inr s /\ sessionInfo s = fresh)
                   /\ rest = [Called save None; Called setClient tt]
               | Some e' => fst run = inl e' /\ rest = [Called save (Some e')]
               end
           | inl _ => exists e' : error, fst run = inl e'
           end
  end.
Proof.
  intros ctx load known unknown arrive setClient Hbind Hload. cbv zeta.
  unfold connectMgr. fold ctx.
  unfold mbind, M_bind. rewrite Hbind.
  unfold connectMgr_sessionInfo. fold load known unknown arrive setClient.
  run_calls. rewrite Hload. cbn [world answered fst snd].
  destruct (handle env _ (OpRemain ctx tok) w1) as [[e|] w2]; cbn [world answered fst snd].
  - destruct (handle env _ unknown w2) as [[] w3]; cbn [world answered fst snd].
    destruct (handle env _ arrive w3) as [[err|fresh] w4]; cbn [world answered fst snd].
    + destruct (status_FromError err) as [[[] msg]|]; repeat answer;
        (eexists; split; [same_calls | eexists; reflexivity]).
    + destruct (handle env _ (OpSaveSessionInfoToUserCache ctx (l_daemonID l) fresh) w4)
        as [[e'|] w5]; cbn [world answered fst snd].
      * eexists. split; [same_calls|]. split; reflexivity.
      * destruct (handle env _ setClient w5) as [[] w6]; cbn [world answered fst snd].
        eexists. split; [same_calls|]. split; [|reflexivity].
        eexists. split; reflexivity.
  - destruct (handle env _ (OpCtxErr ctx) w2) as [[e|] w3]; cbn [world answered fst snd].
    + split; [reflexivity | same_calls].
    + destruct (handle env _ known w3) as [[] w4]; cbn [world answered fst snd].
      destruct (handle env _ setClient w4) as [[] w5]; cbn [world answered fst snd].
      split; [|same_calls].
      eexists. split; reflexivity.
Qed.

End ConnectTheorems.

Lemma connectMgr_reuse_or_arrive_witness :
  exists s : session,
    fst (connectMgr world_probe_ok CallerContext cluster0 "install-1" request0 (start 0%nat))
      = inr s
    /\ sessionInfo s = {| SessionId := "cached" |}.
Proof.
  exact (proj1 (connectMgr_reuse_or_arrive world_probe_ok CallerContext cluster0
                  "install-1" request0 (start 0%nat) _ _ _ _ eq_refl eq_refl)).
Defined.

(** C2 as stated fails: the cached session is loaded and the probe
    succeeds, yet [connectMgr] returns the error of the connect context
    instead of a session with the cached token. *)
Lemma reuse_or_arrive_as_stated_counterexample :
  ~ reuse_or_arrive_as_stated world_probe_ok_context_done CallerContext cluster0
      "install-1" request0 (start 0%nat).
Proof.
  intros Hclaim.
  destruct (Hclaim {| SessionId := "cached" |}) as [Hreuse _].
  - eexists. eexists. vm_compute. find_call.
  - destruct Hreuse as [[s [Hs _]] _].
    + eexists. vm_compute. find_call.
    + vm_compute in Hs. discriminate Hs.
Qed.

Section RootDaemonTheorems.

Context {W : Type} (env : Env W).

(** C3 (amended): in the connect loop of [connectRootDaemon], a status
    whose session id differs from the local one makes the loop issue one
    disconnect and, when that disconnect succeeds, one more connect; a
    second differing id is fatal, with no further disconnect.  A status
    whose OutboundConfig or Session is missing is fatal at once: no
    disconnect is issued and connect is not retried.  Two rounds of the
    loop always suffice. *)
Theorem connectRootDaemon_retry (fuel : nat) (ctx : Context) (tmTimeout : Duration)
    (nc : NetworkConfig) (st : St W) :
  let connect := OpRootConnect (WithTimeout ctx (Z.quot tmTimeout 2)) nc in
  let disconnect := OpRootDisconnect ctx in
  let run := connectRootDaemon_for env (S (S fuel)) 1 ctx tmTimeout nc st in
  let first := handle env _ connect (world st) in
  let disconnected := handle env _ disconnect (snd first) in
  let second := handle env _ connect (snd disconnected) in
  let no_session := ErrorString "root daemon's OutboundConfig has no Session" in
  match fst first with
  | inl err =>
      fst run = Some (Some (WrapError "failed to connect to root daemon" err))
      /\ calls (snd run) = calls st ++ [Called connect (fst first)]
  | inr rootStatus =>
      match OutboundConfig_Session rootStatus with
      | None =>
          fst run = Some (Some no_session)
          /\ calls (snd run) = calls st ++ [Called connect (fst first)]
      | Some ocSession =>
          if bool_decide (SessionId ocSession = SessionId (nc_Session nc))
          then
            fst run = Some None
            /\ calls (snd run) = calls st ++ [Called connect (fst first)]
          else
            match fst disconnected with
            | Some e =>
                fst run =
                  Some (Some (WrapError "failed to disconnect from the root daemon" e))
                /\ calls (snd run) =
                     calls st ++ [Called connect (fst first); Called disconnect (Some e)]
            | None =>
                calls (snd run) =
                  calls st ++ [Called connect (fst first); Called disconnect None;
                               Called connect (fst second)]
                /\ fst run =
                     Some
                       match fst second with
                       | inl err => Some (WrapError "failed to connect to root daemon" err)
                       | inr rootStatus2 =>
                           match OutboundConfig_Session rootStatus2 with
                           | None => Some no_session
                           | Some ocSession2 =>
                               if bool_decide
                                    (SessionId ocSession2 = SessionId (nc_Session nc))
                               then None
                               else Some (ErrorString "unable to reconnect to root daemon")
                           end
                       end
            end
      end
  end.
Proof.
  intros connect disconnect. cbv zeta.
  cbn [connectRootDaemon_for]. fold connect disconnect.
  run_calls.
  destruct (handle env _ connect (world st)) as [[err|rootStatus] w1];
    cbn [world answered fst snd]; [split; [reflexivity | same_calls]|].
  destruct (OutboundConfig_Session rootStatus) as [ocSession|];
    [|split; [reflexivity | same_calls]].
  case_bool_decide; [split; [reflexivity | same_calls]|].
  change (1 =? 2) with false. cbn iota. run_calls.
  destruct (handle env _ disconnect w1) as [[e|] w2];
    cbn [world answered fst snd]; [split; [reflexivity | same_calls]|].
  destruct (handle env _ connect w2) as [[err|rootStatus2] w3];
    cbn [world answered fst snd]; [split; [same_calls | reflexivity]|].
  destruct (OutboundConfig_Session rootStatus2) as [ocSession2|];
    [|split; [same_calls | reflexivity]].
  case_bool_decide; [split; [same_calls | reflexivity]|].
  change (1 + 1 =? 2) with true. cbn iota.
  split; [same_calls | reflexivity].
Qed.

(** Out of process and with the socket dialled, [connectRootDaemon] runs
    the loop from attempt 1 under the connect timeout, waits for the
    network when the loop was left by [break], and closes the connection
    when it returns an error. *)
Lemma connectRootDaemon_out_of_process (fuel : nat) (s : session) (ctx : Context)
    (nc : NetworkConfig) (isPodDaemon : bool) (st : St W) (w1 w2 w3 : W) :
  let connecting := OpLog LogInfo "Connecting to root daemon..." [] in
  handle env _ connecting (world st) = (tt, w1) ->
  handle env _ OpRootSessionInProcess w1 = (false, w2) ->
  handle env _ (OpSocketDialRootDaemon ctx) w2 = (None, w3) ->
  connectRootDaemon env fuel s ctx nc isPodDaemon st =
    (r ← (r ← connectRootDaemon_for env fuel 1 ctx
                (timeouts_Get env TimeoutTrafficManagerConnect) nc;
          match r with
          | None => mret None
          | Some (Some e) => mret (Some (inl e))
          | Some None => r ← connectRootDaemon_wait env ctx SocketClient; mret (Some r)
          end);
     match r with
     | Some (inl _) => call env OpRootConnClose;; mret r
     | _ => mret r
     end)
      (answered (OpSocketDialRootDaemon ctx) None w3
         (answered OpRootSessionInProcess false w2 (answered connecting tt w1 st))).
Proof.
  intros connecting Hlog Hin Hdial. unfold connectRootDaemon. fold connecting.
  rewrite (bind_eq _ _ _ _ _ (call_eq env connecting st tt w1 Hlog)).
  rewrite (bind_eq _ _ _ _ _
             (call_eq env OpRootSessionInProcess (answered connecting tt w1 st)
                false w2 Hin)).
  rewrite (bind_eq _ _ _ _ _
             (call_eq env (OpSocketDialRootDaemon ctx)
                (answered OpRootSessionInProcess false w2 (answered connecting tt w1 st))
                None w3 Hdial)).
  reflexivity.
Qed.

End RootDaemonTheorems.

(** C3 as stated fails: the first status has no outbound configuration,
    and [connectRootDaemon] gives up after that one connect, without a
    disconnect and without a second connect. *)
Lemma root_retry_as_stated_counterexample :
  ~ root_retry_as_stated world_root_without_config 2 session0 CallerContext network0
      false (start 0%nat).
Proof.
  intros [_ Hmissing].
  destruct (Hmissing {| ds_OutboundConfig := None |}) as [Hdisconnects _].
  - vm_compute. reflexivity.
  - reflexivity.
  - vm_compute in Hdisconnects. discriminate Hdisconnects.
Qed.

Section WatcherTheorems.

Context {W : Type} (env : Env W).




Lemma In_started_watcher (c : Call) (w : Watcher) (ns : string) :
  c = Called (OpGo w ns) tt -> started_watcher c = Some (w, ns).
Proof. intros ->. reflexivity. Qed.

Lemma ensureWatchers_range_calls (s : session) (namespaces : list string) (st : St W) :
  let selected := if managerHasWatcherSupport (managerVersion s)
                  then Go_workloadsWatcher else Go_localWorkloadsWatcher in
  exists new : list Call,
    calls (snd (ensureWatchers_range env s namespaces st)) = calls st ++ new
    /\ (forall c w ns, In c new -> started_watcher c = Some (w, ns) ->
          w = selected /\ In ns namespaces)
    /\ (forall ns, In ns namespaces ->
          (exists seen ws, In (Called (OpWorkloadsLock seen) ws) new /\ is_Some (ws !! ns))
          \/ In (Called (OpGo selected ns) tt) new).
Proof.
  intros selected. revert st.
  induction namespaces as [|ns0 namespaces IH]; intros st.
  - exists []. cbn. rewrite app_nil_r.
    split; [reflexivity|]. split; intros; contradiction.
  - cbn [ensureWatchers_range]. run_calls.
    destruct (handle env _ (OpWorkloadsLock (workloads st)) (world st)) as [ws w1];
      cbn [world workloads answered fst snd].
    destruct (handle env _ OpWorkloadsUnlock w1) as [[] w2];
      cbn [world workloads answered fst snd].
    case_bool_decide as Hseen; run_calls; repeat answer;
      repeat match goal with u : unit |- _ => destruct u end;
      match goal with
      | |- context [ensureWatchers_range env s namespaces ?st'] =>
          destruct (IH st') as (new & Hcalls & Hsound & Hcomplete); rewrite Hcalls
      end;
      cbn [calls answered]; rewrite <- !app_assoc;
      (eexists; split; [reflexivity|]); cbn [app]; fold selected; split.
    + intros c wt ns Hin Hgo.
      destruct Hin as [<- | [<- | [<- | Hin]]]; try discriminate Hgo.
      destruct (Hsound c wt ns Hin Hgo) as [-> Hns]. split; [reflexivity | right; exact Hns].
    + intros ns [<- | Hns].
      * left. exists (workloads st), ws. split; [left; reflexivity | exact Hseen].
      * destruct (Hcomplete ns Hns) as [(seen & ws' & Hin & Hsome) | Hin].
        -- left. exists seen, ws'. split; [do 3 right; exact Hin | exact Hsome].
        -- right. do 3 right. exact Hin.
    + intros c wt ns Hin Hgo.
      destruct Hin as [<- | [<- | [<- | [<- | Hin]]]]; try discriminate Hgo.
      * injection Hgo as <- <-. split; [reflexivity | left; reflexivity].
      * destruct (Hsound c wt ns Hin Hgo) as [-> Hns]. split; [reflexivity | right; exact Hns].
    + intros ns [<- | Hns].
      * right. do 2 right. left. reflexivity.
      * destruct (Hcomplete ns Hns) as [(seen & ws' & Hin & Hsome) | Hin].
        -- left. exists seen, ws'. split; [do 4 right; exact Hin | exact Hsome].
        -- right. do 4 right. exact Hin.
Qed.

Lemma managerHasWatcherSupport_spec (v : Version) :
  managerHasWatcherSupport v = true <-> version_at_least_2_21 v.
Proof.
  unfold managerHasWatcherSupport, version_at_least_2_21.
  rewrite orb_true_iff, andb_true_iff, !N.ltb_lt, N.eqb_eq. lia.
Qed.

(** C6: [ensureWatchers] starts watchers of one kind only, chosen from
    the manager's version alone: the stream-driven [workloadsWatcher] when
    the version is at least 2.21, the informer-based
    [localWorkloadsWatcher] otherwise.  Every watcher it starts is of that
    kind and for one of the given namespaces, and every given namespace
    that was not found in the workloads map when it was looked up gets
    one. *)
Theorem ensureWatchers_selects_by_version (s : session) (namespaces : list string)
    (st : St W) :
  let selected := if managerHasWatcherSupport (managerVersion s)
                  then Go_workloadsWatcher else Go_localWorkloadsWatcher in
  (selected = Go_workloadsWatcher <-> version_at_least_2_21 (managerVersion s))
  /\ (selected = Go_localWorkloadsWatcher <-> ~ version_at_least_2_21 (managerVersion s))
  /\ exists new : list Call,
       calls (snd (ensureWatchers env s namespaces st)) = calls st ++ new
       /\ (forall w ns, In (Called (OpGo w ns) tt) new -> w = selected /\ In ns namespaces)
       /\ (forall ns, In ns namespaces ->
             (exists seen ws,
                 In (Called (OpWorkloadsLock seen) ws) new /\ is_Some (ws !! ns))
             \/ In (Called (OpGo selected ns) tt) new).
Proof.
  intros selected.
  pose proof (managerHasWatcherSupport_spec (managerVersion s)) as Hspec.
  split; [|split].
  - subst selected. destruct (managerHasWatcherSupport (managerVersion s)).
    + split; [intros _; apply Hspec; reflexivity | reflexivity].
    + split; [discriminate|]. intros Hv. apply Hspec in Hv. discriminate Hv.
  - subst selected. destruct (managerHasWatcherSupport (managerVersion s)).
    + split; [discriminate|]. intros Hv. exfalso. apply Hv, Hspec. reflexivity.
    + split; [|reflexivity]. intros _ Hv. apply Hspec in Hv. discriminate Hv.
  - unfold ensureWatchers. run_calls.
    destruct (handle env _ (OpLog LogDebug "Ensure watchers %v" [ArgStrings namespaces])
                (world st)) as [[] w1]; cbn [world workloads answered fst snd].
    destruct (handle env _ (OpWgAdd (length namespaces)) w1) as [[] w2];
      cbn [world workloads answered fst snd].
    match goal with
    | |- context [ensureWatchers_range env s namespaces ?st'] =>
        destruct (ensureWatchers_range_calls s namespaces st')
          as (new & Hcalls & Hsound & Hcomplete);
        destruct (ensureWatchers_range env s namespaces st') as [[] st1]
    end.
    cbn [fst snd] in Hcalls. fold selected in Hsound, Hcomplete.
    repeat answer. repeat match goal with u : unit |- _ => destruct u end.
    cbn [calls answered]. rewrite Hcalls. cbn [calls answered].
    rewrite <- !app_assoc. eexists. split; [reflexivity|]. cbn [app]. split.
    + intros wt ns Hin.
      destruct Hin as [Hin | [Hin | Hin]];
        try (apply (f_equal started_watcher) in Hin; discriminate Hin).
      apply in_app_or in Hin. destruct Hin as [Hin | Hin].
      * exact (Hsound _ wt ns Hin eq_refl).
      * destruct Hin as [Hin | [Hin | []]];
          apply (f_equal started_watcher) in Hin; discriminate Hin.
    + intros ns Hns.
      destruct (Hcomplete ns Hns) as [(seen & ws' & Hin & Hsome) | Hin].
      * left. exists seen, ws'. split; [|exact Hsome].
        do 2 right. apply in_or_app. left. exact Hin.
      * right. do 2 right. apply in_or_app. left. exact Hin.
Qed.

End WatcherTheorems.


Section SnapshotTheorems.

Variable F : ListRequest_Filter.
Variable wo : RangeOrder workloadInfoKey workloadInfo.
Variable io : RangeOrder string WorkloadInfo.

Lemma eachWorkload_from_visits {A : Type} (i : nat) (ws : Workloads)
    (namespaces : list string)
    (do : WorkloadInfo_Kind -> string -> string -> workloadInfo -> A -> A) (acc : A) :
  eachWorkload_from wo i ws namespaces do acc =
    foldl (fun acc v => do (key_kind (snd (fst v))) (key_name (snd (fst v)))
                          (fst (fst v)) (snd v) acc)
      acc (visits_from wo i ws namespaces).
Proof.
  revert i acc. induction namespaces as [|ns namespaces IH]; intros i acc.
  - reflexivity.
  - cbn [eachWorkload_from visits_from]. rewrite foldl_app, IH.
    destruct (ws !! ns) as [m|]; [rewrite foldl_fmap|]; reflexivity.
Qed.

Lemma elem_of_visits_from (i : nat) (ws : Workloads) (namespaces : list string)
    (ns : string) (key : workloadInfoKey) (info : workloadInfo) :
  (ns, key, info) ∈ visits_from wo i ws namespaces <-> listed ws namespaces ns key info.
Proof.
  unfold listed. revert i.
  induction namespaces as [|ns0 namespaces IH]; intros i; cbn [visits_from].
  - split; [intros H; inversion H | intros [H _]; inversion H].
  - rewrite elem_of_app, IH, elem_of_cons. split.
    + intros [Hhere | [Hin Hm]]; [|split; [right; exact Hin | exact Hm]].
      destruct (ws !! ns0) as [m|] eqn:Hws; [|inversion Hhere].
      apply list_elem_of_fmap in Hhere as ([k v] & Heq & Hin).
      injection Heq as -> -> ->. split; [left; reflexivity|].
      exists m. split; [exact Hws|].
      rewrite (range_order_perm wo i m) in Hin.
      apply elem_of_map_to_list in Hin. exact Hin.
    + intros [[-> | Hin] (m & Hws & Hm)]; [left | right; split; [exact Hin | eauto]].
      rewrite Hws. apply list_elem_of_fmap. exists (key, info).
      split; [reflexivity|].
      rewrite (range_order_perm wo i m). apply elem_of_map_to_list. exact Hm.
Qed.

Section Collect.

Variable iMap : gmap string (list InterceptInfo).
Variable gMap : gmap string (list IngestInfo).
Variable sMap : gmap string string.
Variable filter : Z.

Let visit : Type := (string * workloadInfoKey * workloadInfo)%type.

Let passes (v : visit) : Prop :=
  filtered_out F iMap gMap sMap filter (key_name (snd (fst v))) = false.

Let key_of (v : visit) : string :=
  wiMap_key (Kind_String (key_kind (snd (fst v)))) (key_name (snd (fst v))) (fst (fst v)).

Let render (v : visit) : WorkloadInfo :=
  wlInfo_of iMap gMap sMap (key_kind (snd (fst v))) (key_name (snd (fst v)))
    (fst (fst v)) (snd v).

Let step (acc : gmap string WorkloadInfo) (v : visit) : gmap string WorkloadInfo :=
  collect_wlInfo F iMap gMap sMap filter (key_kind (snd (fst v))) (key_name (snd (fst v)))
    (fst (fst v)) (snd v) acc.

(** The entry under a key is the one of the last workload that was
    stored under it. *)
Lemma foldl_collect_lookup (vs : list visit) (acc : gmap string WorkloadInfo)
    (key : string) :
  (exists v, v ∈ vs /\ passes v /\ key_of v = key
             /\ foldl step acc vs !! key = Some (render v))
  \/ ((forall v, v ∈ vs -> passes v -> key_of v <> key)
      /\ foldl step acc vs !! key = acc !! key).
Proof.
  induction vs as [|v vs IH] using rev_ind.
  - right. split; [intros v Hv; inversion Hv | reflexivity].
  - rewrite foldl_app. cbn [foldl].
    destruct (decide (passes v /\ key_of v = key)) as [[Hp Hk] | Hno].
    + left. exists v. split; [apply elem_of_app; right; left|].
      split; [exact Hp|]. split; [exact Hk|].
      unfold step, collect_wlInfo. unfold passes in Hp. rewrite Hp.
      fold (key_of v). rewrite Hk. apply lookup_insert_eq.
    + assert (Hsame : step (foldl step acc vs) v !! key = foldl step acc vs !! key).
      { unfold step at 1, collect_wlInfo.
        destruct (filtered_out F iMap gMap sMap filter (key_name (snd (fst v)))) eqn:Hf;
          [reflexivity|].
        apply lookup_insert_ne. intros Hk. apply Hno. split; [exact Hf | exact Hk]. }
      rewrite Hsame.
      destruct IH as [(v' & Hin & Hp & Hk & Hl) | [Hnone Hl]].
      * left. exists v'. split; [apply elem_of_app; left; exact Hin|]. auto.
      * right. split; [|exact Hl].
        intros v' Hin Hp Hk. apply elem_of_app in Hin as [Hin | Hin].
        -- exact (Hnone v' Hin Hp Hk).
        -- apply list_elem_of_singleton in Hin as ->. apply Hno. split; assumption.
Qed.

End Collect.

Lemma wiMap_lookup_sound (ws : Workloads) (namespaces : list string)
    (iMap : gmap string (list InterceptInfo)) (gMap : gmap string (list IngestInfo))
    (sMap : gmap string string) (filter : Z) (key : string) (wi : WorkloadInfo) :
  getInfosForWorkloads_wiMap F wo ws namespaces iMap gMap sMap filter !! key = Some wi ->
  exists ns k info,
    listed ws namespaces ns k info
    /\ filtered_out F iMap gMap sMap filter (key_name k) = false
    /\ key = wiMap_key (Kind_String (key_kind k)) (key_name k) ns
    /\ wi = wlInfo_of iMap gMap sMap (key_kind k) (key_name k) ns info.
Proof.
  unfold getInfosForWorkloads_wiMap. rewrite eachWorkload_from_visits. intros Hl.
  destruct (foldl_collect_lookup iMap gMap sMap filter (visits_from wo 0 ws namespaces) ∅ key)
    as [([[ns k] info] & Hin & Hp & Hk & Hv) | [_ Hnone]]; cbn [fst snd] in *.
  - apply elem_of_visits_from in Hin. exists ns, k, info.
    rewrite Hv in Hl. injection Hl as <-. auto.
  - rewrite Hnone, lookup_empty in Hl. discriminate Hl.
Qed.


Lemma elem_of_getInfosForWorkloads_locked (ws : Workloads) (namespaces : list string)
    (iMap : gmap string (list InterceptInfo)) (gMap : gmap string (list IngestInfo))
    (sMap : gmap string string) (filter : Z) (wi : WorkloadInfo) :
  wi ∈ getInfosForWorkloads_locked F wo io ws namespaces iMap gMap sMap filter
  <-> exists key,
        getInfosForWorkloads_wiMap F wo ws namespaces iMap gMap sMap filter !! key
        = Some wi.
Proof.
  unfold getInfosForWorkloads_locked, sort_Slice_by_Name.
  rewrite merge_sort_Permutation, (range_order_perm io).
  rewrite list_elem_of_fmap. split.
  - intros ([key wi'] & -> & Hin). exists key. apply elem_of_map_to_list. exact Hin.
  - intros [key Hl]. exists (key, wi). split; [reflexivity|].
    apply elem_of_map_to_list. exact Hl.
Qed.






Lemma not_less_before_leb (a b : WorkloadInfo) :
  not_less_before a b <-> String.leb (wi_Name a) (wi_Name b) = true.
Proof.
  unfold not_less_before, less_Name, String.ltb, String.leb.
  rewrite (String.compare_antisym (wi_Name a) (wi_Name b)).
  destruct (String.compare (wi_Name b) (wi_Name a)); cbn; split; congruence.
Qed.

#[local] Instance not_less_before_total : Total not_less_before.
Proof.
  intros a b. rewrite !not_less_before_leb. apply String.leb_total.
Qed.

#[local] Instance not_less_before_trans : Transitive not_less_before.
Proof.
  intros a b c. rewrite !not_less_before_leb, <- !Is_true_true.
  apply (transitivity (R := String.le)).
Qed.

Lemma wiMap_keyed_by_info_key (ws : Workloads) (namespaces : list string)
    (iMap : gmap string (list InterceptInfo)) (gMap : gmap string (list IngestInfo))
    (sMap : gmap string string) (filter : Z) (key : string) (wi : WorkloadInfo) :
  getInfosForWorkloads_wiMap F wo ws namespaces iMap gMap sMap filter !! key = Some wi ->
  key = info_key wi.
Proof.
  intros Hl. apply wiMap_lookup_sound in Hl as (ns & k & info & _ & _ & -> & ->).
  reflexivity.
Qed.


(** C7: the exported list holds one entry for each key
    "kind:name.namespace" under which an entry was stored, so no two of
    its entries agree in kind, name and namespace, and it is sorted: the
    names do not decrease from the first entry to the last. *)
Theorem getInfosForWorkloads_unique_sorted (ws : Workloads) (namespaces : list string)
    (iMap : gmap string (list InterceptInfo)) (gMap : gmap string (list IngestInfo))
    (sMap : gmap string string) (filter : Z) :
  let wiMap := getInfosForWorkloads_wiMap F wo ws namespaces iMap gMap sMap filter in
  let out := getInfosForWorkloads_locked F wo io ws namespaces iMap gMap sMap filter in
  (forall key wi, wiMap !! key = Some wi ->
     key = wi_WorkloadResourceType wi +:+ ":" +:+ wi_Name wi +:+ "." +:+ wi_Namespace wi)
  /\ out ≡ₚ snd <$> map_to_list wiMap
  /\ NoDup (info_key <$> out)
  /\ NoDup (info_triple <$> out)
  /\ StronglySorted (fun a b => String.leb (wi_Name a) (wi_Name b) = true) out.
Proof.
  intros wiMap out.
  assert (Hperm : out ≡ₚ snd <$> map_to_list wiMap).
  { unfold out, getInfosForWorkloads_locked, sort_Slice_by_Name.
    rewrite merge_sort_Permutation, (range_order_perm io). reflexivity. }
  assert (Hkeys : NoDup (info_key <$> out)).
  { rewrite Hperm.
    assert (info_key <$> (snd <$> map_to_list wiMap) = fst <$> map_to_list wiMap) as ->.
    { rewrite <- list_fmap_compose. apply list_fmap_ext.
      intros i [key wi] Hi. cbn.
      apply list_elem_of_lookup_2, elem_of_map_to_list in Hi.
      symmetry. exact (wiMap_keyed_by_info_key _ _ _ _ _ _ _ _ Hi). }
    apply NoDup_fst_map_to_list. }
  split; [exact (wiMap_keyed_by_info_key ws namespaces iMap gMap sMap filter)|].
  split; [exact Hperm|]. split; [exact Hkeys|]. split.
  - apply (NoDup_fmap_1 (fun t => wiMap_key (fst (fst t)) (snd (fst t)) (snd t))).
    rewrite <- list_fmap_compose. exact Hkeys.
  - unfold out, getInfosForWorkloads_locked, sort_Slice_by_Name.
    generalize (StronglySorted_merge_sort not_less_before
                  (snd <$> range_order io 0
                     (getInfosForWorkloads_wiMap F wo ws namespaces iMap gMap sMap filter))).
    induction 1 as [|a l Hl IH Ha]; constructor.
    + exact IH.
    + eapply Forall_impl; [exact Ha|]. intros b. apply not_less_before_leb.
Qed.

(** C9: every exported entry is the entry of a listed workload, and its
    NotInterceptableReason is the name of that workload's state when the
    state is not Available, and the empty string when it is. *)
Theorem getInfosForWorkloads_NotInterceptableReason (ws : Workloads)
    (namespaces : list string) (iMap : gmap string (list InterceptInfo))
    (gMap : gmap string (list IngestInfo)) (sMap : gmap string string) (filter : Z) :
  Forall
    (fun wi =>
       exists ns k info,
         listed ws namespaces ns k info
         /\ wi_Namespace wi = ns /\ wi_Name wi = key_name k
         /\ wi_WorkloadResourceType wi = Kind_String (key_kind k)
         /\ wi_Uid wi = wl_uid info
         /\ (wl_state info <> StateAvailable ->
               wi_NotInterceptableReason wi = State_String (wl_state info))
         /\ (wl_state info = StateAvailable -> wi_NotInterceptableReason wi = ""))
    (getInfosForWorkloads_locked F wo io ws namespaces iMap gMap sMap filter).
Proof.
  apply Forall_forall. intros wi Hin.
  apply elem_of_getInfosForWorkloads_locked in Hin as [key Hl].
  apply wiMap_lookup_sound in Hl as (ns & k & info & Hlisted & _ & _ & ->).
  exists ns, k, info. cbn.
  repeat (split; [first [exact Hlisted | reflexivity]|]). split.
  - intros Hne. rewrite bool_decide_eq_true_2 by exact Hne. reflexivity.
  - intros Heq. rewrite bool_decide_eq_false_2; [reflexivity|].
    intros Hne. exact (Hne Heq).
Qed.

End SnapshotTheorems.

Section WorkloadInfoSnapshotTheorems.

Context {W : Type} (env : Env W).

Lemma getInfosForWorkloads_run (namespaces : list string)
    (iMap : gmap string (list InterceptInfo)) (gMap : gmap string (list IngestInfo))
    (sMap : gmap string string) (filter : Z) (st : St W) :
  fst (getInfosForWorkloads env namespaces iMap gMap sMap filter st) =
    getInfosForWorkloads_locked (filter_values env) (workloads_order env) (infos_order env)
      (fst (handle env _ (OpWorkloadsLock (workloads st)) (world st)))
      namespaces iMap gMap sMap filter.
Proof.
  unfold getInfosForWorkloads, eachWorkload. run_calls.
  destruct (handle env _ (OpWorkloadsLock (workloads st)) (world st)) as [ws w1].
  cbn [world workloads answered fst snd].
  destruct (handle env _ OpWorkloadsUnlock w1) as [[] w2]. reflexivity.
Qed.

Lemma getInfosForWorkloads_namespaces (namespaces : list string)
    (iMap : gmap string (list InterceptInfo)) (gMap : gmap string (list IngestInfo))
    (sMap : gmap string string) (filter : Z) (st : St W) :
  Forall (fun wi => wi_Namespace wi ∈ namespaces)
    (fst (getInfosForWorkloads env namespaces iMap gMap sMap filter st)).
Proof.
  rewrite getInfosForWorkloads_run. apply Forall_forall. intros wi Hin.
  apply elem_of_getInfosForWorkloads_locked in Hin as [key Hl].
  apply wiMap_lookup_sound in Hl as (ns & k & info & [Hns _] & _ & _ & ->).
  exact Hns.
Qed.

Lemma filter_on_connected_namespace_spec (F : ListRequest_Filter) (filter : Z) :
  filter_on_connected_namespace F filter = true
  <-> Z.land filter (ListRequest_INTERCEPTS F) <> 0
      \/ Z.land filter (ListRequest_INGESTS F) <> 0
      \/ Z.land filter (ListRequest_INSTALLED_AGENTS F) <> 0.
Proof.
  unfold filter_on_connected_namespace.
  rewrite bool_decide_eq_true, !Z.land_lor_distr_r.
  pose proof (Z.lor_eq_0_iff
                (Z.lor (Z.land filter (ListRequest_INTERCEPTS F))
                       (Z.land filter (ListRequest_INGESTS F)))
                (Z.land filter (ListRequest_INSTALLED_AGENTS F))) as H1.
  pose proof (Z.lor_eq_0_iff (Z.land filter (ListRequest_INTERCEPTS F))
                (Z.land filter (ListRequest_INGESTS F))) as H2.
  destruct (decide (Z.land filter (ListRequest_INTERCEPTS F) = 0));
    destruct (decide (Z.land filter (ListRequest_INGESTS F) = 0));
    destruct (decide (Z.land filter (ListRequest_INSTALLED_AGENTS F) = 0));
    tauto.
Qed.

Lemma WorkloadInfoSnapshot_steps (s : session) (namespaces : list string) (filter : Z)
    (st : St W) :
  WorkloadInfoSnapshot env s namespaces filter st =
    (let '(ics, st1) := call env OpGetCurrentIntercepts st in
     let '(nss, st2) := snapshot_namespaces env s namespaces filter st1 in
     if bool_decide (length nss = 0%nat)
     then (call env (OpLog LogDebug "No namespaces are mapped" []);; mret []) st2
     else
       let '(sMap, st3) := snapshot_sMap env s nss st2 in
       let '(_, st4) := ensureWatchers env s nss st3 in
       let '(igs, st5) := call env OpRangeIngests st4 in
       getInfosForWorkloads env nss (foldl (add_intercept nss) ∅ ics)
         (foldl add_ingest ∅ igs) sMap filter st5).
Proof.
  unfold WorkloadInfoSnapshot, mbind, M_bind.
  destruct (call env OpGetCurrentIntercepts st) as [ics st1].
  destruct (snapshot_namespaces env s namespaces filter st1) as [nss st2].
  destruct (bool_decide (length nss = 0%nat)); reflexivity.
Qed.

(** C8: when the filter has one of the bits INTERCEPTS, INGESTS or
    INSTALLED_AGENTS, [WorkloadInfoSnapshot] looks at the connected
    namespace alone: the namespaces it is given make no difference to what
    it does or returns, and every entry it returns is of the connected
    namespace.  The map of agent versions is read from the current agents
    only when the namespaces looked at are the connected namespace and no
    other; in every other case it stays empty and the agents are not
    asked for. *)
Theorem WorkloadInfoSnapshot_connected_namespace (s : session) (filter : Z) :
  let F := filter_values env in
  (Z.land filter (ListRequest_INTERCEPTS F) <> 0
   \/ Z.land filter (ListRequest_INGESTS F) <> 0
   \/ Z.land filter (ListRequest_INSTALLED_AGENTS F) <> 0 ->
   (forall namespaces st,
       snapshot_namespaces env s namespaces filter st = ([Namespace s], st))
   /\ (forall namespaces1 namespaces2 st,
         WorkloadInfoSnapshot env s namespaces1 filter st
         = WorkloadInfoSnapshot env s namespaces2 filter st)
   /\ (forall namespaces st,
         Forall (fun wi => wi_Namespace wi = Namespace s)
           (fst (WorkloadInfoSnapshot env s namespaces filter st))))
  /\ (forall nss st, nss <> [Namespace s] -> snapshot_sMap env s nss st = (∅, st))
  /\ (forall st,
        snapshot_sMap env s [Namespace s] st
        = (foldl add_agent ∅ (fst (handle env _ OpGetCurrentAgents (world st))),
           snd (call env OpGetCurrentAgents st))).
Proof.
  intros F. split; [|split].
  - intros Hbits. apply filter_on_connected_namespace_spec in Hbits.
    assert (Hnss : forall namespaces st,
               snapshot_namespaces env s namespaces filter st = ([Namespace s], st)).
    { intros namespaces st. unfold snapshot_namespaces. fold F. rewrite Hbits.
      reflexivity. }
    split; [exact Hnss|]. split.
    + intros namespaces1 namespaces2 st. rewrite !WorkloadInfoSnapshot_steps.
      destruct (call env OpGetCurrentIntercepts st) as [ics st1].
      rewrite !Hnss. reflexivity.
    + intros namespaces st. rewrite WorkloadInfoSnapshot_steps.
      destruct (call env OpGetCurrentIntercepts st) as [ics st1].
      rewrite Hnss.
      rewrite bool_decide_eq_false_2 by discriminate.
      destruct (snapshot_sMap env s [Namespace s] st1) as [sMap st2].
      destruct (ensureWatchers env s [Namespace s] st2) as [[] st3].
      destruct (call env OpRangeIngests st3) as [igs st4].
      eapply Forall_impl; [apply getInfosForWorkloads_namespaces|].
      intros wi Hin. cbn beta in Hin. apply list_elem_of_singleton in Hin. exact Hin.
  - intros nss st Hne. unfold snapshot_sMap.
    destruct nss as [|ns [|ns' nss]]; cbn [length lookup list_lookup];
      try (rewrite bool_decide_eq_false_2 by discriminate; reflexivity).
    rewrite (bool_decide_eq_false_2 (Some ns = Some (Namespace s)));
      [rewrite andb_false_r; reflexivity|].
    intros Hns. apply Hne. congruence.
  - intros st. unfold snapshot_sMap. cbn [length lookup list_lookup].
    rewrite !bool_decide_eq_true_2 by reflexivity. cbn [andb].
    run_calls. destruct (handle env _ OpGetCurrentAgents (world st)) as [cas w1].
    reflexivity.
Qed.

End WorkloadInfoSnapshotTheorems.

(** ** The scenarios of the specification, run on the model *)

Example filter_bits_INTERCEPTS_own_flag : INTERCEPTS_own_flag filter_bits.
Proof. repeat split. discriminate. Qed.

(** Happy connect: the snapshot of namespace default holds the one entry
    of web. *)
Example snapshot_of_web :
  getInfosForWorkloads_locked filter_bits range_in_key_order range_in_key_order
    workloads_web ["default"] ∅ ∅ ∅ (ListRequest_EVERYTHING filter_bits)
  = [{| wi_Name := "web"; wi_Namespace := "default";
        wi_WorkloadResourceType := "DEPLOYMENT"; wi_Uid := "u1";
        wi_NotInterceptableReason := ""; wi_InterceptInfos := [];
        wi_IngestInfos := []; wi_AgentVersion := "" |}].
Proof. vm_compute. reflexivity. Qed.

(** A namespace listed twice is exported once, and the entries come out
    by name; api, which is not available, shows its state. *)
Example snapshot_of_web_and_api :
  map (fun wi => (wi_Name wi, wi_NotInterceptableReason wi))
    (getInfosForWorkloads_locked filter_bits range_in_key_order range_in_key_order
       workloads_web_api ["default"; "default"] ∅ ∅ ∅ 0)
  = [("api", "Progressing"); ("web", "")].
Proof. vm_compute. reflexivity. Qed.

(** With the filter INTERCEPTS only the intercepted workload is left. *)
Example snapshot_of_intercepted :
  map wi_Name
    (getInfosForWorkloads_locked filter_bits range_in_key_order range_in_key_order
       workloads_web_api ["default"]
       (foldl (add_intercept ["default"]) ∅ [intercept_of "web"]) ∅ ∅
       (ListRequest_INTERCEPTS filter_bits))
  = ["web"].
Proof. vm_compute. reflexivity. Qed.

(** Root session mismatch: one disconnect between two connects, and the
    loop is left with the ids in agreement. *)
Example root_session_mismatch :
  let run := connectRootDaemon_for world_root_stale_session 2 1 CallerContext
               (60 * Second) network0 (start 0%nat) in
  fst run = Some None
  /\ count_calls is_RootConnect (calls (snd run)) = 2%nat
  /\ count_calls is_RootDisconnect (calls (snd run)) = 1%nat.
Proof. vm_compute. repeat split. Qed.

(** Session expiry: remain answers NotFound on the second tick; the loop
    returns [ErrSessionExpired], and depart and the deletion of the cached
    session are among the calls that follow. *)
Example session_expiry :
  let run := remainLoop world_expires_on_second_tick 2 session0 CallerContext
               (start 0%nat) in
  let shutdown := WithTimeout (WithoutCancel CallerContext) (3 * Second) in
  fst run = Some (Some ErrSessionExpired)
  /\ In (Called (OpDepart shutdown (sessionInfo session0)) None) (calls (snd run))
  /\ In (Called (OpDeleteSessionInfoFromUserCache shutdown (daemonID session0)) None)
        (calls (snd run)).
Proof. vm_compute. split; [reflexivity|]. split; find_call. Qed.

(** Watcher fallback: a manager of version 2.20 gets the local watcher,
    and a delete event takes web out of the workloads. *)
Example watcher_fallback :
  In (Called (OpGo Go_localWorkloadsWatcher "default") tt)
    (calls (snd (ensureWatchers world_quiet session_2_20 ["default"] (start 0%nat))))
  /\ workloads
       (snd (localWorkloadsWatcher_for world_web_deleted 2 CallerContext "default" true
               {| world := 0%nat; workloads := workloads_web; calls := [] |}))
     !! "default" = Some ∅.
Proof. split; [vm_compute; find_call | vm_compute; reflexivity]. Qed.

(** * Further properties of the session core *)

Lemma count_calls_app (p : Call -> bool) (l k : list Call) :
  count_calls p (l ++ k) = (count_calls p l + count_calls p k)%nat.
Proof.
  induction l as [|c l IH]; cbn [app count_calls]; [reflexivity|].
  destruct (p c); rewrite IH; reflexivity.
Qed.

Section RemainLoopProperties.

Context {W : Type} (env : Env W).

Lemma Remain_calls (s : session) (c : Context) (st : St W) :
  (forall e, fst (Remain env s c st) = Some e -> e = ErrSessionExpired)
  /\ exists new : list Call,
       calls (snd (Remain env s c st)) = calls st ++ new
       /\ count_calls is_Remain new = 1%nat
       /\ count_calls is_Depart new = 0%nat
       /\ count_calls is_DeleteSessionInfo new = 0%nat
       /\ count_calls is_ManagerConnClose new = 0%nat.
Proof.
  unfold Remain. run_calls.
  destruct (handle env _ _ (world st)) as [[e|] w1]; cbn [world workloads answered fst snd].
  - destruct (bool_decide (status_Code e = codes.NotFound)
              || bool_decide (status_Code e = codes.Unavailable)).
    + split; [intros e' [= <-]; reflexivity|].
      eexists. split; [same_calls|]. repeat split.
    + run_calls. repeat answer. split; [intros e' [=]|].
      eexists. split; [same_calls|]. repeat split.
  - split; [intros e' [=]|]. eexists. split; [same_calls|]. repeat split.
Qed.

Lemma remainLoop_for_calls (fuel : nat) (s : session) (c : Context) (st : St W) :
  (forall e, fst (remainLoop_for env fuel s c st) = Some (Some e) -> e = ErrSessionExpired)
  /\ exists new : list Call,
       calls (snd (remainLoop_for env fuel s c st)) = calls st ++ new
       /\ (count_calls is_Remain new <= fuel)%nat
       /\ count_calls is_Depart new = 0%nat
       /\ count_calls is_DeleteSessionInfo new = 0%nat
       /\ count_calls is_ManagerConnClose new = 0%nat.
Proof.
  revert st. induction fuel as [|fuel IH]; intros st.
  - split; [intros e [=]|]. exists []. cbn. rewrite app_nil_r. repeat split; lia.
  - destruct (handle env _ (OpSelectRemain c) (world st)) as [[|] w0] eqn:Hsel.
    + rewrite (remainLoop_for_done env fuel s c st w0 Hsel). cbn [fst snd].
      split; [intros e [=]|].
      eexists. split; [reflexivity|]. cbn. repeat split; lia.
    + rewrite (remainLoop_for_tick env fuel s c st w0 Hsel).
      destruct (Remain_calls s c (answered (OpSelectRemain c) RemainTick w0 st))
        as (Herr & new1 & Hc1 & Hr1 & Hd1 & Hx1 & Hm1).
      destruct (Remain env s c (answered (OpSelectRemain c) RemainTick w0 st))
        as [[e|] st1]; cbn [fst snd] in *.
      * split; [intros e' [= <-]; apply Herr; reflexivity|].
        eexists. split; [rewrite Hc1; same_calls|].
        cbn [app count_calls is_Remain is_Depart is_DeleteSessionInfo is_ManagerConnClose].
        repeat split; try assumption. lia.
      * destruct (IH st1) as (Herr2 & new2 & Hc2 & Hr2 & Hd2 & Hx2 & Hm2).
        split; [exact Herr2|].
        exists ([Called (OpSelectRemain c) RemainTick] ++ new1 ++ new2).
        split; [rewrite Hc2, Hc1; same_calls|].
        rewrite !count_calls_app, Hr1, Hd1, Hx1, Hm1, Hd2, Hx2, Hm2.
        cbn. repeat split; lia.
Qed.

Lemma remainLoop_result (fuel : nat) (s : session) (c : Context) (st : St W) :
  fst (remainLoop env fuel s c st)
  = fst (remainLoop_for env fuel s c (snd (call env (OpNewTicker (5 * Second)) st))).
Proof.
  unfold remainLoop, mbind, M_bind.
  destruct (call env (OpNewTicker (5 * Second)) st) as [[] st0]. cbn [snd].
  destruct (remainLoop_for env fuel s c st0) as [[ret|] st1]; [|reflexivity].
  destruct (remainLoop_deferred env s c st1) as [[] st2]. reflexivity.
Qed.

(** X1: the only error [remainLoop] ever returns is [ErrSessionExpired]:
    every other failure of the remain call is swallowed by [Remain]. *)
Theorem remainLoop_error_is_ErrSessionExpired (fuel : nat) (s : session) (c : Context)
    (st : St W) (e : error) :
  fst (remainLoop env fuel s c st) = Some (Some e) -> e = ErrSessionExpired.
Proof.
  rewrite remainLoop_result. apply remainLoop_for_calls.
Qed.


End RemainLoopProperties.

Lemma remainLoop_error_is_ErrSessionExpired_witness :
  ErrSessionExpired = ErrSessionExpired.
Proof.
  exact (remainLoop_error_is_ErrSessionExpired world_expired 1 session0 CallerContext
           (start 0%nat) ErrSessionExpired eq_refl).
Defined.

Section ConnectMgrProperties.

Context {W : Type} (env : Env W).

Lemma count_calls_Forall (p q : Call -> bool) (l : list Call) :
  (forall c, q c = false -> p c = false) ->
  Forall (fun c => q c = false) l -> count_calls p l = 0%nat.
Proof.
  intros Hpq. induction 1 as [|c l Hc _ IH]; cbn [count_calls]; [reflexivity|].
  rewrite (Hpq c Hc). exact IH.
Qed.

(** X3: when the lookup of the traffic-manager service fails,
    [connectMgr] returns a user error and does nothing more: it has asked
    for the manager namespace, logged, and looked the service up, and it
    neither connects to the manager nor touches the session cache.  For a
    status error with code 404 the message is the advice to install the
    traffic manager; for every other error it names the namespace and
    shows the error. *)
Theorem connectMgr_without_traffic_manager_service (ctx0 : Context) (cluster : Cluster)
    (installID : string) (cr : ConnectRequest) (st : St W) (err : K8sError) :
  let ctx := TimeoutContext env ctx0 TimeoutTrafficManagerConnect in
  let checking := OpLog LogDebug "checking that traffic-manager exists" [] in
  let mgrNs := handle env _ (OpGetManagerNamespace ctx) (world st) in
  let getSvc := OpGetService ctx (fst mgrNs) "traffic-manager" in
  let run := connectMgr env ctx0 cluster installID cr st in
  fst (handle env _ getSvc (snd (handle env _ checking (snd mgrNs)))) = Some err ->
  fst run =
    inl (UserError
           match err with
           | K8sStatusError 404 _ => traffic_manager_not_found
           | _ => "unable to get service traffic-manager in " +:+ fst mgrNs +:+ ": "
                  +:+ K8sError_text err
           end)
  /\ calls (snd run) =
       calls st ++ [Called (OpGetManagerNamespace ctx) (fst mgrNs); Called checking tt;
                    Called getSvc (Some err)].
Proof.
  intros ctx checking. cbv zeta.
  unfold connectMgr, connectMgr_bind, CheckTrafficManagerService. fold ctx checking.
  run_calls.
  destruct (handle env _ (OpGetManagerNamespace ctx) (world st)) as [mgrNs w1].
  cbn [world workloads answered fst snd].
  destruct (handle env _ checking w1) as [[] w2]. cbn [world workloads answered fst snd].
  destruct (handle env _ (OpGetService ctx mgrNs "traffic-manager") w2) as [r w3].
  cbn [world workloads answered fst snd]. intros ->.
  split; [|same_calls].
  destruct err as [code text|text]; [|reflexivity].
  destruct (code =? 404) eqn:Hcode.
  - apply Z.eqb_eq in Hcode as ->. reflexivity.
  - cbn [fst]. f_equal. f_equal.
    destruct code as [|p|p]; try reflexivity.
    repeat (destruct p as [p|p|]; try reflexivity); discriminate Hcode.
Qed.

End ConnectMgrProperties.

Lemma connectMgr_without_traffic_manager_service_witness :
  fst (connectMgr world_no_traffic_manager CallerContext cluster0 "install-1" request0
         (start 0%nat))
  = inl (UserError traffic_manager_not_found).
Proof.
  exact (proj1 (connectMgr_without_traffic_manager_service world_no_traffic_manager
                  CallerContext cluster0 "install-1" request0 (start 0%nat)
                  (K8sStatusError 404 "services traffic-manager not found") eq_refl)).
Defined.

Section ConnectMgrIdentity.

Context {W : Type} (env : Env W).

Lemma append_at_nonempty (username host : string) : username +:+ "@" +:+ host <> "".
Proof. destruct username; discriminate. Qed.

(** What [connectMgr] does before it turns to the session cache has
    nothing to do with the cache or the session. *)
Lemma connectMgr_bind_calls (ctx : Context) (cluster : Cluster) (cr : ConnectRequest)
    (st : St W) :
  (forall l, fst (connectMgr_bind env ctx cluster cr st) = inr l ->
     l_clientID l <> ""
     /\ (cr_ClientId cr <> "" -> l_clientID l = cr_ClientId cr)
     /\ semver_Parse env (TrimPrefix_v (vi_Version (l_vi l))) = inr (l_managerVersion l))
  /\ exists new : list Call,
       calls (snd (connectMgr_bind env ctx cluster cr st)) = calls st ++ new
       /\ Forall (fun c => is_identity_call c = false) new.
Proof.
  unfold connectMgr_bind, CheckTrafficManagerService. run_calls.
  destruct (handle env _ (OpGetManagerNamespace ctx) (world st)) as [mgrNs w1].
  cbn [world workloads answered fst snd].
  destruct (handle env _ _ w1) as [[] w2]. cbn [world workloads answered fst snd].
  destruct (handle env _ _ w2) as [[err|] w3]; cbn [world workloads answered fst snd].
  { split; [intros l [=]|]. eexists. split; [same_calls|]. repeat constructor. }
  destruct (handle env _ _ w3) as [[e|vi] w4]; cbn [world workloads answered fst snd].
  { split; [intros l [=]|]. eexists. split; [same_calls|]. repeat constructor. }
  destruct (semver_Parse env (TrimPrefix_v (vi_Version vi))) as [e|managerVersion] eqn:Hver.
  { split; [intros l [=]|]. eexists. split; [same_calls|]. repeat constructor. }
  case_bool_decide as Hid; run_calls.
  - destruct (handle env _ OpUserCurrent w4) as [[e|username] w5];
      cbn [world workloads answered fst snd].
    { split; [intros l [=]|]. eexists. split; [same_calls|]. repeat constructor. }
    destruct (handle env _ OpHostname w5) as [[e|host] w6];
      cbn [world workloads answered fst snd].
    { split; [intros l [=]|]. eexists. split; [same_calls|]. repeat constructor. }
    destruct (handle env _ OpRunningInContainer w6) as [inContainer w7];
      cbn [world workloads answered fst snd].
    destruct (handle env _ _ w7) as [[e|daemonID] w8];
      cbn [world workloads answered fst snd].
    { split; [intros l [=]|]. eexists. split; [same_calls|]. repeat constructor. }
    split; [|eexists; split; [same_calls|]; repeat constructor].
    intros l [= <-]. cbn. split; [apply append_at_nonempty|].
    split; [intros Hne; contradiction | exact Hver].
  - destruct (handle env _ OpRunningInContainer w4) as [inContainer w5];
      cbn [world workloads answered fst snd].
    destruct (handle env _ _ w5) as [[e|daemonID] w6];
      cbn [world workloads answered fst snd].
    { split; [intros l [=]|]. eexists. split; [same_calls|]. repeat constructor. }
    split; [|eexists; split; [same_calls|]; repeat constructor].
    intros l [= <-]. cbn. split; [exact Hid|]. split; [reflexivity | exact Hver].
Qed.

(** The session-identity block of [connectMgr], path by path. *)
Lemma connectMgr_sessionInfo_calls (ctx : Context) (cluster : Cluster)
    (installID clientID : string) (daemonID : Identifier) (st : St W) :
  exists new : list Call,
    calls (snd (connectMgr_sessionInfo env ctx cluster installID clientID daemonID st))
      = calls st ++ new
    /\ count_calls is_LoadSessionInfo new = 1%nat
    /\ (count_calls is_Remain new <= 1)%nat
    /\ (count_calls is_ArriveAsClient new <= 1)%nat
    /\ (count_calls is_SaveSessionInfo new <= 1)%nat
    /\ (forall c tok, In c new -> saved_by c = Some tok ->
          exists c', In c' new /\ arrived_by c' = Some tok)
    /\ (count_calls is_SaveSessionInfo new = 1%nat ->
        count_calls is_ArriveAsClient new = 1%nat)
    /\ (forall tok,
          fst (connectMgr_sessionInfo env ctx cluster installID clientID daemonID st)
            = inr tok ->
          (loaded_token new tok /\ probe_succeeded new tok
           /\ count_calls is_ArriveAsClient new = 0%nat
           /\ count_calls is_SaveSessionInfo new = 0%nat)
          \/ (arrived_as new tok /\ saved_token new tok)).
Proof.
  unfold connectMgr_sessionInfo. run_calls.
  destruct (handle env _ (OpLoadSessionInfoFromUserCache ctx daemonID) (world st))
    as [[e|[cached|]] w1]; cbn [world workloads answered fst snd].
  - eexists. split; [same_calls|]. cbn.
    repeat split; try lia; try (intros; discriminate).
    intros c tok [<- | []] [=].
  - destruct (handle env _ (OpRemain ctx cached) w1) as [[e|] w2];
      cbn [world workloads answered fst snd].
    + repeat answer.
      match goal with
      | |- context [answered (OpArriveAsClient _ _) ?r _ _] => destruct r as [err|fresh]
      end.
      * destruct (status_FromError err) as [[[] msg]|]; run_calls; repeat answer;
          (eexists; split; [same_calls|]); cbn;
          (repeat split; try lia; try (intros; discriminate));
          intros c tok Hin Hs;
          repeat (destruct Hin as [<- | Hin]; [discriminate Hs|]); destruct Hin.
      * run_calls.
        destruct (handle env _ (OpSaveSessionInfoToUserCache ctx daemonID fresh) _)
          as [[e'|] w5]; cbn [world workloads answered fst snd];
          (eexists; split; [same_calls|]); cbn;
          (repeat split; try lia; try (intros; discriminate)).
        -- intros c tok Hin Hs.
           repeat (destruct Hin as [<- | Hin]; [try discriminate Hs|]); [|destruct Hin].
           injection Hs as <-. eexists. split; [do 3 right; left; reflexivity | reflexivity].
        -- intros c tok Hin Hs.
           repeat (destruct Hin as [<- | Hin]; [try discriminate Hs|]); [|destruct Hin].
           injection Hs as <-. eexists. split; [do 3 right; left; reflexivity | reflexivity].
        -- intros tok [= <-]. right. split.
           ++ eexists _, _. do 3 right. left. reflexivity.
           ++ eexists _, _, _. do 4 right. left. reflexivity.
    + destruct (handle env _ (OpCtxErr ctx) w2) as [[e|] w3];
        cbn [world workloads answered fst snd].
      * eexists. split; [same_calls|]. cbn.
        repeat split; try lia; try (intros; discriminate).
        intros c tok Hin Hs.
        repeat (destruct Hin as [<- | Hin]; [discriminate Hs|]); destruct Hin.
      * repeat answer. eexists. split; [same_calls|]. cbn.
        repeat split; try lia; try (intros; discriminate).
        -- intros c tok Hin Hs.
           repeat (destruct Hin as [<- | Hin]; [discriminate Hs|]); destruct Hin.
        -- intros tok [= <-]. left. split; [|split; [|split; reflexivity]].
           ++ eexists _, _. left. reflexivity.
           ++ eexists. right. left. reflexivity.
  - repeat answer.
    match goal with
    | |- context [answered (OpArriveAsClient _ _) ?r _ _] => destruct r as [err|fresh]
    end.
    + destruct (status_FromError err) as [[[] msg]|]; run_calls; repeat answer;
        (eexists; split; [same_calls|]); cbn;
        (repeat split; try lia; try (intros; discriminate));
        intros c tok Hin Hs;
        repeat (destruct Hin as [<- | Hin]; [discriminate Hs|]); destruct Hin.
    + run_calls.
      destruct (handle env _ (OpSaveSessionInfoToUserCache ctx daemonID fresh) _)
        as [[e'|] w5]; cbn [world workloads answered fst snd];
        (eexists; split; [same_calls|]); cbn;
        (repeat split; try lia; try (intros; discriminate)).
      * intros c tok Hin Hs.
        repeat (destruct Hin as [<- | Hin]; [try discriminate Hs|]); [|destruct Hin].
        injection Hs as <-. eexists. split; [do 2 right; left; reflexivity | reflexivity].
      * intros c tok Hin Hs.
        repeat (destruct Hin as [<- | Hin]; [try discriminate Hs|]); [|destruct Hin].
        injection Hs as <-. eexists. split; [do 2 right; left; reflexivity | reflexivity].
      * intros tok [= <-]. right. split.
        -- eexists _, _. do 2 right. left. reflexivity.
        -- eexists _, _, _. do 3 right. left. reflexivity.
Qed.

Lemma count_identity_free (p : Call -> bool) (l : list Call) :
  (forall c, is_identity_call c = false -> p c = false) ->
  Forall (fun c => is_identity_call c = false) l -> count_calls p l = 0%nat.
Proof.
  intros Hpq. induction 1 as [|c l Hc _ IH]; cbn [count_calls]; [reflexivity|].
  rewrite (Hpq c Hc). exact IH.
Qed.

Lemma identity_free_parts (c : Call) :
  is_identity_call c = false ->
  is_LoadSessionInfo c = false /\ is_Remain c = false
  /\ is_ArriveAsClient c = false /\ is_SaveSessionInfo c = false.
Proof.
  unfold is_identity_call. intros H.
  repeat (apply orb_false_elim in H as [H ?]). repeat split; assumption.
Qed.

Lemma identity_free_saved_by (c : Call) (tok : SessionInfo) :
  is_identity_call c = false -> saved_by c <> Some tok.
Proof.
  intros H%identity_free_parts. destruct H as (_ & _ & _ & H).
  destruct c as [X op x]. destruct op; cbn in *; congruence.
Qed.

(** X4: where the token of a session comes from.  In every run of
    [connectMgr] the session cache is read at most once, the cached token
    is probed at most once, the client arrives at most once and the cache
    is written at most once; a token is only written to the cache when it
    came from an arrival of this run.  When [connectMgr] returns a session,
    its token is either the cached one, probed with success, and then
    nothing arrived and nothing was saved, or it is the token of the
    arrival, and that token was saved. *)
Theorem connectMgr_token_origin (ctx0 : Context) (cluster : Cluster) (installID : string)
    (cr : ConnectRequest) (st : St W) :
  let run := connectMgr env ctx0 cluster installID cr st in
  exists new : list Call,
    calls (snd run) = calls st ++ new
    /\ (count_calls is_LoadSessionInfo new <= 1)%nat
    /\ (count_calls is_Remain new <= 1)%nat
    /\ (count_calls is_ArriveAsClient new <= 1)%nat
    /\ (count_calls is_SaveSessionInfo new <= 1)%nat
    /\ (forall c tok, In c new -> saved_by c = Some tok ->
          exists c', In c' new /\ arrived_by c' = Some tok)
    /\ (forall s, fst run = inr s ->
          (loaded_token new (sessionInfo s) /\ probe_succeeded new (sessionInfo s)
           /\ count_calls is_ArriveAsClient new = 0%nat
           /\ count_calls is_SaveSessionInfo new = 0%nat)
          \/ (arrived_as new (sessionInfo s) /\ saved_token new (sessionInfo s)
              /\ count_calls is_ArriveAsClient new = 1%nat
              /\ count_calls is_SaveSessionInfo new = 1%nat)).
Proof.
  cbv zeta. unfold connectMgr.
  set (ctx := TimeoutContext env ctx0 TimeoutTrafficManagerConnect).
  destruct (connectMgr_bind_calls ctx cluster cr st) as (_ & nb & Hnb & Hfree).
  unfold mbind, M_bind, mret, M_ret.
  destruct (connectMgr_bind env ctx cluster cr st) as [[e|l] st1]; cbn [fst snd] in *.
  - exists nb. split; [exact Hnb|].
    rewrite !(count_identity_free _ nb) by
      (try exact Hfree; intros c Hc; apply identity_free_parts in Hc; tauto).
    repeat split; try lia.
    + intros c tok Hin Hs. exfalso.
      exact (identity_free_saved_by c tok (proj1 (List.Forall_forall _ _) Hfree c Hin) Hs).
    + intros s [=].
  - destruct (connectMgr_sessionInfo_calls ctx cluster installID (l_clientID l)
                (l_daemonID l) st1)
      as (ns & Hns & Hload & Hrem & Harr & Hsave & Hsaved & Hboth & Hres).
    destruct (connectMgr_sessionInfo env ctx cluster installID (l_clientID l)
                (l_daemonID l) st1) as [[e|si] st2]; cbn [fst snd] in *.
    + exists (nb ++ ns). split; [rewrite Hns, Hnb, app_assoc; reflexivity|].
      rewrite !count_calls_app.
      rewrite !(count_identity_free _ nb) by
        (try exact Hfree; intros c Hc; apply identity_free_parts in Hc; tauto).
      repeat split; try lia.
      * intros c tok [Hin|Hin]%in_app_or Hs.
        -- exfalso. exact (identity_free_saved_by c tok (proj1 (List.Forall_forall _ _) Hfree c Hin) Hs).
        -- destruct (Hsaved c tok Hin Hs) as (c' & Hin' & Ha).
           exists c'. split; [apply in_or_app; right; exact Hin' | exact Ha].
      * intros s [=].
    + run_calls. destruct (handle env _ _ (world st2)) as [[] w3].
      cbn [world workloads answered fst snd calls].
      eexists (nb ++ ns ++ [_]).
      split; [rewrite Hns, Hnb, <- !app_assoc; reflexivity|].
      rewrite !count_calls_app.
      rewrite !(count_identity_free _ nb) by
        (try exact Hfree; intros c Hc; apply identity_free_parts in Hc; tauto).
      cbn [count_calls is_LoadSessionInfo is_Remain is_ArriveAsClient is_SaveSessionInfo].
      repeat split; try lia.
      * intros c tok [Hin|[Hin|Hin]%in_app_or]%in_app_or Hs.
        -- exfalso. exact (identity_free_saved_by c tok (proj1 (List.Forall_forall _ _) Hfree c Hin) Hs).
        -- destruct (Hsaved c tok Hin Hs) as (c' & Hin' & Ha).
           exists c'. split; [|exact Ha].
           apply in_or_app; right. apply in_or_app; left. exact Hin'.
        -- destruct Hin as [<- | []]. discriminate Hs.
      * intros s [= <-]. cbn [sessionInfo].
        assert (Hmono : forall c, In c ns -> In c (nb ++ ns ++ [Called (OpSetManagerClient
                   (if 0 <? grpc_MaxReceiveSize env then [grpc_MaxReceiveSize env] else []))
                   tt])).
        { intros c Hin. apply in_or_app; right. apply in_or_app; left. exact Hin. }
        destruct (Hres si eq_refl) as [(Hl & Hp & Ha0 & Hs0) | (Ha & Hs)].
        -- left. split; [|split; [|split; lia]].
           ++ destruct Hl as (c & id & Hin). exists c, id. apply Hmono, Hin.
           ++ destruct Hp as (c & Hin). exists c. apply Hmono, Hin.
        -- right.
           assert (Hs1 : count_calls is_SaveSessionInfo ns = 1%nat).
           { destruct Hs as (c & id & r & Hin).
             clear - Hin Hsave. induction ns as [|c0 ns IH]; [destruct Hin|].
             cbn [count_calls] in *. destruct Hin as [-> | Hin].
             - cbn in *. destruct (count_calls is_SaveSessionInfo ns); lia.
             - destruct (is_SaveSessionInfo c0).
               + assert (count_calls is_SaveSessionInfo ns <= 0)%nat by lia.
                 specialize (IH ltac:(lia) Hin). lia.
               + apply IH; assumption. }
           split; [|split; [|split; [specialize (Hboth Hs1)|]; lia]].
           ++ destruct Ha as (c & ci & Hin). exists c, ci. apply Hmono, Hin.
           ++ destruct Hs as (c & id & r & Hin). exists c, id, r. apply Hmono, Hin.
Qed.

Lemma connectMgr_bind_connected (ctx : Context) (cluster : Cluster) (cr : ConnectRequest)
    (st : St W) (l : connectMgr_locals) :
  fst (connectMgr_bind env ctx cluster cr st) = inr l ->
  exists ns, In (Called (OpConnectToManager ctx ns) (inr (l_vi l)))
               (calls (snd (connectMgr_bind env ctx cluster cr st))).
Proof.
  unfold connectMgr_bind, CheckTrafficManagerService. run_calls.
  destruct (handle env _ (OpGetManagerNamespace ctx) (world st)) as [mgrNs w1].
  cbn [world workloads answered fst snd].
  destruct (handle env _ _ w1) as [[] w2]. cbn [world workloads answered fst snd].
  destruct (handle env _ _ w2) as [[err|] w3]; cbn [world workloads answered fst snd];
    [intros [=]|].
  destruct (handle env _ _ w3) as [[e|vi] w4]; cbn [world workloads answered fst snd];
    [intros [=]|].
  destruct (semver_Parse env (TrimPrefix_v (vi_Version vi))) as [e|managerVersion];
    [intros [=]|].
  case_bool_decide as Hid; run_calls.
  - destruct (handle env _ OpUserCurrent w4) as [[e|username] w5];
      cbn [world workloads answered fst snd]; [intros [=]|].
    destruct (handle env _ OpHostname w5) as [[e|host] w6];
      cbn [world workloads answered fst snd]; [intros [=]|].
    destruct (handle env _ OpRunningInContainer w6) as [inContainer w7];
      cbn [world workloads answered fst snd].
    destruct (handle env _ _ w7) as [[e|daemonID] w8];
      cbn [world workloads answered fst snd]; [intros [=]|].
    intros [= <-]. exists mgrNs. cbn [l_vi calls answered].
    rewrite !in_app_iff. cbn. tauto.
  - destruct (handle env _ OpRunningInContainer w4) as [inContainer w5];
      cbn [world workloads answered fst snd].
    destruct (handle env _ _ w5) as [[e|daemonID] w6];
      cbn [world workloads answered fst snd]; [intros [=]|].
    intros [= <-]. exists mgrNs. cbn [l_vi calls answered].
    rewrite !in_app_iff. cbn. tauto.
Qed.

(** X5: what a session returned by [connectMgr] carries.  Its namespace
    is the cluster's, its install id the one given, its pod-daemon flag and
    its subnet-via-workloads those of the request; its client id is never
    empty, and is the one of the request when that one is not empty; its
    manager name is never empty either, and is that of the manager the run
    connected to unless that one is empty; its manager version is the
    parsed version of that manager; and the last thing the run did was to
    hand the manager client over. *)
Theorem connectMgr_session_fields (ctx0 : Context) (cluster : Cluster) (install : string)
    (cr : ConnectRequest) (st : St W) (s : session) :
  let run := connectMgr env ctx0 cluster install cr st in
  fst run = inr s ->
  Namespace s = cl_Namespace cluster
  /\ installID s = install
  /\ isPodDaemon s = cr_IsPodDaemon cr
  /\ subnetViaWorkloads s = cr_SubnetViaWorkloads cr
  /\ clientID s <> ""
  /\ (cr_ClientId cr <> "" -> clientID s = cr_ClientId cr)
  /\ managerName s <> ""
  /\ (exists c ns vi,
        In (Called (OpConnectToManager c ns) (inr vi)) (calls (snd run))
        /\ semver_Parse env (TrimPrefix_v (vi_Version vi)) = inr (managerVersion s)
        /\ managerName s = (if bool_decide (vi_Name vi = "") then "Traffic Manager"
                            else vi_Name vi))
  /\ exists opts, last (calls (snd run)) = Some (Called (OpSetManagerClient opts) tt).
Proof.
  cbv zeta. unfold connectMgr.
  set (ctx := TimeoutContext env ctx0 TimeoutTrafficManagerConnect).
  destruct (connectMgr_bind_calls ctx cluster cr st) as (Hl & _).
  pose proof (connectMgr_bind_connected ctx cluster cr st) as Hconn.
  unfold mbind, M_bind, mret, M_ret.
  destruct (connectMgr_bind env ctx cluster cr st) as [[e|l] st1]; cbn [fst snd] in *;
    [intros [=]|].
  destruct (Hl l eq_refl) as (Hne & Hreq & Hver).
  destruct (Hconn l eq_refl) as (ns & Hin).
  destruct (connectMgr_sessionInfo_calls ctx cluster install (l_clientID l)
              (l_daemonID l) st1) as (nsi & Hnsi & _).
  destruct (connectMgr_sessionInfo env ctx cluster install (l_clientID l)
              (l_daemonID l) st1) as [[e|si] st2]; cbn [fst snd] in *; [intros [=]|].
  run_calls. destruct (handle env _ _ (world st2)) as [[] w3].
  cbn [world workloads answered fst snd calls].
  intros [= <-]. cbn.
  repeat split; try assumption.
  - case_bool_decide as Hname; [discriminate | exact Hname].
  - exists ctx, ns, (l_vi l). split; [|split; [exact Hver | reflexivity]].
    rewrite Hnsi. apply in_or_app; left. apply in_or_app; left. exact Hin.
  - eexists. apply last_snoc.
Qed.

End ConnectMgrIdentity.

Lemma count_calls_none (p : Call -> bool) (l : list Call) :
  Forall (fun c => p c = false) l -> count_calls p l = 0%nat.
Proof.
  induction 1 as [|c l Hc _ IH]; cbn [count_calls]; [reflexivity|].
  rewrite Hc. exact IH.
Qed.

Section RootDaemonProperties.

Context {W : Type} (env : Env W).

Lemma connectRootDaemon_for_calls (fuel : nat) (attempt : Z) (ctx : Context)
    (tmTimeout : Duration) (nc : NetworkConfig) (st : St W) :
  exists new : list Call,
    calls (snd (connectRootDaemon_for env fuel attempt ctx tmTimeout nc st)) = calls st ++ new
    /\ Forall (fun c => is_root_loop_call c = true) new.
Proof.
  revert attempt st. induction fuel as [|fuel IH]; intros attempt st.
  - exists []. cbn. rewrite app_nil_r. split; [reflexivity | constructor].
  - cbn [connectRootDaemon_for]. run_calls.
    destruct (handle env _ _ (world st)) as [[err|rootStatus] w1];
      cbn [world workloads answered fst snd].
    { eexists. split; [same_calls|]. repeat constructor. }
    destruct (OutboundConfig_Session rootStatus) as [ocSession|].
    2:{ eexists. split; [same_calls|]. repeat constructor. }
    case_bool_decide.
    { eexists. split; [same_calls|]. repeat constructor. }
    destruct (attempt =? 2).
    { eexists. split; [same_calls|]. repeat constructor. }
    run_calls.
    destruct (handle env _ (OpRootDisconnect ctx) w1) as [[e|] w2];
      cbn [world workloads answered fst snd].
    { eexists. split; [same_calls|]. repeat constructor. }
    match goal with
    | |- context [connectRootDaemon_for env fuel ?a ctx tmTimeout nc ?s] =>
        destruct (IH a s) as (new & Hnew & Hall)
    end.
    eexists (_ :: _ :: new). split.
    + rewrite Hnew. cbn [calls answered]. rewrite <- !app_assoc. reflexivity.
    + repeat constructor. exact Hall.
Qed.

Lemma connectRootDaemon_for_returns (fuel : nat) (ctx : Context) (tmTimeout : Duration)
    (nc : NetworkConfig) (st : St W) :
  fst (connectRootDaemon_for env (S (S fuel)) 1 ctx tmTimeout nc st) <> None.
Proof.
  cbn [connectRootDaemon_for]. run_calls.
  destruct (handle env _ _ (world st)) as [[err|rootStatus] w1];
    cbn [world workloads answered fst snd]; [discriminate|].
  destruct (OutboundConfig_Session rootStatus) as [ocSession|]; [|discriminate].
  case_bool_decide; [discriminate|].
  change (1 =? 2) with false. cbv iota. run_calls.
  destruct (handle env _ (OpRootDisconnect ctx) w1) as [[e|] w2];
    cbn [world workloads answered fst snd]; [discriminate|].
  destruct (handle env _ _ w2) as [[err|rootStatus2] w3];
    cbn [world workloads answered fst snd]; [discriminate|].
  destruct (OutboundConfig_Session rootStatus2) as [ocSession2|]; [|discriminate].
  case_bool_decide; [discriminate|].
  change (1 + 1 =? 2) with true. cbv iota. discriminate.
Qed.

Lemma root_loop_call_other (p : Call -> bool) (new : list Call) :
  (forall c, is_root_loop_call c = true -> p c = false) ->
  Forall (fun c => is_root_loop_call c = true) new -> count_calls p new = 0%nat.
Proof.
  intros Hp Hall. apply count_calls_none. eapply Forall_impl; [exact Hall | exact Hp].
Qed.

(** X6: the socket of the root daemon is never left open behind an
    error.  A run of [connectRootDaemon] dials the socket at most once;
    when it returns a client it has not closed the connection, and the
    client is the socket client exactly when it dialed; when it returns an
    error it has closed the connection exactly when the dial had given one,
    and then as its last call; and it has always returned after two rounds
    of its connect loop. *)
Theorem connectRootDaemon_closes_on_error (fuel : nat) (s : session) (ctx : Context)
    (nc : NetworkConfig) (isPodDaemon : bool) (st : St W) :
  let run := connectRootDaemon env fuel s ctx nc isPodDaemon st in
  exists new : list Call,
    calls (snd run) = calls st ++ new
    /\ (count_calls is_SocketDial new <= 1)%nat
    /\ match fst run with
       | Some (inr rd) =>
           count_calls is_RootConnClose new = 0%nat
           /\ (rd = SocketClient <-> count_calls is_SocketDialed new = 1%nat)
           /\ (rd = InProcSession <-> count_calls is_SocketDial new = 0%nat)
       | Some (inl e) =>
           count_calls is_RootConnClose new = count_calls is_SocketDialed new
           /\ (count_calls is_SocketDialed new = 1%nat ->
               last new = Some (Called OpRootConnClose tt))
       | None =>
           count_calls is_RootConnClose new = 0%nat /\ (fuel < 2)%nat
       end.
Proof.
  cbv zeta. unfold connectRootDaemon, connectRootDaemon_wait. run_calls.
  destruct (handle env _ _ (world st)) as [[] w1]; cbn [world workloads answered fst snd].
  destruct (handle env _ OpRootSessionInProcess w1) as [[|] w2];
    cbn [world workloads answered fst snd].
  - destruct (handle env _ _ w2) as [[e|] w3]; cbn [world workloads answered fst snd].
    { eexists. split; [same_calls|]. cbn. repeat split; try lia; discriminate. }
    destruct (handle env _ _ w3) as [[e|] w4]; cbn [world workloads answered fst snd].
    { eexists. split; [same_calls|]. cbn. repeat split; try lia; discriminate. }
    destruct (handle env _ _ w4) as [[e|] w5]; cbn [world workloads answered fst snd].
    { eexists. split; [same_calls|]. cbn. repeat split; try lia; discriminate. }
    destruct (handle env _ _ w5) as [[] w6]; cbn [world workloads answered fst snd].
    eexists. split; [same_calls|]. cbn. repeat split; try lia; discriminate.
  - destruct (handle env _ _ w2) as [[e|] w3]; cbn [world workloads answered fst snd].
    { eexists. split; [same_calls|]. cbn. repeat split; try lia; discriminate. }
    set (tm := timeouts_Get env TimeoutTrafficManagerConnect).
    match goal with
    | |- context [connectRootDaemon_for env fuel 1 ctx tm nc ?s0] =>
        destruct (connectRootDaemon_for_calls fuel 1 ctx tm nc s0) as (new & Hnew & Hall);
        pose proof (fun f => connectRootDaemon_for_returns f ctx tm nc s0) as Hret;
        assert (Hclose : count_calls is_RootConnClose new = 0%nat)
          by (apply root_loop_call_other; [|exact Hall];
              intros [X []]; cbn; congruence);
        assert (Hdial : count_calls is_SocketDial new = 0%nat)
          by (apply root_loop_call_other; [|exact Hall];
              intros [X []]; cbn; congruence);
        assert (Hdialed : count_calls is_SocketDialed new = 0%nat)
          by (apply root_loop_call_other; [|exact Hall];
              intros [X []]; cbn; congruence);
        destruct (connectRootDaemon_for env fuel 1 ctx tm nc s0) as [[[e|]|] st1] eqn:Hloop
    end; cbn [fst snd calls answered] in *.
    + destruct (handle env _ OpRootConnClose (world st1)) as [[] w5];
        cbn [world workloads answered fst snd calls].
      eexists (_ :: _ :: _ :: new ++ [_]).
      split; [rewrite Hnew, <- !app_assoc; reflexivity|].
      cbn [count_calls is_SocketDial is_SocketDialed is_RootConnClose].
      rewrite !count_calls_app, Hclose, Hdial, Hdialed. cbn.
      repeat split; try lia.
      intros _. rewrite !app_comm_cons. apply last_snoc.
    + destruct (handle env _ _ (world st1)) as [[e|] w5];
        cbn [world workloads answered fst snd calls].
      * destruct (handle env _ OpRootConnClose w5) as [[] w6];
          cbn [world workloads answered fst snd calls].
        eexists (_ :: _ :: _ :: new ++ [_; _]).
        split; [rewrite Hnew, <- !app_assoc; reflexivity|].
        cbn [count_calls is_SocketDial is_SocketDialed is_RootConnClose].
        rewrite !count_calls_app, Hclose, Hdial, Hdialed. cbn.
        repeat split; try lia.
        intros _. rewrite !app_comm_cons.
        change [?a; ?b] with ([a] ++ [b]). rewrite app_assoc. apply last_snoc.
      * destruct (handle env _ _ w5) as [[] w6];
          cbn [world workloads answered fst snd calls].
        eexists (_ :: _ :: _ :: new ++ [_; _]).
        split; [rewrite Hnew, <- !app_assoc; reflexivity|].
        cbn [count_calls is_SocketDial is_SocketDialed is_RootConnClose].
        rewrite !count_calls_app, Hclose, Hdial, Hdialed. cbn.
        repeat split; try lia; discriminate.
    + eexists (_ :: _ :: _ :: new).
      split; [rewrite Hnew, <- !app_assoc; reflexivity|].
      cbn [count_calls is_SocketDial is_SocketDialed is_RootConnClose].
      rewrite Hclose, Hdial. repeat split; try lia.
      destruct fuel as [|[|fuel]]; try lia.
      exfalso. apply (Hret fuel). rewrite Hloop. reflexivity.
Qed.

End RootDaemonProperties.

Section WatcherProperties.

Context {W : Type} (env : Env W).

Lemma sync_free_parts (c : Call) :
  is_sync_call c = false ->
  is_WgDone c = false /\ is_WorkloadsLock c = false /\ is_WorkloadsUnlock c = false.
Proof.
  unfold is_sync_call. intros H.
  repeat (apply orb_false_elim in H as [H ?]). repeat split; assumption.
Qed.

Lemma count_sync_free (new : list Call) :
  Forall (fun c => is_sync_call c = false) new ->
  count_calls is_WgDone new = 0%nat
  /\ count_calls is_WorkloadsLock new = 0%nat
  /\ count_calls is_WorkloadsUnlock new = 0%nat.
Proof.
  intros Hall. repeat split; apply count_calls_none;
    (eapply Forall_impl; [exact Hall|]); intros c Hc; apply sync_free_parts in Hc; tauto.
Qed.

Lemma startInformers_calls (namespace : string) (kinds : list WorkloadInfo_Kind)
    (st : St W) :
  exists new : list Call,
    calls (snd (startInformers env namespace kinds st)) = calls st ++ new
    /\ Forall (fun c => is_sync_call c = false) new.
Proof.
  revert st. induction kinds as [|kind kinds IH]; intros st.
  - exists []. cbn. rewrite app_nil_r. split; [reflexivity | constructor].
  - cbn [startInformers]. destruct kind; run_calls; repeat answer;
      match goal with
      | |- context [startInformers env namespace kinds ?st'] =>
          destruct (IH st') as (new & Hnew & Hall);
          destruct (startInformers env namespace kinds st') as [rest st'']
      end; cbn [fst snd calls answered] in *; rewrite Hnew, <- ?app_assoc;
      (eexists; split; [reflexivity|]); cbn [app]; repeat constructor; exact Hall.
Qed.

Lemma localWorkloadsWatcher_for_sync (fuel : nat) (ctx : Context) (namespace : string)
    (synced : bool) (st : St W) :
  let run := localWorkloadsWatcher_for env fuel ctx namespace synced st in
  exists new : list Call,
    calls (snd run) = calls st ++ new
    /\ count_calls is_WorkloadsLock new = count_calls is_WorkloadsUnlock new
    /\ (count_calls is_WorkloadsLock new <= fuel)%nat
    /\ match fst run with
       | Some synced' => (count_calls is_WgDone new + owed synced')%nat = owed synced
       | None => (count_calls is_WgDone new <= owed synced)%nat
       end.
Proof.
  cbv zeta. revert synced st. induction fuel as [|fuel IH]; intros synced st.
  - exists []. cbn. rewrite app_nil_r. repeat split; lia.
  - cbn [localWorkloadsWatcher_for]. run_calls.
    destruct (handle env _ (OpSelectWorkloads ctx) (world st)) as [[|[wls|]] w1];
      cbn [world workloads answered fst snd];
      try (eexists; split; [same_calls|]; cbn; repeat split; lia).
    repeat answer.
    destruct synced; run_calls; repeat answer;
      match goal with
      | |- context [localWorkloadsWatcher_for env fuel ctx namespace false ?st'] =>
          destruct (IH false st') as (new & Hnew & Hlock & Hfuel & Hdone);
          destruct (localWorkloadsWatcher_for env fuel ctx namespace false st')
            as [[synced'|] st'']
      end; cbn [fst snd calls answered] in *; rewrite Hnew, <- ?app_assoc;
      (eexists; split; [reflexivity|]);
      rewrite !count_calls_app; cbn in *; repeat split; lia.
Qed.

Lemma localWorkloadsWatcher_watch_sync (fuel : nat) (s : session) (ctx : Context)
    (namespace : string) (synced : bool) (kinds : list WorkloadInfo_Kind) (st : St W) :
  let run := localWorkloadsWatcher_watch env fuel s ctx namespace synced kinds st in
  exists new : list Call,
    calls (snd run) = calls st ++ new
    /\ count_calls is_WorkloadsLock new = count_calls is_WorkloadsUnlock new
    /\ (count_calls is_WorkloadsLock new <= fuel)%nat
    /\ match fst run with
       | Some (_, synced') => (count_calls is_WgDone new + owed synced')%nat = owed synced
       | None => (count_calls is_WgDone new <= owed synced)%nat
       end.
Proof.
  cbv zeta. unfold localWorkloadsWatcher_watch. run_calls.
  destruct (handle env _ _ (world st)) as [[] w1]; cbn [world workloads answered fst snd].
  destruct (handle env _ (OpInformerGetFactory namespace) w1) as [fc w2];
    cbn [world workloads answered fst snd].
  set (st2 := (if fc return M W unit then _ else _) _).
  assert (Hst2 : exists n2, calls (snd st2) = calls st ++ n2
                            /\ Forall (fun c => is_sync_call c = false) n2).
  { subst st2. destruct fc; run_calls; repeat answer;
      (eexists; split; [same_calls|]); repeat constructor. }
  destruct st2 as [[] st2']. cbn [fst snd] in *.
  destruct Hst2 as (n2 & Hn2 & Hall2).
  destruct (startInformers_calls namespace kinds st2') as (n3 & Hn3 & Hall3).
  destruct (startInformers env namespace kinds st2') as [enabled st3].
  cbn [fst snd] in *.
  destruct (handle env _ OpStartK8sInformerFactory (world st3)) as [[] w4];
    cbn [world workloads answered fst snd].
  destruct (handle env _ (OpNewWatcher ctx namespace enabled) w4) as [[e|] w5];
    cbn [world workloads answered fst snd].
  - exists (n2 ++ n3 ++ [Called OpStartK8sInformerFactory tt;
                         Called (OpNewWatcher ctx namespace enabled) (Some e)]).
    split; [cbn [calls answered]; rewrite Hn3, Hn2, <- !app_assoc; reflexivity|].
    destruct (count_sync_free n2 Hall2) as (Hd2 & Hl2 & Hu2).
    destruct (count_sync_free n3 Hall3) as (Hd3 & Hl3 & Hu3).
    rewrite !count_calls_app, Hd2, Hl2, Hu2, Hd3, Hl3, Hu3. cbn. repeat split; lia.
  - repeat answer. repeat match goal with u : unit |- _ => destruct u end.
    match goal with
    | |- context [localWorkloadsWatcher_for env fuel ctx namespace synced ?st'] =>
        destruct (localWorkloadsWatcher_for_sync fuel ctx namespace synced st')
          as (n5 & Hn5 & Hlock & Hfuel & Hdone);
        destruct (localWorkloadsWatcher_for env fuel ctx namespace synced st')
          as [[synced'|] st6]
    end; cbn [fst snd calls answered] in *;
      (exists (n2 ++ n3 ++ [Called OpStartK8sInformerFactory tt;
                            Called (OpNewWatcher ctx namespace enabled) None;
                            Called OpWaitForCacheSync tt; Called (OpSubscribe ctx) tt]
                  ++ n5));
      (split; [rewrite Hn5, Hn3, Hn2, <- !app_assoc; reflexivity|]);
      destruct (count_sync_free n2 Hall2) as (Hd2 & Hl2 & Hu2);
      destruct (count_sync_free n3 Hall3) as (Hd3 & Hl3 & Hu3);
      rewrite !count_calls_app, Hd2, Hl2, Hu2, Hd3, Hl3, Hu3; cbn; repeat split; lia.
Qed.

(** X7: a local workloads watcher signals the wait group it was given
    once and only once.  When [localWorkloadsWatcher] returns, with or
    without an error, it has called [synced.Done()] exactly once if it was
    given a wait group and never otherwise, and its last call is the log of
    its end; as long as it runs it has called it at most once.  It has
    released the workloads lock as often as it has taken it, and has taken
    it at most once for each round of its loop. *)
Theorem localWorkloadsWatcher_signals_once (fuel : nat) (s : session) (ctx : Context)
    (namespace : string) (synced : bool) (st : St W) :
  let run := localWorkloadsWatcher env fuel s ctx namespace synced st in
  exists new : list Call,
    calls (snd run) = calls st ++ new
    /\ count_calls is_WorkloadsLock new = count_calls is_WorkloadsUnlock new
    /\ (count_calls is_WorkloadsLock new <= fuel)%nat
    /\ match fst run with
       | Some _ =>
           count_calls is_WgDone new = owed synced
           /\ last new = Some (Called (OpLog LogDebug "client workload watcher ended" []) tt)
       | None => (count_calls is_WgDone new <= owed synced)%nat
       end.
Proof.
  cbv zeta. unfold localWorkloadsWatcher. run_calls.
  destruct (handle env _ _ (world st)) as [[err|kinds] w1];
    cbn [world workloads answered fst snd].
  - case_bool_decide as Hcode.
    + destruct synced; run_calls; repeat answer;
        repeat match goal with u : unit |- _ => destruct u end;
        (eexists; split; [same_calls|]); cbn; repeat split; lia.
    + match goal with
      | |- context [localWorkloadsWatcher_watch env fuel s ctx namespace synced ?k ?st'] =>
          destruct (localWorkloadsWatcher_watch_sync fuel s ctx namespace synced k st')
            as (nw & Hnw & Hlock & Hfuel & Hdone);
          destruct (localWorkloadsWatcher_watch env fuel s ctx namespace synced k st')
            as [[[ret synced']|] st2]
      end; cbn [fst snd calls answered] in *.
      * destruct synced'; run_calls; repeat answer;
          repeat match goal with u : unit |- _ => destruct u end;
          cbn [fst snd calls answered]; rewrite Hnw, <- ?app_assoc;
          (eexists; split; [reflexivity|]);
          rewrite ?app_comm_cons, ?count_calls_app; cbn in *;
          (repeat split; try lia);
          rewrite ?app_comm_cons; repeat (apply last_app_Some; left); reflexivity.
      * eexists. split; [rewrite Hnw, <- ?app_assoc; reflexivity|].
        rewrite ?app_comm_cons, ?count_calls_app; cbn in *. repeat split; lia.
  - match goal with
    | |- context [localWorkloadsWatcher_watch env fuel s ctx namespace synced ?k ?st'] =>
        destruct (localWorkloadsWatcher_watch_sync fuel s ctx namespace synced k st')
          as (nw & Hnw & Hlock & Hfuel & Hdone);
        destruct (localWorkloadsWatcher_watch env fuel s ctx namespace synced k st')
          as [[[ret synced']|] st2]
    end; cbn [fst snd calls answered] in *.
    + destruct synced'; run_calls; repeat answer;
        repeat match goal with u : unit |- _ => destruct u end;
        cbn [fst snd calls answered]; rewrite Hnw, <- ?app_assoc;
        (eexists; split; [reflexivity|]);
        rewrite ?app_comm_cons, ?count_calls_app; cbn in *;
        (repeat split; try lia);
        rewrite ?app_comm_cons; repeat (apply last_app_Some; left); reflexivity.
    + eexists. split; [rewrite Hnw, <- ?app_assoc; reflexivity|].
      rewrite ?app_comm_cons, ?count_calls_app; cbn in *. repeat split; lia.
Qed.

End WatcherProperties.

Section EnsureWatchersProperties.

Context {W : Type} (env : Env W).

Lemma ensureWatchers_range_sync (s : session) (namespaces : list string) (st : St W) :
  exists new : list Call,
    calls (snd (ensureWatchers_range env s namespaces st)) = calls st ++ new
    /\ (count_calls is_WgDone new + count_calls is_Go new)%nat = length namespaces
    /\ count_calls is_WorkloadsLock new = length namespaces
    /\ count_calls is_WorkloadsUnlock new = length namespaces
    /\ count_calls is_WgAdd new = 0%nat
    /\ count_calls is_WgWait new = 0%nat.
Proof.
  revert st. induction namespaces as [|ns0 namespaces IH]; intros st.
  - exists []. cbn. rewrite app_nil_r. repeat split.
  - cbn [ensureWatchers_range]. run_calls.
    destruct (handle env _ (OpWorkloadsLock (workloads st)) (world st)) as [ws w1];
      cbn [world workloads answered fst snd].
    destruct (handle env _ OpWorkloadsUnlock w1) as [[] w2];
      cbn [world workloads answered fst snd].
    case_bool_decide as Hseen; run_calls; repeat answer;
      repeat match goal with u : unit |- _ => destruct u end;
      match goal with
      | |- context [ensureWatchers_range env s namespaces ?st'] =>
          destruct (IH st') as (new & Hcalls & Hwg & Hlock & Hunlock & Hadd & Hwait);
          rewrite Hcalls
      end;
      cbn [calls answered]; rewrite <- !app_assoc;
      (eexists; split; [reflexivity|]); cbn [app length];
      cbn [count_calls is_WgDone is_Go is_WorkloadsLock is_WorkloadsUnlock is_WgAdd
             is_WgWait];
      repeat split; lia.
Qed.

(** X8: the wait group of [ensureWatchers] adds up.  The function adds
    the number of namespaces to the wait group, once, before anything
    else on it; for every namespace it then either calls [Done] itself or
    starts one watcher, which is given the wait group; it takes and
    releases the workloads lock once for each namespace; and it waits
    once, after the last watcher was started, and logs. *)
Theorem ensureWatchers_wait_group (s : session) (namespaces : list string) (st : St W) :
  let synced := OpLog LogDebug "watchers for %q synced" [ArgStrings namespaces] in
  exists pre : list Call,
    calls (snd (ensureWatchers env s namespaces st))
      = calls st
        ++ [Called (OpLog LogDebug "Ensure watchers %v" [ArgStrings namespaces]) tt;
            Called (OpWgAdd (length namespaces)) tt]
        ++ pre ++ [Called OpWgWait tt; Called synced tt]
    /\ (count_calls is_WgDone pre + count_calls is_Go pre)%nat = length namespaces
    /\ count_calls is_WorkloadsLock pre = length namespaces
    /\ count_calls is_WorkloadsUnlock pre = length namespaces
    /\ count_calls is_WgAdd pre = 0%nat
    /\ count_calls is_WgWait pre = 0%nat.
Proof.
  cbv zeta. unfold ensureWatchers. run_calls.
  destruct (handle env _ _ (world st)) as [[] w1]; cbn [world workloads answered fst snd].
  destruct (handle env _ _ w1) as [[] w2]; cbn [world workloads answered fst snd].
  match goal with
  | |- context [ensureWatchers_range env s namespaces ?st'] =>
      destruct (ensureWatchers_range_sync s namespaces st')
        as (pre & Hcalls & Hrest);
      destruct (ensureWatchers_range env s namespaces st') as [[] st3]
  end.
  cbn [fst snd calls answered] in *.
  destruct (handle env _ OpWgWait (world st3)) as [[] w4];
    cbn [world workloads answered fst snd].
  destruct (handle env _ _ w4) as [[] w5]; cbn [world workloads answered fst snd calls].
  exists pre. split; [|exact Hrest].
  rewrite Hcalls, <- !app_assoc. reflexivity.
Qed.

Lemma ensureWatchers_range_undisturbed (s : session) (namespaces : list string)
    (st : St W) :
  undisturbed env ->
  let run := ensureWatchers_range env s namespaces st in
  let selected := if managerHasWatcherSupport (managerVersion s)
                  then Go_workloadsWatcher else Go_localWorkloadsWatcher in
  exists new : list Call,
    calls (snd run) = calls st ++ new
    /\ workloads (snd run) = workloads st
    /\ started_watchers new
       = (fun ns => (selected, ns))
           <$> List.filter (fun ns => negb (bool_decide (is_Some (workloads st !! ns))))
                 namespaces.
Proof.
  intros Hquiet. cbv zeta. revert st.
  induction namespaces as [|ns0 namespaces IH]; intros st.
  - exists []. cbn. rewrite app_nil_r. repeat split.
  - cbn [ensureWatchers_range]. run_calls.
    pose proof (Hquiet (workloads st) (world st)) as Hseen.
    destruct (handle env _ (OpWorkloadsLock (workloads st)) (world st)) as [ws w1];
      cbn [world workloads answered fst snd] in *. subst ws.
    destruct (handle env _ OpWorkloadsUnlock w1) as [[] w2];
      cbn [world workloads answered fst snd].
    cbn [List.filter].
    case_bool_decide as Hin; cbn [negb]; run_calls; repeat answer;
      repeat match goal with u : unit |- _ => destruct u end;
      match goal with
      | |- context [ensureWatchers_range env s namespaces ?st'] =>
          destruct (IH st') as (new & Hcalls & Hws & Hstarted);
          rewrite Hcalls, Hws
      end;
      cbn [calls answered workloads]; rewrite <- !app_assoc;
      (eexists; split; [reflexivity|]); (split; [reflexivity|]);
      cbn [app started_watchers omap list_omap started_watcher fmap list_fmap];
      cbn [workloads] in Hstarted; unfold started_watchers in Hstarted;
      rewrite Hstarted; reflexivity.
Qed.

(** X9: when no watcher touches the workloads meanwhile, [ensureWatchers]
    starts a watcher for exactly the namespaces that the workloads do not
    have yet, one for each time such a namespace is listed and in the order
    of the list; the manager's version selects the watcher; and the
    workloads are left as they were.  When the workloads have all the
    namespaces, nothing is started. *)
Theorem ensureWatchers_starts_missing (s : session) (namespaces : list string)
    (st : St W) :
  undisturbed env ->
  let run := ensureWatchers env s namespaces st in
  let selected := if managerHasWatcherSupport (managerVersion s)
                  then Go_workloadsWatcher else Go_localWorkloadsWatcher in
  workloads (snd run) = workloads st
  /\ started_watchers (calls (snd run))
     = started_watchers (calls st)
       ++ ((fun ns => (selected, ns))
             <$> List.filter (fun ns => negb (bool_decide (is_Some (workloads st !! ns))))
                   namespaces)
  /\ ((forall ns, In ns namespaces -> is_Some (workloads st !! ns)) ->
      started_watchers (calls (snd run)) = started_watchers (calls st)).
Proof.
  intros Hquiet. cbv zeta.
  assert (Hrun : workloads (snd (ensureWatchers env s namespaces st)) = workloads st
    /\ started_watchers (calls (snd (ensureWatchers env s namespaces st)))
       = started_watchers (calls st)
         ++ ((fun ns => (if managerHasWatcherSupport (managerVersion s)
                         then Go_workloadsWatcher else Go_localWorkloadsWatcher, ns))
               <$> List.filter
                     (fun ns => negb (bool_decide (is_Some (workloads st !! ns))))
                     namespaces)).
  { unfold ensureWatchers. run_calls.
    destruct (handle env _ _ (world st)) as [[] w1]; cbn [world workloads answered fst snd].
    destruct (handle env _ _ w1) as [[] w2]; cbn [world workloads answered fst snd].
    match goal with
    | |- context [ensureWatchers_range env s namespaces ?st'] =>
        destruct (ensureWatchers_range_undisturbed s namespaces st' Hquiet)
          as (new & Hcalls & Hws & Hstarted);
        destruct (ensureWatchers_range env s namespaces st') as [[] st3]
    end.
    cbn [fst snd calls answered workloads] in *.
    destruct (handle env _ OpWgWait (world st3)) as [[] w4];
      cbn [world workloads answered fst snd].
    destruct (handle env _ _ w4) as [[] w5];
      cbn [world workloads answered fst snd calls].
    split; [exact Hws|].
    rewrite Hcalls. unfold started_watchers in *.
    rewrite !omap_app, Hstarted. cbn. rewrite !app_nil_r. reflexivity. }
  destruct Hrun as [Hws Hstarted]. split; [exact Hws|]. split; [exact Hstarted|].
  intros Hall. rewrite Hstarted.
  replace (List.filter _ namespaces) with (@nil string); [apply app_nil_r|].
  clear - Hall. induction namespaces as [|ns namespaces IH]; [reflexivity|].
  cbn [List.filter]. rewrite bool_decide_eq_true_2 by (apply Hall; left; reflexivity).
  cbn [negb]. apply IH. intros ns' Hin. apply Hall. right. exact Hin.
Qed.

End EnsureWatchersProperties.

Lemma ensureWatchers_starts_missing_witness :
  started_watchers
    (calls (snd (ensureWatchers world_quiet session0 ["default"; "other"]
                   {| world := 0%nat; workloads := workloads_web; calls := [] |})))
  = [(Go_workloadsWatcher, "other")].
Proof.
  exact (proj1 (proj2 (ensureWatchers_starts_missing world_quiet session0
                         ["default"; "other"]
                         {| world := 0%nat; workloads := workloads_web; calls := [] |}
                         (fun seen w => eq_refl)))).
Defined.

Lemma connectMgr_session_fields_witness :
  clientID session_connected <> "" /\ managerName session_connected <> "".
Proof.
  assert (H : fst (connectMgr world_quiet CallerContext cluster0 "install-1" request0
                     (start 0%nat)) = inr session_connected)
    by (vm_compute; reflexivity).
  pose proof (connectMgr_session_fields world_quiet CallerContext cluster0 "install-1"
                request0 (start 0%nat) session_connected H) as P.
  split; apply P.
Defined.

Section SnapshotMaps.

Lemma add_intercept_lookup (nss : list string) (ics : list InterceptInfo)
    (acc : gmap string (list InterceptInfo)) (agent : string) :
  default [] (foldl (add_intercept nss) acc ics !! agent)
  = default [] (acc !! agent)
    ++ filter (fun i => spec_Agent (ii_Spec i) = agent
                         /\ spec_Namespace (ii_Spec i) ∈ nss) ics.
Proof.
  revert acc. induction ics as [|i ics IH]; intros acc.
  - cbn. rewrite app_nil_r. reflexivity.
  - cbn [foldl]. rewrite IH, filter_cons. unfold add_intercept.
    case_bool_decide as Hns.
    + destruct (decide (spec_Agent (ii_Spec i) = agent)) as [Ha | Ha].
      * rewrite decide_True by (split; assumption).
        rewrite Ha, lookup_insert_eq. cbn [default from_option id].
        rewrite <- app_assoc. reflexivity.
      * rewrite decide_False by (intros [H _]; exact (Ha H)).
        rewrite lookup_insert_ne by exact Ha. reflexivity.
    + rewrite decide_False by (intros [_ H]; exact (Hns H)). reflexivity.
Qed.

Lemma add_ingest_lookup (igs : list (ingestKey * IngestInfo))
    (acc : gmap string (list IngestInfo)) (name : string) :
  default [] (foldl add_ingest acc igs !! name)
  = default [] (acc !! name)
    ++ (snd <$> filter (fun kv => ik_workload (fst kv) = name) igs).
Proof.
  revert acc. induction igs as [|kv igs IH]; intros acc.
  - cbn. rewrite app_nil_r. reflexivity.
  - cbn [foldl]. rewrite IH, filter_cons. unfold add_ingest.
    destruct (decide (ik_workload (fst kv) = name)) as [Ha | Ha].
    + rewrite Ha, lookup_insert_eq. cbn [default from_option id fmap list_fmap].
      rewrite <- app_assoc. reflexivity.
    + rewrite lookup_insert_ne by exact Ha. reflexivity.
Qed.

Lemma add_agent_lookup (cas : list AgentInfo) (acc : gmap string string) (name : string) :
  foldl add_agent acc cas !! name
  = match last (filter (fun a => ai_Name a = name) cas) with
    | Some a => Some (ai_Version a)
    | None => acc !! name
    end.
Proof.
  induction cas as [|a cas IH] using rev_ind.
  - reflexivity.
  - rewrite foldl_app, filter_app. cbn [foldl]. unfold add_agent at 1.
    rewrite filter_cons, filter_nil.
    destruct (decide (ai_Name a = name)) as [Ha | Ha].
    + rewrite last_snoc, Ha, lookup_insert_eq. reflexivity.
    + rewrite app_nil_r, lookup_insert_ne by exact Ha. exact IH.
Qed.

End SnapshotMaps.

Section SnapshotEntryProperties.

Context {W : Type} (env : Env W).

Lemma ensureWatchers_calls_extend (s : session) (namespaces : list string) (st : St W) :
  exists new : list Call,
    calls (snd (ensureWatchers env s namespaces st)) = calls st ++ new.
Proof.
  unfold ensureWatchers. run_calls.
  destruct (handle env _ _ (world st)) as [[] w1]; cbn [world workloads answered fst snd].
  destruct (handle env _ _ w1) as [[] w2]; cbn [world workloads answered fst snd].
  match goal with
  | |- context [ensureWatchers_range env s namespaces ?st'] =>
      destruct (ensureWatchers_range_sync env s namespaces st') as (pre & Hcalls & _);
      destruct (ensureWatchers_range env s namespaces st') as [[] st3]
  end.
  cbn [fst snd calls answered] in *.
  repeat answer. cbn [calls answered]. rewrite Hcalls, <- !app_assoc.
  eexists. reflexivity.
Qed.

Lemma getInfosForWorkloads_calls_extend (namespaces : list string)
    (iMap : gmap string (list InterceptInfo)) (gMap : gmap string (list IngestInfo))
    (sMap : gmap string string) (filter : Z) (st : St W) :
  exists new : list Call,
    calls (snd (getInfosForWorkloads env namespaces iMap gMap sMap filter st))
    = calls st ++ new.
Proof.
  unfold getInfosForWorkloads, eachWorkload. run_calls.
  repeat answer. cbn [calls answered]. rewrite <- !app_assoc. eexists. reflexivity.
Qed.

(** X10: what the entries of a snapshot say about intercepts, ingests
    and agents.  Every entry [WorkloadInfoSnapshot] returns is of one of
    the namespaces it looked at.  Its intercepts are the current
    intercepts, in their order, whose agent has the entry's name and whose
    namespace is one of those looked at (which need not be the entry's
    own); its ingests are those of the current ingests whose workload has
    the entry's name; its agent version is empty unless the namespaces
    looked at are the connected namespace alone, and is then the version of
    the last of the current agents with the entry's name. *)
Theorem WorkloadInfoSnapshot_entry_details (s : session) (namespaces : list string)
    (flt : Z) (st : St W) (n : nat) (wi : WorkloadInfo) :
  let run := WorkloadInfoSnapshot env s namespaces flt st in
  let ics := fst (call env OpGetCurrentIntercepts st) in
  let nss := fst (snapshot_namespaces env s namespaces flt
                    (snd (call env OpGetCurrentIntercepts st))) in
  fst run !! n = Some wi ->
  wi_Namespace wi ∈ nss
  /\ wi_InterceptInfos wi
     = filter (fun i => spec_Agent (ii_Spec i) = wi_Name wi
                        /\ spec_Namespace (ii_Spec i) ∈ nss) ics
  /\ (exists igs,
        In (Called OpRangeIngests igs) (calls (snd run))
        /\ wi_IngestInfos wi
           = snd <$> filter (fun kv => ik_workload (fst kv) = wi_Name wi) igs)
  /\ (nss <> [Namespace s] -> wi_AgentVersion wi = "")
  /\ (nss = [Namespace s] ->
      exists cas,
        In (Called OpGetCurrentAgents cas) (calls (snd run))
        /\ wi_AgentVersion wi
           = default "" (ai_Version <$> last (filter (fun a => ai_Name a = wi_Name wi) cas))).
Proof.
  cbv zeta. rewrite WorkloadInfoSnapshot_steps.
  destruct (call env OpGetCurrentIntercepts st) as [ics st1]. cbn [fst snd].
  destruct (snapshot_namespaces env s namespaces flt st1) as [nss st2]. cbn [fst snd].
  case_bool_decide as Hlen.
  { run_calls. repeat answer. cbn [fst]. intros Hn. rewrite lookup_nil in Hn.
    discriminate Hn. }
  assert (HsMap :
    (nss <> [Namespace s] -> snapshot_sMap env s nss st2 = (∅, st2))
    /\ (nss = [Namespace s] ->
        exists cas, snapshot_sMap env s nss st2
                    = (foldl add_agent ∅ cas,
                       answered OpGetCurrentAgents cas
                         (snd (handle env _ OpGetCurrentAgents (world st2))) st2))).
  { split.
    - intros Hne. unfold snapshot_sMap.
      destruct nss as [|ns [|ns' nss]]; cbn [length lookup list_lookup];
        try (rewrite bool_decide_eq_false_2 by discriminate; reflexivity).
      rewrite (bool_decide_eq_false_2 (Some ns = Some (Namespace s)));
        [rewrite andb_false_r; reflexivity|].
      intros Hns. apply Hne. congruence.
    - intros ->. unfold snapshot_sMap. cbn [length lookup list_lookup].
      rewrite !bool_decide_eq_true_2 by reflexivity. cbn [andb].
      run_calls. destruct (handle env _ OpGetCurrentAgents (world st2)) as [cas w1].
      exists cas. reflexivity. }
  destruct HsMap as [Hother Hconnected].
  destruct (snapshot_sMap env s nss st2) as [sMap st3] eqn:HsMap.
  destruct (ensureWatchers_calls_extend s nss st3) as (new4 & Hnew4).
  destruct (ensureWatchers env s nss st3) as [[] st4]. cbn [snd] in Hnew4.
  assert (Hcall : exists igs w5,
             call env OpRangeIngests st4 = (igs, answered OpRangeIngests igs w5 st4)).
  { unfold call. destruct (handle env _ OpRangeIngests (world st4)) as [igs w5].
    exists igs, w5. reflexivity. }
  destruct Hcall as (igs & w5 & Hcall). rewrite Hcall.
  set (st5 := answered OpRangeIngests igs w5 st4).
  destruct (getInfosForWorkloads_calls_extend nss (foldl (add_intercept nss) ∅ ics)
              (foldl add_ingest ∅ igs) sMap flt st5) as (new6 & Hnew6).
  rewrite Hnew6, getInfosForWorkloads_run.
  intros Hn. apply list_elem_of_lookup_2 in Hn.
  apply elem_of_getInfosForWorkloads_locked in Hn as [key Hl].
  apply wiMap_lookup_sound in Hl as (ns & k & info & [Hns _] & _ & _ & ->).
  cbn [wi_Namespace wi_Name wi_InterceptInfos wi_IngestInfos wi_AgentVersion wlInfo_of].
  split; [exact Hns|]. split.
  { rewrite add_intercept_lookup, lookup_empty. reflexivity. }
  split.
  { exists igs. split.
    - subst st5. cbn [calls answered]. rewrite !in_app_iff. cbn. tauto.
    - rewrite add_ingest_lookup, lookup_empty. reflexivity. }
  split.
  - intros Hne. specialize (Hother Hne). injection Hother as -> _.
    rewrite lookup_empty. reflexivity.
  - intros Heq. destruct (Hconnected Heq) as (cas & Hcas). injection Hcas as -> ->.
    exists cas. split.
    + subst st5. cbn [calls answered]. rewrite Hnew4. cbn [calls answered].
      rewrite !in_app_iff. cbn. tauto.
    + rewrite add_agent_lookup, lookup_empty.
      destruct (last _); reflexivity.
Qed.

End SnapshotEntryProperties.

Lemma WorkloadInfoSnapshot_entry_details_witness :
  fst (WorkloadInfoSnapshot world_intercepted session0 ["default"] 0 st_web) !! 0%nat
    = Some web_intercepted
  /\ wi_InterceptInfos web_intercepted
     = filter (fun i => spec_Agent (ii_Spec i) = wi_Name web_intercepted
                        /\ spec_Namespace (ii_Spec i)
                           ∈ fst (snapshot_namespaces world_intercepted session0 ["default"] 0
                                    (snd (call world_intercepted OpGetCurrentIntercepts
                                            st_web))))
         (fst (call world_intercepted OpGetCurrentIntercepts st_web)).
Proof.
  assert (H : fst (WorkloadInfoSnapshot world_intercepted session0 ["default"] 0 st_web)
                !! 0%nat = Some web_intercepted)
    by (vm_compute; reflexivity).
  split; [exact H|].
  apply (WorkloadInfoSnapshot_entry_details world_intercepted session0 ["default"] 0
           st_web 0%nat web_intercepted H).
Defined.


Section WatcherBatchProperties.

Context {W : Type} (env : Env W).


End WatcherBatchProperties.


Section WatcherIsolation.

Context {W : Type} (env : Env W).

Lemma startInformers_workloads (namespace : string) (kinds : list WorkloadInfo_Kind)
    (st : St W) :
  workloads (snd (startInformers env namespace kinds st)) = workloads st.
Proof.
  revert st. induction kinds as [|kind kinds IH]; intros st.
  - reflexivity.
  - cbn [startInformers]. destruct kind; run_calls; repeat answer;
      match goal with
      | |- context [startInformers env namespace kinds ?st'] =>
          specialize (IH st');
          destruct (startInformers env namespace kinds st') as [rest st'']
      end; exact IH.
Qed.

Lemma localWorkloadsWatcher_for_isolated (fuel : nat) (ctx : Context) (namespace : string)
    (synced : bool) (st : St W) (ns' : string) :
  undisturbed env -> ns' <> namespace ->
  workloads (snd (localWorkloadsWatcher_for env fuel ctx namespace synced st)) !! ns'
  = workloads st !! ns'.
Proof.
  intros Hquiet Hne. revert synced st. induction fuel as [|fuel IH]; intros synced st.
  - reflexivity.
  - cbn [localWorkloadsWatcher_for]. run_calls.
    destruct (handle env _ (OpSelectWorkloads ctx) (world st)) as [[|[wls|]] w1];
      cbn [world workloads answered fst snd]; try reflexivity.
    pose proof (Hquiet (workloads st) w1) as Hseen.
    destruct (handle env _ (OpWorkloadsLock (workloads st)) w1) as [ws w2].
    cbn [world workloads answered fst snd] in *. subst ws.
    repeat answer.
    destruct synced; run_calls; repeat answer; rewrite IH; cbn [workloads];
      apply lookup_insert_ne; congruence.
Qed.

Lemma localWorkloadsWatcher_watch_isolated (fuel : nat) (s : session) (ctx : Context)
    (namespace : string) (synced : bool) (kinds : list WorkloadInfo_Kind) (st : St W)
    (ns' : string) :
  undisturbed env -> ns' <> namespace ->
  workloads (snd (localWorkloadsWatcher_watch env fuel s ctx namespace synced kinds st))
    !! ns'
  = workloads st !! ns'.
Proof.
  intros Hquiet Hne. unfold localWorkloadsWatcher_watch. run_calls.
  destruct (handle env _ _ (world st)) as [[] w1]; cbn [world workloads answered fst snd].
  destruct (handle env _ (OpInformerGetFactory namespace) w1) as [fc w2];
    cbn [world workloads answered fst snd].
  set (st2 := (if fc return M W unit then _ else _) _).
  assert (Hst2 : workloads (snd st2) = workloads st).
  { subst st2. destruct fc; run_calls; repeat answer; reflexivity. }
  destruct st2 as [[] st2']. cbn [fst snd] in *.
  pose proof (startInformers_workloads namespace kinds st2') as Hst3.
  destruct (startInformers env namespace kinds st2') as [enabled st3].
  cbn [fst snd] in *.
  destruct (handle env _ OpStartK8sInformerFactory (world st3)) as [[] w4];
    cbn [world workloads answered fst snd].
  destruct (handle env _ (OpNewWatcher ctx namespace enabled) w4) as [[e|] w5];
    cbn [world workloads answered fst snd].
  - cbn [workloads]. rewrite Hst3, Hst2. reflexivity.
  - repeat answer.
    match goal with
    | |- context [localWorkloadsWatcher_for env fuel ctx namespace synced ?st'] =>
        pose proof (localWorkloadsWatcher_for_isolated fuel ctx namespace synced st' ns'
                      Hquiet Hne) as Hfor;
        destruct (localWorkloadsWatcher_for env fuel ctx namespace synced st')
          as [[synced'|] st6]
    end; cbn [fst snd workloads answered] in *; rewrite Hfor, Hst3, Hst2; reflexivity.
Qed.

(** X12: a local workloads watcher keeps to its own namespace.  When no
    other watcher touches the workloads meanwhile, a run of
    [localWorkloadsWatcher] for one namespace, however many batches it
    receives and however it ends, leaves the workloads of every other
    namespace as they were. *)
Theorem localWorkloadsWatcher_isolated (fuel : nat) (s : session) (ctx : Context)
    (namespace : string) (synced : bool) (st : St W) (ns' : string) :
  undisturbed env -> ns' <> namespace ->
  workloads (snd (localWorkloadsWatcher env fuel s ctx namespace synced st)) !! ns'
  = workloads st !! ns'.
Proof.
  intros Hquiet Hne. unfold localWorkloadsWatcher. run_calls.
  destruct (handle env _ _ (world st)) as [[err|kinds] w1];
    cbn [world workloads answered fst snd].
  - case_bool_decide as Hcode.
    + destruct synced; run_calls; repeat answer; reflexivity.
    + match goal with
      | |- context [localWorkloadsWatcher_watch env fuel s ctx namespace synced ?k ?st'] =>
          pose proof (localWorkloadsWatcher_watch_isolated fuel s ctx namespace synced k
                        st' ns' Hquiet Hne) as Hw;
          destruct (localWorkloadsWatcher_watch env fuel s ctx namespace synced k st')
            as [[[ret synced']|] st2]
      end; cbn [fst snd workloads answered] in *; [|exact Hw].
      destruct synced'; run_calls; repeat answer; exact Hw.
  - match goal with
    | |- context [localWorkloadsWatcher_watch env fuel s ctx namespace synced ?k ?st'] =>
        pose proof (localWorkloadsWatcher_watch_isolated fuel s ctx namespace synced k
                      st' ns' Hquiet Hne) as Hw;
        destruct (localWorkloadsWatcher_watch env fuel s ctx namespace synced k st')
          as [[[ret synced']|] st2]
    end; cbn [fst snd workloads answered] in *; [|exact Hw].
    destruct synced'; run_calls; repeat answer; exact Hw.
Qed.

End WatcherIsolation.

Lemma localWorkloadsWatcher_isolated_witness :
  workloads (snd (localWorkloadsWatcher world_web_deleted 2 session_2_20 CallerContext
                    "other" true
                    {| world := 0%nat; workloads := workloads_web; calls := [] |}))
    !! "default"
  = Some {[deployment "web" := web]}.
Proof.
  exact (localWorkloadsWatcher_isolated world_web_deleted 2 session_2_20 CallerContext
           "other" true {| world := 0%nat; workloads := workloads_web; calls := [] |}
           "default" (fun seen w => eq_refl) ltac:(discriminate)).
Defined.

(** * Properties of the config watcher *)

Section ConfigWatcherProperties.

Variable ManagedNamespaces : list string.
Variable ParseConfigYAML : string -> error + client_Config.
Variable Config_String : client_Config -> string.
Variable YAMLToJSON : string -> error + string.
Variable json_Unmarshal : string -> AgentEnv -> AgentEnv * option error.
Variable AmendClientConfigFunc : client_Config -> bool * client_Config * list LogLine.

Let refresh := refreshFile ParseConfigYAML Config_String YAMLToJSON json_Unmarshal
                 AmendClientConfigFunc.
Let handler := configMapEventHandler ParseConfigYAML Config_String YAMLToJSON
                 json_Unmarshal AmendClientConfigFunc.

(** [refreshFile] writes both fields: of the configuration it is given it
    keeps the namespace and nothing else. *)
Lemma refreshFile_overwrites (data : gmap string string) (c c' : config) :
  config_namespace c = config_namespace c' ->
  fst (refresh data c) = fst (refresh data c').
Proof.
  intros Hns. unfold refresh, refreshFile.
  destruct (refresh_clientYAML _ _ _ _) as [yaml logs1].
  destruct (refresh_agentEnv _ _ _) as [env logs2].
  cbn [fst]. rewrite Hns. reflexivity.
Qed.

Lemma refreshFile_namespace (data : gmap string string) (c : config) :
  config_namespace (fst (refresh data c)) = config_namespace c.
Proof.
  unfold refresh, refreshFile.
  destruct (refresh_clientYAML _ _ _ _) as [yaml logs1].
  destruct (refresh_agentEnv _ _ _) as [env logs2].
  reflexivity.
Qed.

Lemma handle_event_refreshing (event : watch_Event) (c : config) :
  fst (handle_event ParseConfigYAML Config_String YAMLToJSON json_Unmarshal
         AmendClientConfigFunc event c)
  = match refreshing_data event with
    | Some data => fst (refresh data c)
    | None => c
    end.
Proof.
  unfold handle_event, refreshing_data, refresh.
  destruct (ev_Type event), (ev_Object event) as [name data|]; try reflexivity;
    match goal with
    | |- context [refreshFile ?p ?s ?y ?j ?a ?d c] =>
        destruct (refreshFile p s y j a d c) as [c1 logs]; reflexivity
    end.
Qed.

Let after_events := config_after_events ParseConfigYAML Config_String YAMLToJSON
                      json_Unmarshal AmendClientConfigFunc.

Lemma after_events_cons (event : watch_Event) (events : list watch_Event) (c : config) :
  after_events events
    (match refreshing_data event with Some data => fst (refresh data c) | None => c end)
  = after_events (event :: events) c.
Proof.
  unfold after_events, config_after_events. cbn [omap list_omap].
  destruct (refreshing_data event) as [data|]; [|reflexivity].
  rewrite last_cons.
  destruct (last (omap refreshing_data events)) as [data'|]; [|reflexivity].
  apply refreshFile_overwrites, refreshFile_namespace.
Qed.

Lemma after_events_namespace (events : list watch_Event) (c : config) :
  config_namespace (after_events events c) = config_namespace c.
Proof.
  unfold after_events, config_after_events.
  destruct (last _); [apply refreshFile_namespace | reflexivity].
Qed.

Lemma configMapEventHandler_run (evCh : list HandlerSelect) (c : config) :
  fst (fst (handler evCh c)) = handler_outcome evCh
  /\ snd (fst (handler evCh c)) = after_events (received evCh) c.
Proof.
  revert c. induction evCh as [|[| |event] evCh IH]; intros c;
    try (split; reflexivity).
  unfold handler in *. cbn [configMapEventHandler handler_outcome received].
  pose proof (handle_event_refreshing event c) as Hev.
  destruct (handle_event _ _ _ _ _ event c) as [c1 logs]. cbn [fst] in Hev.
  destruct (IH c1) as [Hr Hc].
  destruct (configMapEventHandler _ _ _ _ _ evCh c1) as [[r c2] logs'].
  cbn [fst snd] in *. split; [exact Hr|].
  rewrite Hc, Hev. apply after_events_cons.
Qed.

(** X13: the last event wins.  However many events the handler of the
    config watcher receives before the context ends or the channel of the
    watch is closed, the configuration it leaves is that of the last event
    that adds, modifies or deletes a ConfigMap, refreshed from the data of
    that event (from no data for a deletion) on the configuration it
    started with, of which only the namespace is kept; events of other
    types and events about other objects change nothing.  It returns false
    when the context ended and true when the channel was closed. *)
Theorem configMapEventHandler_last_event (evCh : list HandlerSelect) (c : config) :
  let run := configMapEventHandler ParseConfigYAML Config_String YAMLToJSON
               json_Unmarshal AmendClientConfigFunc evCh c in
  fst (fst run) = handler_outcome evCh
  /\ config_namespace (snd (fst run)) = config_namespace c
  /\ snd (fst run)
     = match last (omap refreshing_data (received evCh)) with
       | Some data =>
           {| config_namespace := config_namespace c;
              clientYAML :=
                fst (refresh_clientYAML ParseConfigYAML Config_String
                       AmendClientConfigFunc data);
              agentEnv := fst (refresh_agentEnv YAMLToJSON json_Unmarshal data) |}
       | None => c
       end.
Proof.
  cbv zeta. destruct (configMapEventHandler_run evCh c) as [Hr Hc]. unfold handler in *.
  split; [exact Hr|]. rewrite Hc. split; [apply after_events_namespace|].
  unfold after_events, config_after_events, refresh, refreshFile.
  destruct (last _) as [data|]; [|reflexivity].
  destruct (refresh_clientYAML _ _ _ _) as [yaml logs1].
  destruct (refresh_agentEnv _ _ _) as [env logs2].
  reflexivity.
Qed.

Let run_for := Run_for ParseConfigYAML Config_String YAMLToJSON json_Unmarshal
                 AmendClientConfigFunc.

Lemma after_events_app (events events' : list watch_Event) (c : config) :
  after_events events' (after_events events c) = after_events (events ++ events') c.
Proof.
  revert c. induction events as [|event events IH]; intros c.
  - reflexivity.
  - cbn [app]. rewrite <- !after_events_cons. apply IH.
Qed.

Lemma Run_for_run (rounds : list RunRound) (c : config) :
  fst (fst (run_for rounds c))
  = match Watch_failure rounds with
    | Some err =>
        Some (Some (ShowError ("unable to create configmap watcher for "
                               +:+ cfgConfigMapName +:+ "." +:+ config_namespace c) err))
    | None => if Run_ends rounds then Some None else None
    end
  /\ snd (fst (run_for rounds c)) = after_events (Run_received rounds) c.
Proof.
  revert c. induction rounds as [|round rounds IH]; intros c.
  - split; reflexivity.
  - unfold run_for in *. cbn [Run_for Watch_failure Run_ends Run_received].
    destruct (round_ctxErr round); [split; reflexivity|].
    destruct (round_Watch round) as [err|evCh]; [split; reflexivity|].
    destruct (configMapEventHandler_run evCh c) as [Hr Hc]. unfold handler in *.
    destruct (configMapEventHandler _ _ _ _ _ evCh c) as [[r c1] logs].
    cbn [fst snd] in *. rewrite <- Hr.
    destruct r as [[|]|]; cbn [fst snd];
      try (split; [reflexivity | rewrite app_nil_r; exact Hc]).
    destruct (IH c1) as [Hr2 Hc2].
    destruct (Run_for _ _ _ _ _ rounds c1) as [[r2 c2] logs'].
    cbn [fst snd] in *. split.
    + rewrite Hr2, Hc, after_events_namespace. reflexivity.
    + rewrite Hc2, Hc. apply after_events_app.
Qed.

(** X14: how [Run] ends and what it leaves.  [Run] returns an error only
    when creating a watch fails, and the error then names the ConfigMap
    and the namespace and shows the failure; it creates a new watch each
    time the channel of the last one is closed, and returns nil when the
    context has ended, at the test of its loop or while it waits for an
    event.  Over all its watches the last event that adds, modifies or
    deletes a ConfigMap determines the configuration it leaves.  Its log
    begins with the line that the watcher started and, once it returns,
    ends with the line that the watcher ended. *)
Theorem Run_outcome (rounds : list RunRound) (c : config) :
  let run := Run ParseConfigYAML Config_String YAMLToJSON json_Unmarshal
               AmendClientConfigFunc rounds c in
  let started := Infof "Started watcher for ConfigMap %s" [CfgString "traffic-manager"] in
  let ended := Infof "Ended watcher for ConfigMap %s" [CfgString "traffic-manager"] in
  fst (fst run)
  = match Watch_failure rounds with
    | Some err =>
        Some (Some (ShowError ("unable to create configmap watcher for traffic-manager."
                               +:+ config_namespace c) err))
    | None => if Run_ends rounds then Some None else None
    end
  /\ snd (fst run)
     = config_after_events ParseConfigYAML Config_String YAMLToJSON json_Unmarshal
         AmendClientConfigFunc (Run_received rounds) c
  /\ head (snd run) = Some started
  /\ (fst (fst run) <> None -> last (snd run) = Some ended).
Proof.
  cbv zeta. unfold Run.
  destruct (Run_for_run rounds c) as [Hr Hc]. unfold run_for in *.
  destruct (Run_for _ _ _ _ _ rounds c) as [[r c1] logs]. cbn [fst snd] in *.
  split; [exact Hr|]. split; [exact Hc|]. split; [reflexivity|].
  intros Hret. destruct r as [ret|]; [|contradiction].
  rewrite app_comm_cons. apply last_snoc.
Qed.

End ConfigWatcherProperties.

Section AmendProperties.

Variable ManagedNamespaces : list string.
Variable ParseConfigYAML : string -> error + client_Config.
Variable Config_String : client_Config -> string.
Variable YAMLToJSON : string -> error + string.
Variable json_Unmarshal : string -> AgentEnv -> AgentEnv * option error.

(** X15: what the watcher serves after a refresh with
    [AmendClientConfig].  Without the file client.yaml there is no client
    configuration.  With it, the file is served as it is when it does not
    parse, and also when the traffic-manager manages no namespaces;
    otherwise the parsed configuration is served in the form [String]
    gives it, with the managed namespaces as its mapped namespaces if it
    has none of its own: mapped namespaces that the file gives are never
    replaced.  Without the file agent-env.yaml the agent environment is
    empty, whatever it was before. *)
Theorem refreshFile_served (data : gmap string string) (c : config) :
  let c' := fst (refreshFile ParseConfigYAML Config_String YAMLToJSON json_Unmarshal
                   (AmendClientConfig ManagedNamespaces) data c) in
  GetClientConfigYaml c'
  = match data !! "client.yaml" with
    | None => None
    | Some yml =>
        match ParseConfigYAML yml with
        | inl _ => Some yml
        | inr cfg =>
            match ManagedNamespaces with
            | [] => Some yml
            | _ :: _ =>
                Some (Config_String
                        {| Cluster_MappedNamespaces :=
                             match Cluster_MappedNamespaces cfg with
                             | [] => ManagedNamespaces
                             | mapped => mapped
                             end;
                           Config_rest := Config_rest cfg |})
            end
        end
    end
  /\ (data !! "agent-env.yaml" = None -> GetAgentEnv c' = {| Excluded := [] |})
  /\ config_namespace c' = config_namespace c.
Proof.
  cbv zeta. unfold refreshFile, refresh_clientYAML, refresh_agentEnv, AmendClientConfig,
    GetClientConfigYaml, GetAgentEnv, clientConfigFileName, agentEnvConfigFileName.
  split; [|split].
  - destruct (data !! "client.yaml") as [yml|];
      [|destruct (data !! "agent-env.yaml"); [destruct (YAMLToJSON _) as [?|?];
          [|destruct (json_Unmarshal _ _)]|]; reflexivity].
    destruct (ParseConfigYAML yml) as [err|cfg];
      [destruct (data !! "agent-env.yaml"); [destruct (YAMLToJSON _) as [?|?];
          [|destruct (json_Unmarshal _ _)]|]; reflexivity|].
    destruct ManagedNamespaces as [|ns managed]; cbn [length Nat.ltb Nat.leb];
      [destruct (data !! "agent-env.yaml"); [destruct (YAMLToJSON _) as [?|?];
          [|destruct (json_Unmarshal _ _)]|]; reflexivity|].
    destruct cfg as [[|m mapped] rest]; cbn [Cluster_MappedNamespaces length Nat.eqb];
      (destruct (data !! "agent-env.yaml"); [destruct (YAMLToJSON _) as [?|?];
          [|destruct (json_Unmarshal _ _)]|]; reflexivity).
  - intros ->.
    destruct (data !! "client.yaml") as [yml|]; [|reflexivity].
    destruct (ParseConfigYAML yml) as [err|cfg]; [reflexivity|].
    destruct (0 <? length ManagedNamespaces)%nat; [|reflexivity].
    destruct (length (Cluster_MappedNamespaces cfg) =? 0)%nat; reflexivity.
  - destruct (data !! "client.yaml") as [yml|];
      [destruct (ParseConfigYAML yml) as [err|cfg];
         [|destruct (0 <? length ManagedNamespaces)%nat;
           [destruct (length (Cluster_MappedNamespaces cfg) =? 0)%nat|]]|];
      (destruct (data !! "agent-env.yaml"); [destruct (YAMLToJSON _) as [?|?];
          [|destruct (json_Unmarshal _ _)]|]; reflexivity).
Qed.

End AmendProperties.

Lemma refreshFile_served_witness :
  GetAgentEnv
    (fst (refreshFile parse_sample render_sample yaml_to_json_sample unmarshal_sample
            (AmendClientConfig ["dev"; "staging"])
            {["client.yaml" := "cluster: {}"]} (NewWatcher "ambassador")))
  = {| Excluded := [] |}.
Proof.
  apply (refreshFile_served ["dev"; "staging"] parse_sample render_sample
           yaml_to_json_sample unmarshal_sample
           {["client.yaml" := "cluster: {}"]} (NewWatcher "ambassador")).
  vm_compute. reflexivity.
Defined.

Lemma Run_outcome_witness :
  last (snd (Run parse_sample render_sample yaml_to_json_sample unmarshal_sample
               (AmendClientConfig [])
               [{| round_ctxErr := false; round_Watch := inr [HandlerClosed] |};
                {| round_ctxErr := true; round_Watch := inr [] |}]
               (NewWatcher "ambassador")))
  = Some (Infof "Ended watcher for ConfigMap %s" [CfgString "traffic-manager"]).
Proof.
  apply (Run_outcome parse_sample render_sample yaml_to_json_sample unmarshal_sample
           (AmendClientConfig [])
           [{| round_ctxErr := false; round_Watch := inr [HandlerClosed] |};
            {| round_ctxErr := true; round_Watch := inr [] |}]
           (NewWatcher "ambassador")).
  vm_compute. discriminate.
Defined.

(** * Properties of the session beyond connecting and listing *)

Ltac xrun_calls :=
  unfold xcall, xanswer, mbind, MX_bind, mret, MX_ret;
  cbn [xworld xworkloads xanswered fst snd].

Ltac xanswer_step :=
  match goal with
  | |- context [handle ?e ?X ?op ?w] =>
      destruct (handle e X op w) as [? ?]; cbn [xworld xworkloads xanswered fst snd]
  | |- context [xhandle ?e ?X ?op ?w] =>
      destruct (xhandle e X op w) as [? ?]; cbn [xworld xworkloads xanswered fst snd]
  end.

Ltac same_xcalls := cbn [xcalls xanswered fst snd]; rewrite <- ?app_assoc; reflexivity.

Lemma count_xcalls_app (p : XCall -> bool) (l k : list XCall) :
  count_xcalls p (l ++ k) = (count_xcalls p l + count_xcalls p k)%nat.
Proof.
  induction l as [|c l IH]; cbn [app count_xcalls]; [reflexivity|].
  destruct (p c); rewrite IH; reflexivity.
Qed.

Section EnvironmentComparison.

Variable LookupEnv : string -> option string.

Lemma envEQ_range_spec (entries : list (string * string)) :
  Forall (fun kv => fst kv <> "") entries ->
  exists b : bool,
    envEQ_range LookupEnv entries = Some b
    /\ (b = true
        <-> Forall (fun kv => env_entry_holds LookupEnv (fst kv) (snd kv)) entries).
Proof.
  induction entries as [|[k v] entries IH]; intros Hne.
  - exists true. split; [reflexivity|]. split; [constructor | reflexivity].
  - apply Forall_cons in Hne as [Hk Hne]. destruct (IH Hne) as (b & Hb & Hiff).
    cbn [fst] in Hk. destruct k as [|k0 k]; [contradiction|].
    cbn [envEQ_range].
    assert (Hcons :
      Forall (fun kv => env_entry_holds LookupEnv (fst kv) (snd kv))
        ((String k0 k, v) :: entries)
      <-> env_entry_holds LookupEnv (String k0 k) v
          /\ Forall (fun kv => env_entry_holds LookupEnv (fst kv) (snd kv)) entries)
      by exact (Forall_cons (fun kv => env_entry_holds LookupEnv (fst kv) (snd kv))
                  (String k0 k, v) entries).
    unfold env_entry_holds at 2 in Hcons.
    case_bool_decide as Hdash.
    + subst k0. change (String "-" "") with "-".
      destruct (LookupEnv "-") as [ov|].
      * exists false. split; [reflexivity|]. rewrite Hcons.
        split; [discriminate | intros [Hl _]; discriminate Hl].
      * exists b. split; [exact Hb|]. rewrite Hcons, Hiff. tauto.
    + destruct (LookupEnv (String k0 k)) as [ov|].
      * case_bool_decide as Hov.
        -- exists false. split; [reflexivity|]. rewrite Hcons.
           split; [discriminate | intros [Hl _]; congruence].
        -- exists b. split; [exact Hb|]. rewrite Hcons, Hiff.
           assert (ov = v) as -> by (destruct (decide (ov = v)); [assumption | contradiction]).
           tauto.
      * exists false. split; [reflexivity|]. rewrite Hcons.
        split; [discriminate | intros [Hl _]; discriminate Hl].
Qed.

(** X16: the comparison of the environment in [UpdateStatus] does not
    depend on the order in which the runtime ranges over the map.  When no
    key of the requested environment is empty, [envEQ] is true exactly when
    every entry holds: a key that does not begin with a dash must be set,
    to the value of the entry; for a key that begins with a dash the
    variable that is looked up is the dash itself, whatever follows it in
    the key, and it must not be set. *)
Theorem envEQ_all_entries (order : RangeOrder string string)
    (Environment : gmap string string) :
  Environment !! "" = None ->
  exists b : bool,
    envEQ order LookupEnv Environment = Some b
    /\ (b = true
        <-> forall k v, Environment !! k = Some v -> env_entry_holds LookupEnv k v).
Proof.
  intros Hempty. unfold envEQ.
  destruct (envEQ_range_spec (range_order order 0 Environment)) as (b & Hb & Hiff).
  - apply Forall_forall. intros [k v] Hin. cbn [fst].
    rewrite (range_order_perm order 0 Environment) in Hin.
    apply elem_of_map_to_list in Hin. intros ->. congruence.
  - exists b. split; [exact Hb|]. rewrite Hiff, Forall_forall. split.
    + intros Hall k v Hkv. apply (Hall (k, v)).
      rewrite (range_order_perm order 0 Environment).
      apply elem_of_map_to_list. exact Hkv.
    + intros Hall [k v] Hin. cbn [fst snd]. apply Hall.
      rewrite (range_order_perm order 0 Environment) in Hin.
      apply elem_of_map_to_list in Hin. exact Hin.
Qed.

End EnvironmentComparison.

Lemma envEQ_all_entries_witness :
  exists b : bool,
    envEQ range_in_key_order LookupEnv_sample Environment_sample = Some b
    /\ (b = true
        <-> forall k v, Environment_sample !! k = Some v ->
                        env_entry_holds LookupEnv_sample k v).
Proof.
  apply (envEQ_all_entries LookupEnv_sample range_in_key_order Environment_sample).
  vm_compute. reflexivity.
Defined.



Section RetryProperties.

Context {W : Type} (xenv : XEnv W).



End RetryProperties.

Example runWithRetry_two_failures :
  let run := runWithRetry xworld_failing 5 CallerContext (xstart 0%nat) in
  fst run = Some tt
  /\ omap slept (xcalls (snd run)) = [100 * Millisecond; 200 * Millisecond].
Proof. vm_compute. split; reflexivity. Qed.

Section UninstallProperties.

Context {W : Type} (xenv : XEnv W).

Let N := agentconfig_ConfigMap xenv.

Lemma only_removes_nil : only_removes N [].
Proof. intros c ns name' data' []. Qed.

Lemma only_removes_app (l k : list XCall) :
  only_removes N l -> only_removes N k -> only_removes N (l ++ k).
Proof.
  intros Hl Hk c ns name' data' Hin Hup. apply in_app_or in Hin as [Hin | Hin].
  - destruct (Hl c ns name' data' Hin Hup) as (Hname & c0 & data & Hin0 & Hgot & Hsub).
    split; [exact Hname|]. exists c0, data.
    split; [apply in_or_app; left; exact Hin0 | auto].
  - destruct (Hk c ns name' data' Hin Hup) as (Hname & c0 & data & Hin0 & Hgot & Hsub).
    split; [exact Hname|]. exists c0, data.
    split; [apply in_or_app; right; exact Hin0 | auto].
Qed.

Lemma only_removes_no_update (l : list XCall) :
  Forall (fun c => updated_data c = None) l -> only_removes N l.
Proof.
  intros Hall c ns name' data' Hin Hup.
  apply (proj1 (List.Forall_forall _ _) Hall) in Hin. congruence.
Qed.

(** What [clearAgentsConfigMap] does, by the answer to its get. *)
Lemma clearAgentsConfigMap_run (ctx : Context) (ns : string) (st : XSt W) :
  let get := OpConfigMapsGet ctx ns N in
  let update := OpConfigMapsUpdate ctx ns N ∅ in
  let got := xhandle xenv _ get (xworld st) in
  let st1 := xanswered get (fst got) (snd got) st in
  clearAgentsConfigMap xenv ctx ns st
  = match fst got with
    | inl err => (if IsNotFound xenv err then None else Some err, st1)
    | inr data =>
        if bool_decide (data <> ∅)
        then (fst (xhandle xenv _ update (snd got)),
              xanswered update (fst (xhandle xenv _ update (snd got)))
                (snd (xhandle xenv _ update (snd got))) st1)
        else (None, st1)
    end.
Proof.
  cbv zeta. unfold clearAgentsConfigMap, loadAgentConfigMap, updateAgentConfigMap.
  fold N. xrun_calls.
  destruct (xhandle xenv _ (OpConfigMapsGet ctx ns N) (xworld st)) as [[err|data] w1];
    cbn [xworld xworkloads xanswered fst snd].
  - destruct (IsNotFound xenv err); reflexivity.
  - case_bool_decide; [|reflexivity]. xrun_calls.
    destruct (xhandle xenv _ (OpConfigMapsUpdate ctx ns N ∅) w1) as [e w2]. reflexivity.
Qed.

Lemma clearAgentsConfigMap_calls (ctx : Context) (ns : string) (st : XSt W) :
  let run := clearAgentsConfigMap xenv ctx ns st in
  exists new : list XCall,
    xcalls (snd run) = xcalls st ++ new
    /\ only_removes N new
    /\ omap got_namespace new = [ns]
    /\ omap removed_intercept new = []
    /\ (forall e, fst run = Some e ->
        exists c, last new = Some c /\ ConfigMaps_error c = Some e)
    /\ Forall (fun c => forall t, updated_data c = Some t -> snd t = ∅) new.
Proof.
  cbv zeta. rewrite clearAgentsConfigMap_run.
  destruct (xhandle xenv _ (OpConfigMapsGet ctx ns N) (xworld st)) as [[err|data] w1];
    cbn [fst snd].
  - eexists. split; [same_xcalls|].
    split; [apply only_removes_no_update; repeat constructor|].
    split; [reflexivity|]. split; [reflexivity|].
    split; [|repeat constructor; intros t [=]].
    intros e He. eexists. split; [reflexivity|]. cbn.
    destruct (IsNotFound xenv err); congruence.
  - case_bool_decide as Hdata.
    + destruct (xhandle xenv _ (OpConfigMapsUpdate ctx ns N ∅) w1) as [e w2]. cbn [fst snd].
      eexists. split; [same_xcalls|]. split; [|split; [reflexivity|split; [reflexivity|]]].
      * intros c ns' name' data' [<- | [<- | []]] Hup; [discriminate Hup|].
        injection Hup as <- <- <-. split; [reflexivity|].
        eexists _, data. split; [left; reflexivity|]. split; [reflexivity|].
        split; [apply map_empty_subseteq | congruence].
      * split; [|repeat constructor; intros t [=]; subst t; reflexivity].
        intros e' He'. eexists. split; [reflexivity|]. cbn. congruence.
    + eexists. split; [same_xcalls|].
      split; [apply only_removes_no_update; repeat constructor|].
      split; [reflexivity|]. split; [reflexivity|].
      split; [intros e [=] | repeat constructor; intros t [=]].
Qed.

Lemma Uninstall_clear_range_calls (ctx : Context) (nss : list string) (st : XSt W) :
  let run := Uninstall_clear_range xenv ctx nss st in
  exists new : list XCall,
    xcalls (snd run) = xcalls st ++ new
    /\ only_removes N new
    /\ omap got_namespace new `prefix_of` nss
    /\ omap removed_intercept new = []
    /\ match fst run with
       | Some e => exists c, last new = Some c /\ ConfigMaps_error c = Some e
       | None => omap got_namespace new = nss
       end
    /\ Forall (fun c => forall t, updated_data c = Some t -> snd t = ∅) new.
Proof.
  cbv zeta. revert st. induction nss as [|ns nss IH]; intros st.
  - exists []. cbn. rewrite app_nil_r.
    split; [reflexivity|]. split; [apply only_removes_nil|].
    split; [reflexivity|]. split; [reflexivity|]. split; [reflexivity | constructor].
  - cbn [Uninstall_clear_range]. unfold mbind, MX_bind, mret, MX_ret.
    destruct (clearAgentsConfigMap_calls ctx ns st)
      as (new1 & Hnew1 & Hsafe1 & Hgot1 & Hrem1 & Herr1 & Hempty1).
    destruct (clearAgentsConfigMap xenv ctx ns st) as [[e|] st1]; cbn [fst snd] in *.
    + exists new1. split; [exact Hnew1|]. split; [exact Hsafe1|].
      split; [rewrite Hgot1; exists nss; reflexivity|]. split; [exact Hrem1|].
      split; [apply Herr1; reflexivity | exact Hempty1].
    + destruct (IH st1) as (new2 & Hnew2 & Hsafe2 & Hgot2 & Hrem2 & Hres2 & Hempty2).
      exists (new1 ++ new2). split; [rewrite Hnew2, Hnew1, app_assoc; reflexivity|].
      split; [apply only_removes_app; assumption|].
      rewrite !omap_app, Hgot1, Hrem1, Hrem2. cbn [app].
      split; [apply prefix_cons; exact Hgot2|]. split; [reflexivity|].
      split; [|apply Forall_app; split; assumption].
      destruct (fst (Uninstall_clear_range xenv ctx nss st1)) as [e|].
      * destruct Hres2 as (c & Hlast & Herr). exists c. split; [|exact Herr].
        apply last_app_Some. left. exact Hlast.
      * rewrite Hres2. reflexivity.
Qed.

Lemma Uninstall_removeIntercept_calls (ctx : Context) (namespace an : string)
    (ics : list InterceptInfo) (st : XSt W) :
  exists new : list XCall,
    xcalls (snd (Uninstall_removeIntercept xenv ctx namespace an ics st)) = xcalls st ++ new
    /\ Forall (fun c => is_Some (removed_intercept c)) new
    /\ omap removed_intercept new = option_list (first_intercept namespace an ics).
Proof.
  unfold first_intercept. induction ics as [|ic ics IH].
  - exists []. cbn. rewrite app_nil_r. repeat split. constructor.
  - cbn [Uninstall_removeIntercept List.find].
    destruct (bool_decide (spec_Namespace (ii_Spec ic) = namespace)
              && bool_decide (spec_Agent (ii_Spec ic) = an)).
    + xrun_calls. xanswer_step. eexists. split; [same_xcalls|].
      split; [repeat constructor; eexists; reflexivity | reflexivity].
    + exact IH.
Qed.

Lemma Uninstall_agents_calls (ctx : Context) (namespace : string) (ics : list InterceptInfo)
    (agents : list string) (data : gmap string string) (changed : bool) (st : XSt W) :
  let run := Uninstall_agents xenv ctx namespace ics agents data changed st in
  exists new : list XCall,
    xcalls (snd run) = xcalls st ++ new
    /\ Forall (fun c => is_Some (removed_intercept c)) new
    /\ omap removed_intercept new
       = omap (fun an => first_intercept namespace an ics) agents
    /\ (forall k, fst (fst run) !! k
                  = if bool_decide (k ∈ agents) then None else data !! k)
    /\ (snd (fst run) = true
        <-> changed = true \/ exists an, an ∈ agents /\ is_Some (data !! an)).
Proof.
  cbv zeta. revert data changed st.
  induction agents as [|an agents IH]; intros data changed st.
  - exists []. cbn. rewrite app_nil_r. split; [reflexivity|]. split; [constructor|].
    split; [reflexivity|]. split.
    + intros k. rewrite bool_decide_eq_false_2 by (apply not_elem_of_nil). reflexivity.
    + split; [intros ->; left; reflexivity|].
      intros [-> | (an & Hin & _)]; [reflexivity|]. apply elem_of_nil in Hin as [].
  - cbn [Uninstall_agents]. unfold mbind, MX_bind, mret, MX_ret.
    destruct (Uninstall_removeIntercept_calls ctx namespace an ics st)
      as (new1 & Hnew1 & Hall1 & Hrem1).
    destruct (Uninstall_removeIntercept xenv ctx namespace an ics st) as [[] st1].
    cbn [fst snd] in *.
    destruct (data !! an) as [v|] eqn:Han.
    + destruct (IH (delete an data) true st1) as (new2 & Hnew2 & Hall2 & Hrem2 & Hdata & Hch).
      exists (new1 ++ new2). split; [rewrite Hnew2, Hnew1, app_assoc; reflexivity|].
      split; [apply Forall_app; split; assumption|].
      split.
      { rewrite omap_app, Hrem1, Hrem2. cbn [omap list_omap].
        destruct (first_intercept namespace an ics); reflexivity. }
      split.
      * intros k. rewrite Hdata.
        destruct (decide (k = an)) as [-> | Hk].
        -- rewrite (bool_decide_eq_true_2 (an ∈ an :: agents)) by (left).
           case_bool_decide; [reflexivity | apply lookup_delete_eq].
        -- rewrite lookup_delete_ne by congruence.
           case_bool_decide as Hin.
           ++ rewrite bool_decide_eq_true_2 by (right; exact Hin). reflexivity.
           ++ rewrite bool_decide_eq_false_2; [reflexivity|].
              intros Hin'. apply elem_of_cons in Hin' as [? | ?]; contradiction.
      * split; [|intros _; apply Hch; left; reflexivity].
        intros _. right. exists an. split; [left | eexists; exact Han].
    + destruct (IH data changed st1) as (new2 & Hnew2 & Hall2 & Hrem2 & Hdata & Hch).
      exists (new1 ++ new2). split; [rewrite Hnew2, Hnew1, app_assoc; reflexivity|].
      split; [apply Forall_app; split; assumption|].
      split.
      { rewrite omap_app, Hrem1, Hrem2. cbn [omap list_omap].
        destruct (first_intercept namespace an ics); reflexivity. }
      split.
      * intros k. rewrite Hdata.
        destruct (decide (k = an)) as [-> | Hk].
        -- rewrite (bool_decide_eq_true_2 (an ∈ an :: agents)) by (left).
           case_bool_decide; [reflexivity | exact Han].
        -- case_bool_decide as Hin.
           ++ rewrite bool_decide_eq_true_2 by (right; exact Hin). reflexivity.
           ++ rewrite bool_decide_eq_false_2; [reflexivity|].
              intros Hin'. apply elem_of_cons in Hin' as [? | ?]; contradiction.
      * rewrite Hch. split.
        -- intros [Hc | (an' & Hin & Hsome)]; [left; exact Hc|].
           right. exists an'. split; [right; exact Hin | exact Hsome].
        -- intros [Hc | (an' & Hin & Hsome)]; [left; exact Hc|].
           apply elem_of_cons in Hin as [-> | Hin].
           ++ rewrite Han in Hsome. destruct Hsome as [? [=]].
           ++ right. exists an'. split; assumption.
Qed.

End UninstallProperties.

Section UninstallTheorems.

Context {W : Type} (xenv : XEnv W).

Let N := agentconfig_ConfigMap xenv.

Lemma first_intercept_Some (namespace an : string) (ics : list InterceptInfo)
    (ic : InterceptInfo) :
  first_intercept namespace an ics = Some ic ->
  In ic ics /\ spec_Namespace (ii_Spec ic) = namespace /\ spec_Agent (ii_Spec ic) = an.
Proof.
  unfold first_intercept. intros Hfind. apply find_some in Hfind as [Hin Hp].
  apply andb_prop in Hp as [Hns Han].
  apply bool_decide_eq_true in Hns. apply bool_decide_eq_true in Han. auto.
Qed.

Lemma removals_no_update (l : list XCall) :
  Forall (fun c => is_Some (removed_intercept c)) l ->
  Forall (fun c => updated_data c = None) l
  /\ omap got_namespace l = [].
Proof.
  induction 1 as [|c l Hc _ [IH1 IH2]]; [split; [constructor | reflexivity]|].
  destruct c as [X op x]; destruct op; destruct Hc as [removed Hic]; try discriminate Hic.
  split; [constructor; [reflexivity | exact IH1] | exact IH2].
Qed.

(** What a run of [Uninstall] for named agents does once the ConfigMap
    of the agents is read. *)
Lemma Uninstall_named_run (s : session) (ctx : Context) (ur : UninstallRequest)
    (st : XSt W) (data : gmap string string) :
  let ns0 := if bool_decide (ur_Namespace ur = "") then Namespace s else ur_Namespace ur in
  let actual := handle (xbase xenv) _ (OpActualNamespace ns0) (xworld st) in
  let get := OpConfigMapsGet ctx (fst actual) N in
  let got := xhandle xenv _ get (snd actual) in
  let ics := fst (handle (xbase xenv) _ OpGetCurrentIntercepts (snd got)) in
  let run := Uninstall xenv s ctx ur st in
  ur_UninstallType ur = UninstallRequest_NAMED_AGENTS ->
  fst actual <> "" ->
  fst got = inr data ->
  exists removes updates : list XCall,
    xcalls (snd run)
    = xcalls st
      ++ [XCalled (OpBase (OpActualNamespace ns0)) (fst actual);
          XCalled get (inr data);
          XCalled (OpBase OpGetCurrentIntercepts) ics]
      ++ removes ++ updates
    /\ Forall (fun c => is_Some (removed_intercept c)) removes
    /\ omap removed_intercept removes
       = omap (fun an => first_intercept (fst actual) an ics) (ur_Agents ur)
    /\ ((forall an, an ∈ ur_Agents ur -> data !! an = None) ->
        updates = [] /\ fst run = inr (ToResult None))
    /\ ((exists an, an ∈ ur_Agents ur /\ is_Some (data !! an)) ->
        exists data' err,
          updates = [XCalled (OpConfigMapsUpdate ctx (fst actual) N data') err]
          /\ (forall k, data' !! k
                        = if bool_decide (k ∈ ur_Agents ur) then None else data !! k)
          /\ fst run = inr (ToResult (ApiK8sError <$> err))).
Proof.
  cbv zeta. intros Htype Hmapped Hgot.
  unfold Uninstall, loadAgentConfigMap, updateAgentConfigMap. rewrite Htype. fold N.
  xrun_calls.
  destruct (handle (xbase xenv) _ (OpActualNamespace _) (xworld st)) as [namespace w1].
  cbn [xworld xworkloads xanswered fst snd] in *.
  rewrite bool_decide_eq_false_2 by exact Hmapped.
  cbn [xworld xworkloads xanswered fst snd].
  destruct (xhandle xenv _ (OpConfigMapsGet ctx namespace N) w1) as [got w2].
  cbn [xworld xworkloads xanswered fst snd] in *. subst got.
  cbn [xworld xworkloads xanswered fst snd].
  destruct (handle (xbase xenv) _ OpGetCurrentIntercepts w2) as [ics w3].
  cbn [xworld xworkloads xanswered fst snd].
  match goal with
  | |- context [Uninstall_agents xenv ctx namespace ics (ur_Agents ur) data false ?st'] =>
      destruct (Uninstall_agents_calls xenv ctx namespace ics (ur_Agents ur) data false st')
        as (removes & Hcalls & Hall & Hrem & Hdata & Hch);
      destruct (Uninstall_agents xenv ctx namespace ics (ur_Agents ur) data false st')
        as [[data' changed] st4]
  end.
  cbn [fst snd xcalls xanswered] in *.
  destruct changed.
  - destruct (xhandle xenv _ (OpConfigMapsUpdate ctx namespace N data') (xworld st4))
      as [err w5]. cbn [fst snd xcalls xanswered].
    exists removes, [XCalled (OpConfigMapsUpdate ctx namespace N data') err].
    split; [rewrite Hcalls, <- !app_assoc; reflexivity|].
    split; [exact Hall|]. split; [exact Hrem|]. split.
    + intros Hnone. exfalso.
      destruct (proj1 Hch eq_refl) as [[=] | (an & Hin & Hsome)].
      rewrite (Hnone an Hin) in Hsome. destruct Hsome as [? [=]].
    + intros _. exists data', err. split; [reflexivity|]. split; [exact Hdata | reflexivity].
  - cbn [fst snd]. exists removes, [].
    split; [rewrite Hcalls, app_nil_r, <- !app_assoc; reflexivity|].
    split; [exact Hall|]. split; [exact Hrem|]. split.
    + intros _. split; reflexivity.
    + intros Hsome. exfalso.
      assert (false = true) as [=]. apply Hch. right. exact Hsome.
Qed.

(** X18: [Uninstall] only ever takes entries away.  In every run, every
    update of a ConfigMap writes the ConfigMap of the agents of a namespace
    whose ConfigMap the run has read, with some of the entries it read and
    not all of them: no entry is added or changed, and nothing is written
    when nothing is removed.  Every intercept the run removes by name is
    one of the current intercepts, in the namespace the request resolves
    to, on one of the agents the request names.  The run returns an error
    only for a request that is neither for named agents nor for all, and it
    has then done nothing. *)
Theorem Uninstall_only_removes (s : session) (ctx : Context) (ur : UninstallRequest)
    (st : XSt W) :
  let run := Uninstall xenv s ctx ur st in
  exists new : list XCall,
    xcalls (snd run) = xcalls st ++ new
    /\ only_removes (agentconfig_ConfigMap xenv) new
    /\ (forall ic, In ic (omap removed_intercept new) ->
        ur_UninstallType ur = UninstallRequest_NAMED_AGENTS
        /\ spec_Agent (ii_Spec ic) ∈ ur_Agents ur
        /\ exists ns namespace ics,
             In (XCalled (OpBase (OpActualNamespace ns)) namespace) new
             /\ In (XCalled (OpBase OpGetCurrentIntercepts) ics) new
             /\ In ic ics /\ spec_Namespace (ii_Spec ic) = namespace)
    /\ match ur_UninstallType ur with
       | UninstallRequest_UNSPECIFIED =>
           fst run = inl (StatusError codes.InvalidArgument "invalid uninstall request")
           /\ new = []
       | _ => exists r, fst run = inr r
       end.
Proof.
  cbv zeta. fold N.
  destruct (ur_UninstallType ur) eqn:Htype.
  - (* neither *)
    unfold Uninstall. rewrite Htype. exists []. cbn. rewrite app_nil_r.
    split; [reflexivity|]. split; [apply only_removes_nil|].
    split; [intros ic []|]. split; reflexivity.
  - (* named agents *)
    pose proof (Uninstall_named_run s ctx ur st) as Hnamed. cbv zeta in Hnamed.
    unfold Uninstall, loadAgentConfigMap in *. rewrite Htype in *. fold N in Hnamed |- *.
    revert Hnamed. xrun_calls.
    destruct (handle (xbase xenv) _ (OpActualNamespace _) (xworld st)) as [namespace w1].
    cbn [xworld xworkloads xanswered fst snd].
    case_bool_decide as Hmapped.
    { intros _. eexists. split; [same_xcalls|].
      split; [apply only_removes_no_update; repeat constructor|].
      split; [intros ic []|]. eexists. reflexivity. }
    cbn [xworld xworkloads xanswered fst snd].
    destruct (xhandle xenv _ (OpConfigMapsGet ctx namespace N) w1) as [[err|data] w2];
      cbn [xworld xworkloads xanswered fst snd].
    { intros _. destruct (IsNotFound xenv err);
        (eexists; split; [same_xcalls|]);
        (split; [apply only_removes_no_update; repeat constructor|]);
        (split; [intros ic []|]); eexists; reflexivity. }
    intros Hnamed.
    destruct (Hnamed data eq_refl Hmapped eq_refl)
      as (removes & updates & Hcalls & Hall & Hrem & Hnone & Hsome).
    destruct (removals_no_update removes Hall) as [Hnoup _].
    eexists. split; [exact Hcalls|].
    assert (Hagents :
      (forall an, an ∈ ur_Agents ur -> data !! an = None)
      \/ exists an, an ∈ ur_Agents ur /\ is_Some (data !! an)).
    { clear. induction (ur_Agents ur) as [|an l IH].
      - left. intros an Hin. apply elem_of_nil in Hin as [].
      - destruct (data !! an) as [v|] eqn:Han.
        + right. exists an. split; [left | eexists; exact Han].
        + destruct IH as [IH | (an' & Hin & Hs)].
          * left. intros an' Hin. apply elem_of_cons in Hin as [-> | Hin]; auto.
          * right. exists an'. split; [right; exact Hin | exact Hs]. }
    split; [|split].
    + destruct Hagents as [Hno | Hyes].
      * destruct (Hnone Hno) as [-> _]. rewrite app_nil_r.
        apply only_removes_no_update. repeat constructor. exact Hnoup.
      * destruct (Hsome Hyes) as (data' & err & -> & Hdata & _).
        intros c ns name' d Hin Hup.
        assert (c = XCalled (OpConfigMapsUpdate ctx namespace N data') err) as ->.
        { destruct Hin as [<- | [<- | [<- | Hin]]]; try discriminate Hup.
          cbn [app] in Hin. apply in_app_or in Hin as [Hin | Hin];
            [|cbn in Hin; destruct Hin as [<- | Hin]; [reflexivity | destruct Hin]].
          apply (proj1 (List.Forall_forall _ _) Hnoup) in Hin. congruence. }
        injection Hup as <- <- <-. split; [reflexivity|].
        eexists _, data. split; [right; left; reflexivity|]. split; [reflexivity|].
        split.
        -- apply map_subseteq_spec. intros k v. rewrite Hdata.
           destruct (decide (k ∈ ur_Agents ur)) as [Hk | Hk];
             [rewrite bool_decide_eq_true_2 by exact Hk; intros [=]
             |rewrite bool_decide_eq_false_2 by exact Hk; intros Hv; exact Hv].
        -- destruct Hyes as (an & Hin' & [v Hv]). intros Heq.
           specialize (Hdata an). rewrite bool_decide_eq_true_2 in Hdata by exact Hin'.
           congruence.
    + intros ic Hin. split; [reflexivity|].
      assert (Hin' : In ic (omap removed_intercept removes)).
      { cbn [app omap list_omap removed_intercept] in Hin.
        rewrite omap_app in Hin. apply in_app_or in Hin as [Hin | Hin]; [exact Hin|].
        exfalso. destruct Hagents as [Hno | Hyes].
        - destruct (Hnone Hno) as [-> _]. destruct Hin.
        - destruct (Hsome Hyes) as (data' & err & -> & _). destruct Hin. }
      rewrite Hrem in Hin'. apply list_elem_of_In, list_elem_of_omap in Hin'.
      destruct Hin' as (an & Han & Hfirst).
      apply first_intercept_Some in Hfirst as (Hics & Hns & Hag).
      split; [rewrite Hag; exact Han|].
      eexists _, namespace, _. split; [left; reflexivity|].
      split; [right; right; left; reflexivity|]. split; [exact Hics | exact Hns].
    + destruct Hagents as [Hno | Hyes].
      * destruct (Hnone Hno) as [_ ->]. eexists. reflexivity.
      * destruct (Hsome Hyes) as (data' & err & _ & _ & ->). eexists. reflexivity.
  - (* all agents *)
    unfold Uninstall. rewrite Htype. xrun_calls.
    destruct (xhandle xenv _ (OpClearIngestsAndIntercepts ctx) (xworld st)) as [cleared w1].
    cbn [xworld xworkloads xanswered fst snd].
    case_bool_decide as Hns; cbn [xworld xworkloads xanswered fst snd].
    + destruct (handle (xbase xenv) _ (OpActualNamespace _) w1) as [namespace w2].
      cbn [xworld xworkloads xanswered fst snd].
      case_bool_decide as Hmapped; cbn [xworld xworkloads xanswered fst snd].
      { eexists. split; [same_xcalls|].
        split; [apply only_removes_no_update; repeat constructor|].
        split; [intros ic []|]. eexists. reflexivity. }
      match goal with
      | |- context [clearAgentsConfigMap xenv ctx namespace ?st'] =>
          destruct (clearAgentsConfigMap_calls xenv ctx namespace st')
            as (new & Hcalls & Hsafe & _ & Hrem & _ & _);
          destruct (clearAgentsConfigMap xenv ctx namespace st') as [err st3]
      end.
      cbn [fst snd xcalls xanswered] in *.
      eexists (_ :: _ :: new). split; [rewrite Hcalls, <- !app_assoc; reflexivity|].
      split; [|split; [|eexists; reflexivity]].
      * apply (only_removes_app xenv [_; _] new);
          [apply only_removes_no_update; repeat constructor | exact Hsafe].
      * cbn [omap list_omap removed_intercept]. fold (omap removed_intercept new).
        rewrite Hrem. intros ic [].
    + destruct (xhandle xenv _ (OpGetCurrentNamespaces true) w1) as [nss w2].
      cbn [xworld xworkloads xanswered fst snd].
      match goal with
      | |- context [Uninstall_clear_range xenv ctx nss ?st'] =>
          destruct (Uninstall_clear_range_calls xenv ctx nss st')
            as (new & Hcalls & Hsafe & _ & Hrem & _ & _);
          destruct (Uninstall_clear_range xenv ctx nss st') as [err st3]
      end.
      cbn [fst snd xcalls xanswered] in *.
      eexists (_ :: _ :: new). split; [rewrite Hcalls, <- !app_assoc; reflexivity|].
      split; [|split; [|eexists; reflexivity]].
      * apply (only_removes_app xenv [_; _] new);
          [apply only_removes_no_update; repeat constructor | exact Hsafe].
      * cbn [omap list_omap removed_intercept]. fold (omap removed_intercept new).
        rewrite Hrem. intros ic [].
Qed.

End UninstallTheorems.

Section UninstallPaths.

Context {W : Type} (xenv : XEnv W).

(** X19: uninstalling named agents.  When the request is for named
    agents, its namespace (the connected one when it gives none) is
    mapped, and the ConfigMap of the agents of that namespace is read, the
    run fetches the current intercepts once; then, for each named agent in
    the order of the request, it removes the first current intercept on
    that agent in that namespace, if there is one, whether or not the
    agent has an entry.  It updates the ConfigMap, once, exactly when one
    of the named agents has an entry in what was read, and what it writes
    is what was read without the entries of the named agents; the result
    is that of the update.  When no named agent has an entry, nothing is
    written and the result is success. *)
Theorem Uninstall_named_agents (s : session) (ctx : Context) (ur : UninstallRequest)
    (st : XSt W) (data : gmap string string) :
  let N := agentconfig_ConfigMap xenv in
  let ns0 := if bool_decide (ur_Namespace ur = "") then Namespace s else ur_Namespace ur in
  let actual := handle (xbase xenv) _ (OpActualNamespace ns0) (xworld st) in
  let get := OpConfigMapsGet ctx (fst actual) N in
  let got := xhandle xenv _ get (snd actual) in
  let ics := fst (handle (xbase xenv) _ OpGetCurrentIntercepts (snd got)) in
  let run := Uninstall xenv s ctx ur st in
  ur_UninstallType ur = UninstallRequest_NAMED_AGENTS ->
  fst actual <> "" ->
  fst got = inr data ->
  exists removes updates : list XCall,
    xcalls (snd run)
    = xcalls st
      ++ [XCalled (OpBase (OpActualNamespace ns0)) (fst actual);
          XCalled get (inr data);
          XCalled (OpBase OpGetCurrentIntercepts) ics]
      ++ removes ++ updates
    /\ Forall (fun c => is_Some (removed_intercept c)) removes
    /\ omap removed_intercept removes
       = omap (fun an => first_intercept (fst actual) an ics) (ur_Agents ur)
    /\ ((forall an, an ∈ ur_Agents ur -> data !! an = None) ->
        updates = [] /\ fst run = inr (ToResult None))
    /\ ((exists an, an ∈ ur_Agents ur /\ is_Some (data !! an)) ->
        exists data' err,
          updates = [XCalled (OpConfigMapsUpdate ctx (fst actual) N data') err]
          /\ (forall k, data' !! k
                        = if bool_decide (k ∈ ur_Agents ur) then None else data !! k)
          /\ fst run = inr (ToResult (ApiK8sError <$> err))).
Proof.
  exact (Uninstall_named_run xenv s ctx ur st data).
Qed.



End UninstallPaths.

Lemma Uninstall_named_agents_witness :
  exists data' err,
    In (XCalled (OpConfigMapsUpdate CallerContext "default" "telepresence-agents" data') err)
      (xcalls (snd (Uninstall xworld_agents session0 CallerContext uninstall_web_db
                      (xstart 0%nat))))
    /\ data' !! "web" = None
    /\ data' !! "api" = Some "agent: api".
Proof.
  assert (Hmapped : fst (handle (xbase xworld_agents) _
                           (OpActualNamespace
                              (if bool_decide (ur_Namespace uninstall_web_db = "")
                               then Namespace session0
                               else ur_Namespace uninstall_web_db))
                           (xworld (xstart 0%nat))) <> "")
    by (vm_compute; discriminate).
  destruct (Uninstall_named_agents xworld_agents session0 CallerContext uninstall_web_db
              (xstart 0%nat) agents_web_api eq_refl Hmapped eq_refl)
    as (removes & updates & Hcalls & _ & _ & _ & Hsome).
  destruct Hsome as (data' & err & Hup & Hdata & _).
  { exists "web". split; [left|]. exists "agent: web". vm_compute. reflexivity. }
  exists data', err. split; [|split].
  - rewrite Hcalls, Hup. apply in_or_app. right.
    apply in_or_app. right. apply in_or_app. right. left. reflexivity.
  - rewrite Hdata. vm_compute. reflexivity.
  - rewrite Hdata. vm_compute. reflexivity.
Defined.



Lemma last_cons_keep {A : Type} (a : A) (k : list A) (x : A) :
  last k = Some x -> last (a :: k) = Some x.
Proof. intros H. rewrite last_cons, H. reflexivity. Qed.

Lemma last_end {A : Type} (l k : list A) (x : A) :
  last k = Some x -> last (l ++ k) = Some x.
Proof. intros H. apply last_app_Some. left. exact H. Qed.

Section RemoteWatcherProperties.

Context {W : Type} (xenv : XEnv W).

Lemma workloadsWatcher_events_run (namespace : string) (events : list rpc_WorkloadEvent)
    (workloads : gmap workloadInfoKey workloadInfo) (st : XSt W) :
  let run := workloadsWatcher_events xenv namespace events workloads st in
  (forall k,
     fst run !! k
     = match last (remote_events_of k events) with
       | Some we =>
           if bool_decide (rwe_Type we = WorkloadEvent_DELETED) then None
           else Some (remote_info (rwe_Workload we))
       | None => workloads !! k
       end)
  /\ xworld (snd run) = xworld (snd run)
  /\ xworkloads (snd run) = xworkloads st
  /\ exists new : list XCall,
       xcalls (snd run) = xcalls st ++ new
       /\ length new = length events
       /\ count_xcalls is_xWgDone new = 0%nat
       /\ count_xcalls is_xLock new = 0%nat
       /\ count_xcalls is_xUnlock new = 0%nat
       /\ count_xcalls is_Recv new = 0%nat.
Proof.
  cbv zeta. revert workloads st. unfold remote_events_of.
  induction events as [|we events IH]; intros workloads st.
  - split; [intros k; reflexivity|]. split; [reflexivity|]. split; [reflexivity|].
    exists []. cbn. rewrite app_nil_r. repeat split.
  - cbn [workloadsWatcher_events].
    assert (Hlast : forall k,
      match last (filter (fun we0 => remote_key (rwe_Workload we0) = k) (we :: events)) with
      | Some we0 =>
          if bool_decide (rwe_Type we0 = WorkloadEvent_DELETED) then None
          else Some (remote_info (rwe_Workload we0))
      | None => workloads !! k
      end
      = match last (filter (fun we0 => remote_key (rwe_Workload we0) = k) events) with
        | Some we0 =>
            if bool_decide (rwe_Type we0 = WorkloadEvent_DELETED) then None
            else Some (remote_info (rwe_Workload we0))
        | None =>
            (if bool_decide (rwe_Type we = WorkloadEvent_DELETED)
             then delete (remote_key (rwe_Workload we)) workloads
             else <[remote_key (rwe_Workload we) := remote_info (rwe_Workload we)]>
                    workloads) !! k
        end).
    { intros k. rewrite filter_cons.
      destruct (decide (remote_key (rwe_Workload we) = k)) as [Hk | Hk].
      - rewrite last_cons.
        destruct (last (filter _ events)) as [we'|]; [reflexivity|].
        rewrite <- Hk. destruct (bool_decide (rwe_Type we = WorkloadEvent_DELETED)).
        + symmetry. apply lookup_delete_eq.
        + symmetry. apply lookup_insert_eq.
      - destruct (last (filter _ events)) as [we'|]; [reflexivity|].
        destruct (bool_decide (rwe_Type we = WorkloadEvent_DELETED)).
        + symmetry. apply lookup_delete_ne. exact Hk.
        + symmetry. apply lookup_insert_ne. exact Hk. }
    destruct (bool_decide (rwe_Type we = WorkloadEvent_DELETED)); xrun_calls;
      xanswer_step;
      match goal with
      | |- context [workloadsWatcher_events xenv namespace events ?m ?st'] =>
          destruct (IH m st') as (Hmap & _ & Hws & new & Hnew & Hlen & Hd & Hl & Hu & Hr);
          destruct (workloadsWatcher_events xenv namespace events m st') as [m' st'']
      end; cbn [fst snd xcalls xworkloads xanswered] in *;
      (split; [intros k; rewrite Hlast; apply Hmap|]);
      (split; [reflexivity|]); (split; [exact Hws|]);
      (eexists (_ :: new); split; [rewrite Hnew, <- app_assoc; reflexivity|]);
      cbn [length count_xcalls is_xWgDone is_xLock is_xUnlock is_Recv];
      rewrite Hlen, Hd, Hl, Hu, Hr; repeat split.
Qed.

Lemma workloadsWatcher_for_sync (fuel : nat) (ctx : Context) (namespace : string)
    (synced : bool) (st : XSt W) :
  let run := workloadsWatcher_for xenv fuel ctx namespace synced st in
  exists new : list XCall,
    xcalls (snd run) = xcalls st ++ new
    /\ count_xcalls is_xLock new = count_xcalls is_xUnlock new
    /\ (count_xcalls is_xLock new <= count_xcalls is_Recv new)%nat
    /\ (count_xcalls is_Recv new <= fuel)%nat
    /\ match fst run with
       | Some (ret, synced') =>
           (count_xcalls is_xWgDone new + owed synced')%nat = owed synced
           /\ (ret = None ->
               exists e, last new = Some (XCalled (OpBase (OpCtxErr ctx)) (Some e)))
       | None => (count_xcalls is_xWgDone new <= owed synced)%nat
       end.
Proof.
  cbv zeta. revert synced st. induction fuel as [|fuel IH]; intros synced st.
  - exists []. cbn. rewrite app_nil_r. repeat split; lia.
  - cbn [workloadsWatcher_for]. unfold xlock_workloads, xstore_workloads. xrun_calls.
    destruct (handle (xbase xenv) _ (OpCtxErr ctx) (xworld st)) as [[e|] w1];
      cbn [xworld xworkloads xanswered fst snd].
    { eexists. split; [same_xcalls|]. cbn. repeat split; try lia.
      intros _. exists e. reflexivity. }
    destruct (xhandle xenv _ OpRecv w1) as [[err|wls] w2];
      cbn [xworld xworkloads xanswered fst snd].
    { eexists. split; [same_xcalls|]. cbn. repeat split; try lia. intros [=]. }
    destruct (handle (xbase xenv) _ (OpWorkloadsLock (xworkloads st)) w2) as [ws w3].
    cbn [xworld xworkloads xanswered fst snd xcalls].
    match goal with
    | |- context [workloadsWatcher_events xenv namespace wls ?m ?st'] =>
        destruct (workloadsWatcher_events_run namespace wls m st')
          as (_ & _ & _ & ne & Hne & _ & Hde & Hle & Hue & Hre);
        destruct (workloadsWatcher_events xenv namespace wls m st') as [m' st3]
    end.
    cbn [fst snd xcalls xworld xworkloads] in *.
    repeat xanswer_step.
    destruct synced; xrun_calls; repeat xanswer_step;
      match goal with
      | |- context [workloadsWatcher_for xenv fuel ctx namespace false ?st'] =>
          destruct (IH false st') as (new & Hnew & Hlock & Hlr & Hfuel & Hdone);
          destruct (workloadsWatcher_for xenv fuel ctx namespace false st')
            as [[[ret synced']|] st'']
      end; cbn [fst snd xcalls xanswered] in *; rewrite Hnew, Hne, <- ?app_assoc;
      (eexists; split; [reflexivity|]);
      rewrite ?count_xcalls_app; cbn [app];
      cbn [count_xcalls is_xWgDone is_xLock is_xUnlock is_Recv];
      rewrite ?count_xcalls_app, ?Hde, ?Hle, ?Hue, ?Hre; cbn [owed] in *;
      try destruct Hdone as [Hdone Hnil];
      (repeat split; try lia);
      intros Hret; destruct (Hnil Hret) as (e & He); exists e;
      repeat first [exact He | apply last_cons_keep | apply last_end].
Qed.

(** X22: the watcher of the manager's workload events signals its wait
    group once and only once.  When [workloadsWatcher] returns, whatever
    the reason, it has called [synced.Done()] exactly once if it was given
    a wait group and never otherwise; as long as it runs it has called it
    at most once.  It releases the workloads lock as often as it takes it,
    and takes it at most once for each batch it receives.  It returns nil
    only when the context has ended.  When the manager refuses the watch,
    the watcher returns without receiving or taking the lock: a user error
    with the message of the status for the code FailedPrecondition, the
    error as it is in every other case. *)
Theorem workloadsWatcher_signals_once (fuel : nat) (s : session) (ctx : Context)
    (namespace : string) (synced : bool) (st : XSt W) :
  let run := workloadsWatcher xenv fuel s ctx namespace synced st in
  let watch := OpWatchWorkloads ctx (sessionInfo s) namespace in
  exists new : list XCall,
    xcalls (snd run) = xcalls st ++ new
    /\ count_xcalls is_xLock new = count_xcalls is_xUnlock new
    /\ (count_xcalls is_xLock new <= count_xcalls is_Recv new)%nat
    /\ (count_xcalls is_Recv new <= fuel)%nat
    /\ match fst run with
       | Some ret =>
           count_xcalls is_xWgDone new = owed synced
           /\ (ret = None ->
               exists e, In (XCalled (OpBase (OpCtxErr ctx)) (Some e)) new)
       | None => (count_xcalls is_xWgDone new <= owed synced)%nat
       end
    /\ (forall err, fst (xhandle xenv _ watch (xworld st)) = Some err ->
        fst run
        = Some (Some match status_FromError err with
                     | Some (codes.FailedPrecondition, msg) => UserError msg
                     | _ => err
                     end)
        /\ count_xcalls is_Recv new = 0%nat
        /\ count_xcalls is_xLock new = 0%nat).
Proof.
  cbv zeta. unfold workloadsWatcher. xrun_calls.
  destruct (xhandle xenv _ (OpWatchWorkloads ctx (sessionInfo s) namespace) (xworld st))
    as [[err|] w1]; cbn [xworld xworkloads xanswered fst snd].
  - destruct (status_FromError err) as [[code msg]|] eqn:Hst; [destruct code|];
      destruct synced; xrun_calls; repeat xanswer_step;
      (eexists; split; [same_xcalls|]);
      cbn [app count_xcalls is_xWgDone is_xLock is_xUnlock is_Recv owed fst snd];
      (split; [reflexivity|]); (split; [lia|]); (split; [lia|]);
      (split; [split; [reflexivity | intros [=]]|]);
      intros err' [= <-]; rewrite Hst; repeat split.
  - match goal with
    | |- context [workloadsWatcher_for xenv fuel ctx namespace synced ?st'] =>
        destruct (workloadsWatcher_for_sync fuel ctx namespace synced st')
          as (new & Hnew & Hlock & Hlr & Hfuel & Hdone);
        destruct (workloadsWatcher_for xenv fuel ctx namespace synced st')
          as [[[ret synced']|] st2]
    end; cbn [fst snd xcalls xanswered] in *.
    + destruct Hdone as [Hdone Hnil].
      assert (Hin : ret = None ->
                    exists e, In (XCalled (OpBase (OpCtxErr ctx)) (Some e)) new).
      { intros Hret. destruct (Hnil Hret) as (e & He). exists e.
        apply (proj1 (list_elem_of_In _ _)), last_Some_elem_of. exact He. }
      destruct synced'; xrun_calls; repeat xanswer_step;
        cbn [fst snd xcalls xanswered]; rewrite Hnew, <- ?app_assoc;
        (eexists; split; [reflexivity|]);
        cbn [app]; cbn [count_xcalls is_xWgDone is_xLock is_xUnlock is_Recv];
        rewrite ?count_xcalls_app;
        cbn [count_xcalls is_xWgDone is_xLock is_xUnlock is_Recv owed] in *;
        (split; [lia|]); (split; [lia|]); (split; [lia|]);
        (split;
         [split;
          [lia
          |intros Hret; destruct (Hin Hret) as (e & He); exists e; right;
           try (apply in_or_app; left); exact He]
         |intros err' [=]]).
    + eexists. split; [rewrite Hnew, <- ?app_assoc; reflexivity|].
      cbn [app count_xcalls is_xWgDone is_xLock is_xUnlock is_Recv].
      split; [lia|]. split; [lia|]. split; [lia|]. split; [lia | intros err' [=]].
Qed.

(** X23: what a batch of the manager does to the workloads.  The round
    of the loop of [workloadsWatcher] that receives a batch of events
    leaves every other namespace as it was under the lock, and gives its
    own namespace a map in which every key, a kind and a name, is as its
    last event in the batch left it: absent after a deletion, and
    otherwise with the uid, the state, the agent state and the
    intercepting clients of the event's workload; a key that no event of
    the batch is about stays as it was. *)
Theorem workloadsWatcher_batch (ctx : Context) (namespace : string) (synced : bool)
    (st : XSt W) (wls : list rpc_WorkloadEvent) :
  let cerr := handle (xbase xenv) _ (OpCtxErr ctx) (xworld st) in
  let recv := xhandle xenv _ OpRecv (snd cerr) in
  let ws := fst (handle (xbase xenv) _ (OpWorkloadsLock (xworkloads st)) (snd recv)) in
  let after := xworkloads (snd (workloadsWatcher_for xenv 1 ctx namespace synced st)) in
  fst cerr = None ->
  fst recv = inr wls ->
  (forall ns', ns' <> namespace -> after !! ns' = ws !! ns')
  /\ exists m,
       after !! namespace = Some m
       /\ forall k,
            m !! k
            = match last (remote_events_of k wls) with
              | Some we =>
                  if bool_decide (rwe_Type we = WorkloadEvent_DELETED) then None
                  else Some (remote_info (rwe_Workload we))
              | None => default ∅ (ws !! namespace) !! k
              end.
Proof.
  cbv zeta. cbn [workloadsWatcher_for]. unfold xlock_workloads, xstore_workloads.
  xrun_calls.
  destruct (handle (xbase xenv) _ (OpCtxErr ctx) (xworld st)) as [cerr w1].
  cbn [xworld xworkloads xanswered fst snd]. intros ->.
  cbn [xworld xworkloads xanswered fst snd].
  destruct (xhandle xenv _ OpRecv w1) as [recv w2].
  cbn [xworld xworkloads xanswered fst snd]. intros ->.
  cbn [xworld xworkloads xanswered fst snd].
  destruct (handle (xbase xenv) _ (OpWorkloadsLock (xworkloads st)) w2) as [ws w3].
  cbn [xworld xworkloads xanswered fst snd xcalls].
  match goal with
  | |- context [workloadsWatcher_events xenv namespace wls ?m ?st'] =>
      destruct (workloadsWatcher_events_run namespace wls m st')
        as (Hmap & _ & Hws & _);
      destruct (workloadsWatcher_events xenv namespace wls m st') as [m' st3]
  end.
  cbn [fst snd xcalls xworld xworkloads] in *.
  repeat xanswer_step.
  destruct synced; xrun_calls; repeat xanswer_step; cbn [xworkloads xanswered fst snd];
    (split;
     [intros ns' Hne; apply lookup_insert_ne; congruence
     |exists m'; split; [apply lookup_insert_eq | exact Hmap]]).
Qed.

End RemoteWatcherProperties.

Lemma workloadsWatcher_batch_witness :
  exists m,
    xworkloads (snd (workloadsWatcher_for xworld_web_added 1 CallerContext "default" true
                       (xstart 0%nat)))
      !! "default" = Some m
    /\ wl_interceptClients <$> m !! deployment "web" = Some ["alice"].
Proof.
  destruct (workloadsWatcher_batch xworld_web_added CallerContext "default" true
              (xstart 0%nat) _ eq_refl eq_refl)
    as (_ & m & Hm & Hk).
  exists m. split; [exact Hm|]. rewrite Hk. vm_compute. reflexivity.
Defined.
